(** * LibSerial: the unbuffered serial stream buffer ([SerialStreamBuf.cc])

    A shallow embedding of [SerialStreamBuf::Implementation]: the port
    life cycle ([Open]/[Close]), the termios getters and setters, and the
    unbuffered stream primitives with their one-byte putback slot.

    The object's fields are an explicit record, the operating system is an
    abstract interface ([OS]) whose calls are logged in a trace, and C++
    exceptions are an error result that keeps the state reached so far. *)

From Stdlib Require Import String ZArith List Bool Lia.
Import ListNotations.
Open Scope Z_scope.

(** ** Platform constants

    Values of [<termios.h>], [<fcntl.h>] and [<ios>] on Linux with glibc
    and libstdc++ (the headers are not part of the repository). *)
Module Posix.
(* c_iflag *)
Definition IGNBRK : Z := 1.
Definition IGNPAR : Z := 4.
Definition INPCK  : Z := 0x10.
Definition ISTRIP : Z := 0x20.
Definition IXON   : Z := 0x400.
Definition IXOFF  : Z := 0x1000.
(* c_cflag *)
Definition CSIZE  : Z := 0x30.
Definition CS5    : Z := 0.
Definition CS6    : Z := 0x10.
Definition CS7    : Z := 0x20.
Definition CS8    : Z := 0x30.
Definition CSTOPB : Z := 0x40.
Definition CREAD  : Z := 0x80.
Definition PARENB : Z := 0x100.
Definition PARODD : Z := 0x200.
Definition CLOCAL : Z := 0x800.
Definition CRTSCTS : Z := 0x80000000.
Definition B115200 : Z := 0x1002.
(* c_cc slots *)
Definition VTIME  : nat := 5.
Definition VMIN   : nat := 6.
Definition VSTART : nat := 8.
Definition VSTOP  : nat := 9.
Definition _POSIX_VDISABLE : Z := 0.
(* open(2), fcntl(2), tcflush(3) *)
Definition O_RDONLY   : Z := 0.
Definition O_WRONLY   : Z := 1.
Definition O_RDWR     : Z := 2.
Definition O_NOCTTY   : Z := 0x100.
Definition O_NONBLOCK : Z := 0x800.
Definition TCIFLUSH   : Z := 0.
Definition TCOFLUSH   : Z := 1.
Definition TCIOFLUSH  : Z := 2.
(* std::ios_base::openmode bits *)
Definition ios_in  : Z := 8.
Definition ios_out : Z := 16.
End Posix.
Import Posix.

(** [tcflag_t] is a 32-bit unsigned integer: [x &= ~m] and [x |= m]. *)
Definition mask32 : Z := 0xFFFFFFFF.
Definition clear_bits (x m : Z) : Z := Z.land x (Z.lxor mask32 m).
Definition set_bits (x m : Z) : Z := Z.lor x m.
(** C truth value of [x & m]. *)
Definition test_bits (x m : Z) : bool := negb (Z.land x m =? 0).

(** ** [struct termios] *)
Record termios : Type := mk_termios {
  c_iflag  : Z;
  c_oflag  : Z;
  c_cflag  : Z;
  c_lflag  : Z;
  c_line   : Z;
  c_cc     : nat -> Z;      (* cc_t c_cc[NCCS], by slot *)
  c_ispeed : Z;
  c_ospeed : Z
}.

(** [memset(&port_settings, 0, sizeof(port_settings))]. *)
Definition termios_zero : termios :=
  mk_termios 0 0 0 0 0 (fun _ => 0) 0 0.

Definition set_c_iflag (v : Z) (t : termios) : termios :=
  mk_termios v (c_oflag t) (c_cflag t) (c_lflag t) (c_line t) (c_cc t)
             (c_ispeed t) (c_ospeed t).
Definition set_c_oflag (v : Z) (t : termios) : termios :=
  mk_termios (c_iflag t) v (c_cflag t) (c_lflag t) (c_line t) (c_cc t)
             (c_ispeed t) (c_ospeed t).
Definition set_c_cflag (v : Z) (t : termios) : termios :=
  mk_termios (c_iflag t) (c_oflag t) v (c_lflag t) (c_line t) (c_cc t)
             (c_ispeed t) (c_ospeed t).
Definition set_c_lflag (v : Z) (t : termios) : termios :=
  mk_termios (c_iflag t) (c_oflag t) (c_cflag t) v (c_line t) (c_cc t)
             (c_ispeed t) (c_ospeed t).
Definition set_c_line (v : Z) (t : termios) : termios :=
  mk_termios (c_iflag t) (c_oflag t) (c_cflag t) (c_lflag t) v (c_cc t)
             (c_ispeed t) (c_ospeed t).
(** [t.c_cc[i] = v]. *)
Definition set_c_cc (i : nat) (v : Z) (t : termios) : termios :=
  mk_termios (c_iflag t) (c_oflag t) (c_cflag t) (c_lflag t) (c_line t)
             (fun j => if Nat.eqb j i then v else c_cc t j)
             (c_ispeed t) (c_ospeed t).

(** ** Enumerations ([SerialPortConstants.h]) *)

(** Modelled from the spec: the [BaudRate] enumeration is declared in a
    header that is not among the sources.  Its underlying type is
    [speed_t]; the code converts with [(speed_t)baudRate] and
    [BaudRate(input_baud)], so a rate is its [speed_t] value.  DEFAULT is
    the 115200 rate of the baseline, INVALID a sentinel that is no rate. *)
Definition BaudRate : Type := Z.
Definition BAUD_DEFAULT : BaudRate := B115200.
Definition BAUD_INVALID : BaudRate := mask32.

(** Modelled from the spec: character sizes {5,6,7,8}, DEFAULT = 8; the
    code casts them to and from the CSIZE bit group. *)
Inductive CharacterSize : Type :=
  CHAR_SIZE_5 | CHAR_SIZE_6 | CHAR_SIZE_7 | CHAR_SIZE_8.
Definition CHAR_SIZE_DEFAULT : CharacterSize := CHAR_SIZE_8.

Definition CharacterSize_bits (c : CharacterSize) : Z :=
  match c with
  | CHAR_SIZE_5 => CS5 | CHAR_SIZE_6 => CS6
  | CHAR_SIZE_7 => CS7 | CHAR_SIZE_8 => CS8
  end.
Definition CharacterSize_of_bits (b : Z) : CharacterSize :=
  if b =? CS5 then CHAR_SIZE_5
  else if b =? CS6 then CHAR_SIZE_6
  else if b =? CS7 then CHAR_SIZE_7
  else CHAR_SIZE_8.

(** Modelled from the spec: {NONE, SOFTWARE, HARDWARE}, DEFAULT = NONE,
    plus the INVALID sentinel. *)
Inductive FlowControl : Type :=
  | FLOW_CONTROL_HARDWARE
  | FLOW_CONTROL_SOFTWARE
  | FLOW_CONTROL_NONE
  | FLOW_CONTROL_INVALID.
Definition FLOW_CONTROL_DEFAULT : FlowControl := FLOW_CONTROL_NONE.

(** Modelled from the spec: {NONE, ODD, EVEN}, DEFAULT = NONE, plus the
    INVALID sentinel. *)
Inductive Parity : Type :=
  | PARITY_EVEN
  | PARITY_ODD
  | PARITY_NONE
  | PARITY_INVALID.
Definition PARITY_DEFAULT : Parity := PARITY_NONE.

(** Modelled from the spec: {1, 2}, DEFAULT = 1.  [STOP_BITS_OTHER]
    stands for a value of the underlying type that is no enumerator (a
    cast produces one); it is what reaches the [default:] label. *)
Inductive StopBits : Type :=
  | STOP_BITS_1
  | STOP_BITS_2
  | STOP_BITS_OTHER.
Definition STOP_BITS_DEFAULT : StopBits := STOP_BITS_1.

Definition VMIN_DEFAULT : Z := 0.
Definition VTIME_DEFAULT : Z := 0.

(** The XON and XOFF codes, as the source comments give them:
    [CTRL_Q; // 0x11 (021) ^q] and [CTRL_S; // 0x13 (023) ^s]. *)
Definition CTRL_Q : Z := 0x11.
Definition CTRL_S : Z := 0x13.

(** ** Characters and [std::char_traits<char>]

    A [char] is kept as its byte value in [0,255]; [int_type] is [int]. *)
Definition traits_eof : Z := -1.
Definition to_char_type (c : Z) : Z := c mod 256.
Definition to_int_type (ch : Z) : Z := ch mod 256.
Definition eq_int_type (a b : Z) : bool := a =? b.
Definition not_eof (c : Z) : Z := if eq_int_type c traits_eof then 0 else c.
(** [(cc_t)v] for a [short] v. *)
Definition to_cc_t (v : Z) : Z := v mod 256.

(** ** Exceptions *)
Inductive exception : Type :=
  | NotOpen
  | AlreadyOpen
  | OpenFailed
  | RuntimeError       (* std::runtime_error *)
  | InvalidArgument.   (* std::invalid_argument *)

Inductive Result (A : Type) : Type :=
  | Ok (a : A)
  | Err (e : exception).
Arguments Ok {A} a.
Arguments Err {A} e.

(** ** The object *)
Record Implementation : Type := mk_Implementation {
  mPutbackAvailable : bool;
  mPutbackChar      : Z;
  mFileDescriptor   : Z;
  mOldPortSettings  : termios
}.

(** [Implementation::Implementation()]. *)
Definition Implementation_new : Implementation :=
  mk_Implementation false 0 (-1) termios_zero.

(** [IsOpen]: [-1 != this->mFileDescriptor]. *)
Definition IsOpen (st : Implementation) : bool :=
  negb (-1 =? mFileDescriptor st).

(** The object with a byte in its putback slot, and with the slot empty. *)
Definition with_putback (ch : Z) (st : Implementation) : Implementation :=
  mk_Implementation true ch (mFileDescriptor st) (mOldPortSettings st).
Definition without_putback (st : Implementation) : Implementation :=
  mk_Implementation false (mPutbackChar st) (mFileDescriptor st)
                    (mOldPortSettings st).
(** The object after a successful [Close]. *)
Definition closed (st : Implementation) : Implementation :=
  mk_Implementation (mPutbackAvailable st) (mPutbackChar st) (-1)
                    (mOldPortSettings st).

(** [x & m] is not zero. *)
Definition bit_set (x m : Z) : Prop := Z.land x m <> 0.

(** ** The operating system *)

(** The calls the code issues, with their arguments. *)
Inductive syscall : Type :=
  | SYS_open (path : string) (flags : Z)
  | SYS_close (fd : Z)
  | SYS_tcgetattr (fd : Z)
  | SYS_tcsetattr (fd : Z) (t : termios)      (* always TCSANOW *)
  | SYS_tcflush (fd : Z) (queue : Z)
  | SYS_fcntl_getfl (fd : Z)
  | SYS_fcntl_setfl (fd : Z) (flags : Z)
  | SYS_ioctl_fionread (fd : Z)
  | SYS_read (fd : Z) (n : Z)
  | SYS_write (fd : Z) (bytes : list Z).

(** The calls that write device settings. *)
Definition is_settings_write (ev : syscall) : bool :=
  match ev with SYS_tcsetattr _ _ => true | _ => false end.
Definition settings_writes (tr : list syscall) : list syscall :=
  filter is_settings_write tr.

(** An operating system: a kernel state and what each call returns.
    [None] is a failed call (a negative return).  [os_read] hands back the
    bytes that arrived; [os_cfsetspeed], [os_cfsetospeed], [os_cfgetispeed]
    and [os_cfgetospeed] are the C library's pure helpers on the struct. *)
Record OS : Type := mk_OS {
  kstate : Type;
  os_open : string -> Z -> kstate -> option nat * kstate;
  os_close : Z -> kstate -> Z * kstate;
  os_tcgetattr : Z -> kstate -> option termios * kstate;
  os_tcsetattr : Z -> termios -> kstate -> Z * kstate;
  os_tcflush : Z -> Z -> kstate -> Z * kstate;
  os_fcntl_getfl : Z -> kstate -> Z * kstate;
  os_fcntl_setfl : Z -> Z -> kstate -> Z * kstate;
  os_ioctl_fionread : Z -> kstate -> (Z * Z) * kstate;
  os_read : Z -> Z -> kstate -> option (list Z) * kstate;
  os_write : Z -> list Z -> kstate -> Z * kstate;
  os_cfsetspeed : termios -> Z -> option termios;
  os_cfsetospeed : termios -> Z -> option termios;
  os_cfgetispeed : termios -> Z;
  os_cfgetospeed : termios -> Z
}.

(** [s] with the bytes [bs] stored from index [off] on. *)
Definition poke (s : list Z) (off : nat) (bs : list Z) : list Z :=
  firstn off s ++ bs ++ skipn (off + length bs) s.

Section Embedding.

Variable os : OS.

(** The world outside the object: the kernel and the log of calls. *)
Record World : Type := mk_World {
  w_kernel : kstate os;
  w_trace  : list syscall
}.

(** ** A state-and-exception monad

    A thrown exception keeps every assignment and system call made before
    the [throw]. *)
Definition M (A : Type) : Type :=
  Implementation -> World -> Result A * Implementation * World.

Definition ret {A} (a : A) : M A := fun st w => (Ok a, st, w).
Definition throw {A} (e : exception) : M A := fun st w => (Err e, st, w).
Definition bind {A B} (m : M A) (f : A -> M B) : M B :=
  fun st w =>
    match m st w with
    | (Ok a, st', w') => f a st' w'
    | (Err e, st', w') => (Err e, st', w')
    end.

Notation "x <- m ;; k" := (bind m (fun x => k))
  (at level 61, m at next level, right associativity).
Notation "' pat <- m ;; k" :=
  (bind m (fun x => match x with pat => k end))
  (at level 61, pat pattern, m at next level, right associativity).
Notation "m ;; k" := (bind m (fun _ => k))
  (at level 61, right associativity).

(** [if (cond) { body }] with nothing to do otherwise. *)
Definition when_ (cond : bool) (body : M unit) : M unit :=
  if cond then body else ret tt.

Definition this {A} (f : Implementation -> A) : M A :=
  fun st w => (Ok (f st), st, w).
Definition assign (f : Implementation -> Implementation) : M unit :=
  fun st w => (Ok tt, f st, w).

Definition set_mPutbackAvailable (b : bool) : M unit :=
  assign (fun st => mk_Implementation b (mPutbackChar st)
                      (mFileDescriptor st) (mOldPortSettings st)).
Definition set_mPutbackChar (c : Z) : M unit :=
  assign (fun st => mk_Implementation (mPutbackAvailable st) c
                      (mFileDescriptor st) (mOldPortSettings st)).
Definition set_mFileDescriptor (fd : Z) : M unit :=
  assign (fun st => mk_Implementation (mPutbackAvailable st)
                      (mPutbackChar st) fd (mOldPortSettings st)).
Definition set_mOldPortSettings (t : termios) : M unit :=
  assign (fun st => mk_Implementation (mPutbackAvailable st)
                      (mPutbackChar st) (mFileDescriptor st) t).

(** The guard every public operation starts with:
    [if (!this->IsOpen()) throw NotOpen(...)]. *)
Definition require_open {A} (body : M A) : M A :=
  fun st w => if IsOpen st then body st w else throw NotOpen st w.

(** The world after further calls [evs] that left the kernel in [k]. *)
Definition after (w : World) (k : kstate os) (evs : list syscall) : World :=
  mk_World k (w_trace w ++ evs).

(** The putback slot of [st'] is that of [st]. *)
Definition same_putback (st st' : Implementation) : Prop :=
  mPutbackAvailable st' = mPutbackAvailable st
  /\ mPutbackChar st' = mPutbackChar st.
(** An operation that never touches the putback slot, however it ends. *)
Definition keeps_putback {A} (m : M A) : Prop :=
  forall st w, same_putback st (snd (fst (m st w))).

(** The descriptor and the saved settings of [st'] are those of [st]. *)
Definition same_handle (st st' : Implementation) : Prop :=
  mFileDescriptor st' = mFileDescriptor st
  /\ mOldPortSettings st' = mOldPortSettings st.
(** An operation that ends, normally or by a throw, in an object related
    by [R] to the one it started from. *)
Definition preserves {A} (R : Implementation -> Implementation -> Prop)
    (m : M A) : Prop :=
  forall st w, R st (snd (fst (m st w))).

(** *** System calls, logged *)
Definition syscall_ {A} (ev : syscall)
    (call : kstate os -> A * kstate os) : M A :=
  fun st w =>
    let (a, k') := call (w_kernel w) in
    (Ok a, st, mk_World k' (w_trace w ++ [ev])).

Definition open (path : string) (flags : Z) : M Z :=
  syscall_ (SYS_open path flags)
    (fun k => let (r, k') := os_open os path flags k in
              (match r with Some fd => Z.of_nat fd | None => -1 end, k')).
Definition close (fd : Z) : M Z :=
  syscall_ (SYS_close fd) (os_close os fd).
Definition tcgetattr (fd : Z) : M (option termios) :=
  syscall_ (SYS_tcgetattr fd) (os_tcgetattr os fd).
Definition tcsetattr (fd : Z) (t : termios) : M Z :=
  syscall_ (SYS_tcsetattr fd t) (os_tcsetattr os fd t).
Definition tcflush (fd : Z) (queue : Z) : M Z :=
  syscall_ (SYS_tcflush fd queue) (os_tcflush os fd queue).
Definition fcntl_getfl (fd : Z) : M Z :=
  syscall_ (SYS_fcntl_getfl fd) (os_fcntl_getfl os fd).
Definition fcntl_setfl (fd : Z) (flags : Z) : M Z :=
  syscall_ (SYS_fcntl_setfl fd flags) (os_fcntl_setfl os fd flags).
Definition ioctl_fionread (fd : Z) : M (Z * Z) :=
  syscall_ (SYS_ioctl_fionread fd) (os_ioctl_fionread os fd).
(** [read(fd, buf, n)]: the return value and the bytes stored in [buf];
    at most [n] bytes are stored, a failed call returns -1 and stores
    nothing. *)
Definition read (fd : Z) (n : Z) : M (Z * list Z) :=
  syscall_ (SYS_read fd n)
    (fun k => let (r, k') := os_read os fd n k in
              (match r with
               | Some bs => let got := firstn (Z.to_nat n) bs in
                            (Z.of_nat (length got), got)
               | None => (-1, [])
               end, k')).
(** [write(fd, s, n)] with the [n] bytes at [s]. *)
Definition write (fd : Z) (bytes : list Z) : M Z :=
  syscall_ (SYS_write fd bytes) (os_write os fd bytes).

(** ** Port life cycle and configuration *)

(** [tcgetattr(this->mFileDescriptor, &port_settings)] into a zeroed
    local, throwing [on_fail] when the call fails. *)
Definition get_port_settings (on_fail : exception) : M termios :=
  fd <- this mFileDescriptor ;;
  r <- tcgetattr fd ;;
  match r with
  | Some port_settings => ret port_settings
  | None => throw on_fail
  end.

(** [tcsetattr(this->mFileDescriptor, TCSANOW, &port_settings)], throwing
    [on_fail] when the call fails. *)
Definition apply_port_settings (port_settings : termios)
    (on_fail : exception) : M unit :=
  fd <- this mFileDescriptor ;;
  r <- tcsetattr fd port_settings ;;
  when_ (r <? 0) (throw on_fail).

Definition FlushInputBuffer : M unit :=
  require_open (
    fd <- this mFileDescriptor ;;
    r <- tcflush fd TCIFLUSH ;;
    when_ (r <? 0) (throw RuntimeError)).

Definition FlushOutputBuffer : M unit :=
  require_open (
    fd <- this mFileDescriptor ;;
    r <- tcflush fd TCOFLUSH ;;
    when_ (r <? 0) (throw RuntimeError)).

Definition FlushIOBuffers : M unit :=
  require_open (
    fd <- this mFileDescriptor ;;
    r <- tcflush fd TCIOFLUSH ;;
    when_ (r <? 0) (throw RuntimeError)).

Definition IsDataAvailable : M bool :=
  require_open (
    fd <- this mFileDescriptor ;;
    ' (result, num_of_bytes_available) <- ioctl_fionread fd ;;
    ret ((result >=? 0) && (num_of_bytes_available >? 0))).

Definition SetBaudRate (baudRate : BaudRate) : M unit :=
  require_open (
    port_settings <- get_port_settings RuntimeError ;;
    match os_cfsetspeed os port_settings baudRate with
    | None => throw RuntimeError
    | Some port_settings1 =>
        match os_cfsetospeed os port_settings1 baudRate with
        | None => throw RuntimeError
        | Some port_settings2 =>
            apply_port_settings port_settings2 RuntimeError
        end
    end).

Definition GetBaudRate : M BaudRate :=
  require_open (
    port_settings <- get_port_settings RuntimeError ;;
    let input_baud := os_cfgetispeed os port_settings in
    let output_baud := os_cfgetospeed os port_settings in
    if negb (input_baud =? output_baud)
    then throw RuntimeError
    else ret input_baud).

Definition SetCharacterSize (characterSize : CharacterSize) : M unit :=
  require_open (
    port_settings <- get_port_settings RuntimeError ;;
    let port_settings :=
      match characterSize with
      | CHAR_SIZE_8 =>
          set_c_iflag (clear_bits (c_iflag port_settings) ISTRIP)
                      port_settings
      | _ =>
          set_c_iflag (set_bits (c_iflag port_settings) ISTRIP)
                      port_settings
      end in
    let port_settings :=
      set_c_cflag (clear_bits (c_cflag port_settings) CSIZE)
                  port_settings in
    let port_settings :=
      set_c_cflag (set_bits (c_cflag port_settings)
                            (CharacterSize_bits characterSize))
                  port_settings in
    apply_port_settings port_settings RuntimeError).

(** [SetCharacterSize] on the underlying value of its argument.
    [CharacterSize] is an enumeration over [tcflag_t] whose enumerators
    are the CSIZE encodings.  The body compares the argument with
    [CHAR_SIZE_8] and ORs [static_cast<tcflag_t>(characterSize)] into
    [c_cflag]; it has no [switch] and no [default:], so a value that is
    no enumerator (a cast produces one) runs the same statements. *)
Definition SetCharacterSize_value (characterSize : Z) : M unit :=
  require_open (
    port_settings <- get_port_settings RuntimeError ;;
    let port_settings :=
      if characterSize =? CharacterSize_bits CHAR_SIZE_8
      then set_c_iflag (clear_bits (c_iflag port_settings) ISTRIP)
                       port_settings
      else set_c_iflag (set_bits (c_iflag port_settings) ISTRIP)
                       port_settings in
    let port_settings :=
      set_c_cflag (clear_bits (c_cflag port_settings) CSIZE)
                  port_settings in
    let port_settings :=
      set_c_cflag (set_bits (c_cflag port_settings) characterSize)
                  port_settings in
    apply_port_settings port_settings RuntimeError).

Definition GetCharacterSize : M CharacterSize :=
  require_open (
    port_settings <- get_port_settings RuntimeError ;;
    ret (CharacterSize_of_bits (Z.land (c_cflag port_settings) CSIZE))).

Definition SetFlowControl (flowControlType : FlowControl) : M unit :=
  require_open (
    fd <- this mFileDescriptor ;;
    r <- tcflush fd TCIOFLUSH ;;
    when_ (r <? 0) (throw OpenFailed) ;;
    port_settings <- get_port_settings RuntimeError ;;
    port_settings <-
      match flowControlType with
      | FLOW_CONTROL_HARDWARE =>
          ret (set_c_cc VSTOP _POSIX_VDISABLE
              (set_c_cc VSTART _POSIX_VDISABLE
              (set_c_cflag (set_bits (c_cflag port_settings) CRTSCTS)
              (set_c_iflag (clear_bits (c_iflag port_settings)
                                       (Z.lor IXON IXOFF))
               port_settings))))
      | FLOW_CONTROL_SOFTWARE =>
          ret (set_c_cc VSTOP CTRL_S
              (set_c_cc VSTART CTRL_Q
              (set_c_cflag (clear_bits (c_cflag port_settings) CRTSCTS)
              (set_c_iflag (set_bits (c_iflag port_settings)
                                     (Z.lor IXON IXOFF))
               port_settings))))
      | FLOW_CONTROL_NONE =>
          ret (set_c_cflag (clear_bits (c_cflag port_settings) CRTSCTS)
              (set_c_iflag (clear_bits (c_iflag port_settings)
                                       (Z.lor IXON IXOFF))
               port_settings))
      | FLOW_CONTROL_INVALID => throw InvalidArgument
      end ;;
    apply_port_settings port_settings RuntimeError).

Definition GetFlowControl : M FlowControl :=
  require_open (
    port_settings <- get_port_settings RuntimeError ;;
    if test_bits (c_iflag port_settings) IXON &&
       test_bits (c_iflag port_settings) IXOFF &&
       (CTRL_Q =? c_cc port_settings VSTART) &&
       (CTRL_S =? c_cc port_settings VSTOP)
    then ret FLOW_CONTROL_SOFTWARE
    else if negb (test_bits (c_iflag port_settings) IXON ||
                  test_bits (c_iflag port_settings) IXOFF)
    then
      if test_bits (c_cflag port_settings) CRTSCTS
      then ret FLOW_CONTROL_HARDWARE
      else ret FLOW_CONTROL_NONE
    else ret FLOW_CONTROL_INVALID).

Definition SetParity (parityType : Parity) : M unit :=
  require_open (
    port_settings <- get_port_settings RuntimeError ;;
    port_settings <-
      match parityType with
      | PARITY_EVEN =>
          ret (set_c_iflag (set_bits (c_iflag port_settings) INPCK)
              (set_c_cflag
                 (clear_bits (set_bits (c_cflag port_settings) PARENB)
                             PARODD)
               port_settings))
      | PARITY_ODD =>
          ret (set_c_iflag (set_bits (c_iflag port_settings) INPCK)
              (set_c_cflag
                 (set_bits (set_bits (c_cflag port_settings) PARENB)
                           PARODD)
               port_settings))
      | PARITY_NONE =>
          ret (set_c_iflag (set_bits (c_iflag port_settings) IGNPAR)
              (set_c_cflag (clear_bits (c_cflag port_settings) PARENB)
               port_settings))
      | PARITY_INVALID => throw InvalidArgument
      end ;;
    apply_port_settings port_settings RuntimeError).

Definition GetParity : M Parity :=
  require_open (
    port_settings <- get_port_settings RuntimeError ;;
    if test_bits (c_cflag port_settings) PARENB
    then
      if test_bits (c_cflag port_settings) PARODD
      then ret PARITY_ODD
      else ret PARITY_EVEN
    else ret PARITY_NONE).

Definition SetNumberOfStopBits (numberOfStopBits : StopBits) : M unit :=
  require_open (
    port_settings <- get_port_settings RuntimeError ;;
    port_settings <-
      match numberOfStopBits with
      | STOP_BITS_1 =>
          ret (set_c_cflag (clear_bits (c_cflag port_settings) CSTOPB)
               port_settings)
      | STOP_BITS_2 =>
          ret (set_c_cflag (set_bits (c_cflag port_settings) CSTOPB)
               port_settings)
      | STOP_BITS_OTHER => throw InvalidArgument
      end ;;
    apply_port_settings port_settings RuntimeError).

Definition GetNumberOfStopBits : M StopBits :=
  require_open (
    port_settings <- get_port_settings RuntimeError ;;
    if test_bits (c_cflag port_settings) CSTOPB
    then ret STOP_BITS_2
    else ret STOP_BITS_1).

Definition SetVMin (vmin : Z) : M unit :=
  require_open (
    if (vmin <? 0) || (vmin >? 255)
    then throw InvalidArgument
    else
      port_settings <- get_port_settings RuntimeError ;;
      apply_port_settings (set_c_cc VMIN (to_cc_t vmin) port_settings)
                          RuntimeError).

Definition GetVMin : M Z :=
  require_open (
    port_settings <- get_port_settings RuntimeError ;;
    ret (c_cc port_settings VMIN)).

Definition SetVTime (vtime : Z) : M unit :=
  require_open (
    if (vtime <? 0) || (vtime >? 255)
    then throw InvalidArgument
    else
      port_settings <- get_port_settings RuntimeError ;;
      apply_port_settings (set_c_cc VTIME (to_cc_t vtime) port_settings)
                          RuntimeError).

Definition GetVTime : M Z :=
  require_open (
    port_settings <- get_port_settings RuntimeError ;;
    ret (c_cc port_settings VTIME)).

Definition GetFileDescriptor : M Z :=
  require_open (this mFileDescriptor).

Definition SetPortBlockingStatus (blockingStatus : bool) : M unit :=
  fd <- this mFileDescriptor ;;
  flags <- fcntl_getfl fd ;;
  if blockingStatus
  then
    r <- fcntl_setfl fd (Z.land flags (Z.lnot O_NONBLOCK)) ;;
    when_ (r <? 0) (throw RuntimeError)
  else
    r <- fcntl_setfl fd (Z.lor flags O_NONBLOCK) ;;
    when_ (r <? 0) (throw RuntimeError).

Definition GetPortBlockingStatus : M bool :=
  fd <- this mFileDescriptor ;;
  flags1 <- fcntl_getfl fd ;;
  let flags2 := Z.lor flags1 O_NONBLOCK in
  ret (flags1 =? flags2).

Definition SetParametersToDefault : M unit :=
  require_open (
    port_settings <- get_port_settings RuntimeError ;;
    let port_settings := set_c_iflag IGNBRK port_settings in
    let port_settings := set_c_oflag 0 port_settings in
    let port_settings :=
      set_c_cflag (Z.lor (Z.lor (Z.lor B115200 CS8) CLOCAL) CREAD)
                  port_settings in
    let port_settings := set_c_lflag 0 port_settings in
    let port_settings := set_c_line 0 port_settings in
    let port_settings := set_c_cc VMIN 0 port_settings in
    let port_settings := set_c_cc VTIME 0 port_settings in
    apply_port_settings port_settings OpenFailed ;;
    SetBaudRate BAUD_DEFAULT ;;
    SetCharacterSize CHAR_SIZE_DEFAULT ;;
    SetFlowControl FLOW_CONTROL_DEFAULT ;;
    SetParity PARITY_DEFAULT ;;
    SetNumberOfStopBits STOP_BITS_DEFAULT ;;
    SetVMin VMIN_DEFAULT ;;
    SetVTime VTIME_DEFAULT).

Definition InitializeSerialPort : M unit :=
  require_open (
    SetParametersToDefault ;;
    FlushIOBuffers ;;
    SetPortBlockingStatus true).

Definition Open (filename : string) (openMode : Z) : M unit :=
  is_open <- this IsOpen ;;
  if is_open : bool
  then throw AlreadyOpen
  else
    let flags :=
      if openMode =? Z.lor ios_in ios_out
      then Some (Z.lor (Z.lor O_RDWR O_NOCTTY) O_NONBLOCK)
      else if openMode =? ios_in
      then Some (Z.lor (Z.lor O_RDONLY O_NOCTTY) O_NONBLOCK)
      else if openMode =? ios_out
      then Some (Z.lor (Z.lor O_WRONLY O_NOCTTY) O_NONBLOCK)
      else None in
    match flags with
    | None => ret tt
    | Some flags =>
        fd <- open filename flags ;;
        set_mFileDescriptor fd ;;
        fd <- this mFileDescriptor ;;
        when_ (fd <? 0) (close fd ;; throw OpenFailed) ;;
        fd <- this mFileDescriptor ;;
        r <- tcgetattr fd ;;
        match r with
        | Some t => set_mOldPortSettings t
        | None => throw OpenFailed
        end ;;
        let port_settings := termios_zero in
        let port_settings :=
          set_c_cflag (set_bits (c_cflag port_settings)
                                (Z.lor CREAD CLOCAL))
                      port_settings in
        let port_settings := set_c_cc VMIN 0 port_settings in
        let port_settings := set_c_cc VTIME 0 port_settings in
        apply_port_settings port_settings OpenFailed ;;
        FlushIOBuffers ;;
        InitializeSerialPort
    end.

Definition Close : M unit :=
  require_open (
    old <- this mOldPortSettings ;;
    apply_port_settings old RuntimeError ;;
    fd <- this mFileDescriptor ;;
    r <- close fd ;;
    when_ (r <? 0) (throw RuntimeError) ;;
    set_mFileDescriptor (-1)).

(** ** The unbuffered stream primitives *)

(** [xsputn(s, n)]; [s] holds the characters at the pointer. *)
Definition xsputn (s : list Z) (n : Z) : M Z :=
  require_open (
    if n <=? 0 then ret 0
    else
      fd <- this mFileDescriptor ;;
      retval <- write fd (firstn (Z.to_nat n) s) ;;
      if retval <=? 0 then ret 0 else ret retval).

(** [xsgetn(s, n)]: the count returned and the array [s] afterwards. *)
Definition xsgetn (s : list Z) (n : Z) : M (Z * list Z) :=
  require_open (
    if n <=? 0 then ret (0, s)
    else
      let retval := -1 in
      avail <- this mPutbackAvailable ;;
      ' (retval, s) <-
        (if avail : bool
         then
           pc <- this mPutbackChar ;;
           let s := poke s 0 [pc] in
           let retval := retval + 1 in
           set_mPutbackAvailable false ;;
           if n >? 1
           then
             fd <- this mFileDescriptor ;;
             ' (retval, got) <- read fd (n - 1) ;;
             let s := poke s 1 got in
             if negb (retval =? -1)
             then ret (retval + 1, s)
             else ret (retval, s)
           else ret (retval, s)
         else
           fd <- this mFileDescriptor ;;
           ' (retval, got) <- read fd n ;;
           ret (retval, poke s 0 got)) ;;
      if retval <=? 0 then ret (0, s) else ret (retval, s)).

Definition overflow (character : Z) : M Z :=
  require_open (
    if eq_int_type character traits_eof
    then ret traits_eof
    else
      let out_ch := to_char_type character in
      fd <- this mFileDescriptor ;;
      retval <- write fd [out_ch] ;;
      if retval <=? 0
      then ret traits_eof
      else ret (not_eof character)).

Definition underflow : M Z :=
  require_open (
    avail <- this mPutbackAvailable ;;
    if avail : bool
    then
      next_ch <- this mPutbackChar ;;
      ret (to_int_type next_ch)
    else
      fd <- this mFileDescriptor ;;
      ' (retval, got) <- read fd 1 ;;
      let next_ch := match got with b :: _ => b | [] => 0 end in
      if retval =? 1
      then
        set_mPutbackChar next_ch ;;
        set_mPutbackAvailable true ;;
        ret (to_int_type next_ch)
      else if retval <=? 0
      then ret traits_eof
      else ret (to_int_type next_ch)).

Definition uflow : M Z :=
  require_open (
    next_ch <- underflow ;;
    set_mPutbackAvailable false ;;
    ret next_ch).

Definition pbackfail (character : Z) : M Z :=
  require_open (
    avail <- this mPutbackAvailable ;;
    if avail : bool
    then ret traits_eof
    else if eq_int_type character traits_eof
    then ret traits_eof
    else
      set_mPutbackChar (to_char_type character) ;;
      set_mPutbackAvailable true ;;
      ret (not_eof character)).

Definition showmanyc : M Z :=
  require_open (
    avail <- this mPutbackAvailable ;;
    if avail : bool
    then ret 1
    else
      fd <- this mFileDescriptor ;;
      flags <- fcntl_getfl fd ;;
      r <- fcntl_setfl fd (Z.lor flags O_NONBLOCK) ;;
      if r <? 0 then ret (-1)
      else
        ' (retval, got) <- read fd 1 ;;
        (* the byte is read straight into mPutbackChar *)
        match got with
        | b :: _ => set_mPutbackChar b
        | [] => ret tt
        end ;;
        retval <-
          (if retval =? 1
           then set_mPutbackAvailable true ;; ret retval
           else ret 0) ;;
        r <- fcntl_setfl fd flags ;;
        if r <? 0 then ret (-1) else ret retval).

(** ** Construction and destruction *)

(** [Implementation(fileName, baudRate, characterSize, flowControlType,
    parityType, stopBits)], run on the storage of the new object: the
    member initialisers give [mFileDescriptor] the value -1 and
    [mOldPortSettings] its zeroed default; the two putback members are
    not initialised and keep what the storage holds. *)
Definition Implementation_ctor (fileName : string) (baudRate : BaudRate)
    (characterSize : CharacterSize) (flowControlType : FlowControl)
    (parityType : Parity) (stopBits : StopBits) : M unit :=
  set_mFileDescriptor (-1) ;;
  set_mOldPortSettings termios_zero ;;
  Open fileName (Z.lor ios_in ios_out) ;;
  SetBaudRate baudRate ;;
  SetCharacterSize characterSize ;;
  SetFlowControl flowControlType ;;
  SetParity parityType ;;
  SetNumberOfStopBits stopBits.

(** [~Implementation()]. *)
Definition Implementation_dtor : M unit :=
  is_open <- this IsOpen ;;
  if is_open : bool then Close else ret tt.

End Embedding.

Arguments ret {os A} a _ _.
Arguments throw {os A} e _ _.
Arguments mk_World {os} _ _.
Arguments w_kernel {os} _.
Arguments w_trace {os} _.
Arguments after {os} w k evs.
Arguments keeps_putback {os A} m.
Arguments preserves {os A} R m.

(** ** A line that keeps its settings

    On descriptor [fd] the calls on the settings succeed: [tcgetattr]
    returns the line's current settings [settings k] and does not change
    them, [tcsetattr] replaces them by the struct it is given, and
    [tcflush] leaves them alone. *)
Record steady_line (os : OS) (fd : Z) (settings : kstate os -> termios)
  : Prop := mk_steady_line {
  steady_tcgetattr : forall k,
    fst (os_tcgetattr os fd k) = Some (settings k)
    /\ settings (snd (os_tcgetattr os fd k)) = settings k;
  steady_tcsetattr : forall t k,
    0 <= fst (os_tcsetattr os fd t k)
    /\ settings (snd (os_tcsetattr os fd t k)) = t;
  steady_tcflush : forall queue k,
    0 <= fst (os_tcflush os fd queue k)
    /\ settings (snd (os_tcflush os fd queue k)) = settings k
}.

(** On descriptor [fd] the calls on the status flags leave the line's
    settings alone, and setting the flags succeeds. *)
Record steady_flags (os : OS) (fd : Z) (settings : kstate os -> termios)
  : Prop := mk_steady_flags {
  steady_getfl : forall k,
    settings (snd (os_fcntl_getfl os fd k)) = settings k;
  steady_setfl : forall flags k,
    0 <= fst (os_fcntl_setfl os fd flags k)
    /\ settings (snd (os_fcntl_setfl os fd flags k)) = settings k
}.

(** The three open modes [Open] accepts, each with the access mode it
    passes to [open]. *)
Definition open_access (openMode access : Z) : Prop :=
  (openMode = Z.lor ios_in ios_out /\ access = O_RDWR)
  \/ (openMode = ios_in /\ access = O_RDONLY)
  \/ (openMode = ios_out /\ access = O_WRONLY).

(** ** A simulated device

    One serial line behind descriptor 3: the kernel keeps the line's
    settings, the descriptor's status flags and the two queues.  The
    [faults] switch individual calls to failure. *)
Module Sim.

Record faults : Type := mk_faults {
  fail_tcflush : bool;
  fail_tcgetattr : bool;
  fail_read : bool;
  fail_setfl : bool
}.

Definition healthy : faults := mk_faults false false false false.

Record kernel : Type := mk_kernel {
  k_termios : termios;
  k_flags   : Z;
  k_rx      : list Z;     (* received, not yet read *)
  k_tx      : list Z      (* written *)
}.

(** The rates [cfsetspeed] accepts: B0..B38400 and B57600..B4000000. *)
Definition valid_speed (s : Z) : bool :=
  ((0 <=? s) && (s <=? 15)) || ((0x1001 <=? s) && (s <=? 0x100F)).

Definition with_ospeed (t : termios) (s : Z) : termios :=
  mk_termios (c_iflag t) (c_oflag t) (c_cflag t) (c_lflag t) (c_line t)
             (c_cc t) (c_ispeed t) s.
Definition with_speed (t : termios) (s : Z) : termios :=
  mk_termios (c_iflag t) (c_oflag t) (c_cflag t) (c_lflag t) (c_line t)
             (c_cc t) s s.

Definition os (f : faults) : OS := {|
  kstate := kernel;
  os_open := fun _ flags k =>
    (Some 3%nat, mk_kernel (k_termios k) flags (k_rx k) (k_tx k));
  os_close := fun _ k => (0, k);
  os_tcgetattr := fun _ k =>
    (if fail_tcgetattr f then None else Some (k_termios k), k);
  os_tcsetattr := fun _ t k =>
    (0, mk_kernel t (k_flags k) (k_rx k) (k_tx k));
  os_tcflush := fun _ queue k =>
    if fail_tcflush f then (-1, k)
    else (0, mk_kernel (k_termios k) (k_flags k)
               (if queue =? TCOFLUSH then k_rx k else [])
               (k_tx k));
  os_fcntl_getfl := fun _ k => (k_flags k, k);
  os_fcntl_setfl := fun _ flags k =>
    if fail_setfl f then (-1, k)
    else (0, mk_kernel (k_termios k) flags (k_rx k) (k_tx k));
  os_ioctl_fionread := fun _ k => ((0, Z.of_nat (length (k_rx k))), k);
  os_read := fun _ n k =>
    if fail_read f then (None, k)
    else (Some (firstn (Z.to_nat n) (k_rx k)),
          mk_kernel (k_termios k) (k_flags k)
                    (skipn (Z.to_nat n) (k_rx k)) (k_tx k));
  os_write := fun _ bytes k =>
    (Z.of_nat (length bytes),
     mk_kernel (k_termios k) (k_flags k) (k_rx k) (k_tx k ++ bytes));
  os_cfsetspeed := fun t s =>
    if valid_speed s then Some (with_speed t s) else None;
  os_cfsetospeed := fun t s =>
    if valid_speed s then Some (with_ospeed t s) else None;
  os_cfgetispeed := c_ispeed;
  os_cfgetospeed := c_ospeed
|}.

(** A line with [rx] waiting to be read, and no call made yet. *)
Definition world (f : faults) (rx : list Z) : World (os f) :=
  mk_World (mk_kernel termios_zero 0 rx [] : kstate (os f)) [].

(** An object whose port is open on descriptor 3. *)
Definition opened (avail : bool) (ch : Z) : Implementation :=
  mk_Implementation avail ch 3 termios_zero.

(** The device with every call succeeding, with [read] failing, and
    with [tcflush] failing. *)
Definition line : OS := os healthy.
Definition read_fails : faults := mk_faults false false true false.
Definition flush_fails : faults := mk_faults true false false false.

(** A session: 'A' (65) is pending in the slot and 'B' (66) waits on
    the line; the port is closed and then opened again. *)
Definition after_close : Result unit * Implementation * World line :=
  Eval vm_compute in
    Close line (opened true 65) (world healthy [66]).
Definition after_reopen : Result unit * Implementation * World line :=
  Eval vm_compute in
    Open line "/dev/ttyS0" (Z.lor ios_in ios_out)
         (snd (fst after_close)) (snd after_close).

(** The device with [tcgetattr] failing, and a system on which the
    device file cannot be opened. *)
Definition settings_unreadable : faults := mk_faults false true false false.
Definition no_device : OS := {|
  kstate := kernel;
  os_open := fun _ _ k => (None, k);
  os_close := fun _ k => (-1, k);
  os_tcgetattr := os_tcgetattr line;
  os_tcsetattr := os_tcsetattr line;
  os_tcflush := os_tcflush line;
  os_fcntl_getfl := os_fcntl_getfl line;
  os_fcntl_setfl := os_fcntl_setfl line;
  os_ioctl_fionread := os_ioctl_fionread line;
  os_read := os_read line;
  os_write := os_write line;
  os_cfsetspeed := os_cfsetspeed line;
  os_cfsetospeed := os_cfsetospeed line;
  os_cfgetispeed := os_cfgetispeed line;
  os_cfgetospeed := os_cfgetospeed line
|}.

End Sim.

(** * Properties *)

Section Properties.

Variable os : OS.

(** ** The state guard *)

Lemma IsOpen_false_iff (st : Implementation) :
  IsOpen st = false <-> mFileDescriptor st = -1.
Proof.
  unfold IsOpen. rewrite negb_false_iff, Z.eqb_eq. split; congruence.
Qed.

Lemma IsOpen_true_iff (st : Implementation) :
  IsOpen st = true <-> mFileDescriptor st <> -1.
Proof.
  unfold IsOpen. rewrite negb_true_iff, Z.eqb_neq. split; congruence.
Qed.

Lemma require_open_closed {A} (body : M os A) st w :
  mFileDescriptor st = -1 ->
  require_open os body st w = (Err NotOpen, st, w).
Proof.
  intros H. apply IsOpen_false_iff in H.
  unfold require_open. now rewrite H.
Qed.

Lemma require_open_open {A} (body : M os A) st w :
  IsOpen st = true ->
  require_open os body st w = body st w.
Proof.
  intros H. unfold require_open. now rewrite H.
Qed.

(** Every operation that starts with the guard, applied to a closed port. *)
Ltac closed_port H :=
  match goal with
  | |- ?op = _ =>
      let h := fresh in
      first [ apply (require_open_closed _ _ _ H)
            | unfold GetFileDescriptor, FlushInputBuffer, FlushOutputBuffer,
                FlushIOBuffers, IsDataAvailable, SetParametersToDefault,
                InitializeSerialPort, SetBaudRate, GetBaudRate,
                SetCharacterSize, GetCharacterSize, SetFlowControl,
                GetFlowControl, SetParity, GetParity, SetNumberOfStopBits,
                GetNumberOfStopBits, SetVMin, GetVMin, SetVTime, GetVTime,
                Close, xsputn, xsgetn, overflow, underflow, uflow,
                pbackfail, showmanyc;
              apply (require_open_closed _ _ _ H) ]
  end.

(** C7. Opening an instance that is already open raises AlreadyOpen;
    closing a closed instance raises NotOpen; and every getter, setter,
    flush and stream operation called while the descriptor is the invalid
    sentinel -1 raises NotOpen, with the object untouched and no system
    call issued. *)
Theorem closed_and_open_guards
    (st_open st_closed : Implementation) (w : World os) :
  mFileDescriptor st_open <> -1 ->
  mFileDescriptor st_closed = -1 ->
  (forall filename openMode,
      Open os filename openMode st_open w = (Err AlreadyOpen, st_open, w))
  /\ Close os st_closed w = (Err NotOpen, st_closed, w)
  (* getters *)
  /\ GetBaudRate os st_closed w = (Err NotOpen, st_closed, w)
  /\ GetCharacterSize os st_closed w = (Err NotOpen, st_closed, w)
  /\ GetFlowControl os st_closed w = (Err NotOpen, st_closed, w)
  /\ GetParity os st_closed w = (Err NotOpen, st_closed, w)
  /\ GetNumberOfStopBits os st_closed w = (Err NotOpen, st_closed, w)
  /\ GetVMin os st_closed w = (Err NotOpen, st_closed, w)
  /\ GetVTime os st_closed w = (Err NotOpen, st_closed, w)
  /\ GetFileDescriptor os st_closed w = (Err NotOpen, st_closed, w)
  /\ IsDataAvailable os st_closed w = (Err NotOpen, st_closed, w)
  (* setters *)
  /\ (forall b, SetBaudRate os b st_closed w = (Err NotOpen, st_closed, w))
  /\ (forall c,
        SetCharacterSize os c st_closed w = (Err NotOpen, st_closed, w))
  /\ (forall f,
        SetFlowControl os f st_closed w = (Err NotOpen, st_closed, w))
  /\ (forall p, SetParity os p st_closed w = (Err NotOpen, st_closed, w))
  /\ (forall n,
        SetNumberOfStopBits os n st_closed w = (Err NotOpen, st_closed, w))
  /\ (forall v, SetVMin os v st_closed w = (Err NotOpen, st_closed, w))
  /\ (forall v, SetVTime os v st_closed w = (Err NotOpen, st_closed, w))
  /\ SetParametersToDefault os st_closed w = (Err NotOpen, st_closed, w)
  /\ InitializeSerialPort os st_closed w = (Err NotOpen, st_closed, w)
  (* flushes *)
  /\ FlushInputBuffer os st_closed w = (Err NotOpen, st_closed, w)
  /\ FlushOutputBuffer os st_closed w = (Err NotOpen, st_closed, w)
  /\ FlushIOBuffers os st_closed w = (Err NotOpen, st_closed, w)
  (* stream I/O *)
  /\ (forall s n, xsputn os s n st_closed w = (Err NotOpen, st_closed, w))
  /\ (forall s n, xsgetn os s n st_closed w = (Err NotOpen, st_closed, w))
  /\ (forall c, overflow os c st_closed w = (Err NotOpen, st_closed, w))
  /\ underflow os st_closed w = (Err NotOpen, st_closed, w)
  /\ uflow os st_closed w = (Err NotOpen, st_closed, w)
  /\ (forall c, pbackfail os c st_closed w = (Err NotOpen, st_closed, w))
  /\ showmanyc os st_closed w = (Err NotOpen, st_closed, w).
Proof.
  intros Hopen Hclosed.
  split.
  { intros filename openMode. apply IsOpen_true_iff in Hopen.
    unfold Open, bind, this. now rewrite Hopen. }
  repeat split; intros; closed_port Hclosed.
Qed.

(** C8. With an open mode other than in|out, in or out, Open on a closed
    instance returns normally without opening: no call reaches the
    operating system, and the descriptor stays -1. *)
Theorem Open_unsupported_mode_is_noop
    (filename : string) (openMode : Z) (st : Implementation) (w : World os) :
  mFileDescriptor st = -1 ->
  openMode <> Z.lor ios_in ios_out ->
  openMode <> ios_in ->
  openMode <> ios_out ->
  Open os filename openMode st w = (Ok tt, st, w)
  /\ w_trace (snd (Open os filename openMode st w)) = w_trace w
  /\ mFileDescriptor (snd (fst (Open os filename openMode st w))) = -1
  /\ IsOpen (snd (fst (Open os filename openMode st w))) = false.
Proof.
  intros Hclosed Hrw Hr Hw.
  assert (E : Open os filename openMode st w = (Ok tt, st, w)).
  { unfold Open, bind, this.
    apply IsOpen_false_iff in Hclosed. rewrite Hclosed.
    apply Z.eqb_neq in Hrw, Hr, Hw. rewrite Hrw, Hr, Hw. reflexivity. }
  rewrite E; cbn [fst snd]. repeat split; trivial.
  now apply IsOpen_false_iff.
Qed.

(** ** Stepping through an operation *)

Ltac enter_open H :=
  rewrite (require_open_open _ _ _ H);
  cbv beta iota delta
    [bind ret throw this assign when_ syscall_
     set_mPutbackAvailable set_mPutbackChar set_mFileDescriptor
     set_mOldPortSettings get_port_settings apply_port_settings
     open close tcgetattr tcsetattr tcflush fcntl_getfl fcntl_setfl
     ioctl_fionread read write].

Lemma not_eof_id (c : Z) : c <> traits_eof -> not_eof c = c.
Proof.
  intros H. unfold not_eof, eq_int_type.
  apply Z.eqb_neq in H. now rewrite H.
Qed.

(** ** Writing *)

(** C9. On an open port, [xsputn] with n <= 0 does nothing and returns
    0; otherwise it issues exactly one [write], returning 0 when that
    write reports an error or zero bytes and the count written
    otherwise.  [overflow] of the end-of-stream value writes nothing and
    returns end-of-stream; of a character it issues one one-byte write
    and returns end-of-stream when that fails or transfers nothing, and
    the character itself, which is not end-of-stream, on success. *)
Theorem write_path_contract
    (st : Implementation) (w : World os) (s : list Z) (n character : Z) :
  IsOpen st = true ->
  let fd := mFileDescriptor st in
  (n <= 0 -> xsputn os s n st w = (Ok 0, st, w))
  /\ (0 < n ->
      let bytes := firstn (Z.to_nat n) s in
      let retval := fst (os_write os fd bytes (w_kernel w)) in
      let k' := snd (os_write os fd bytes (w_kernel w)) in
      xsputn os s n st w
      = (Ok (if retval <=? 0 then 0 else retval), st,
         after w k' [SYS_write fd bytes]))
  /\ overflow os traits_eof st w = (Ok traits_eof, st, w)
  /\ (character <> traits_eof ->
      let bytes := [to_char_type character] in
      let retval := fst (os_write os fd bytes (w_kernel w)) in
      let k' := snd (os_write os fd bytes (w_kernel w)) in
      overflow os character st w
      = (Ok (if retval <=? 0 then traits_eof else character), st,
         after w k' [SYS_write fd bytes])).
Proof.
  intros Hopen fd. repeat split.
  - intros Hn. unfold xsputn. enter_open Hopen.
    apply Z.leb_le in Hn. now rewrite Hn.
  - intros Hn bytes retval k'. unfold xsputn. enter_open Hopen.
    assert (E : (n <=? 0) = false) by (apply Z.leb_gt; lia).
    rewrite E. subst retval k' bytes fd. unfold after.
    destruct (os_write os _ _ _) as [r k1]; cbn [fst snd].
    now destruct (r <=? 0).
  - unfold overflow. enter_open Hopen. reflexivity.
  - intros Hc bytes retval k'. unfold overflow. enter_open Hopen.
    unfold eq_int_type. apply Z.eqb_neq in Hc as E. rewrite E.
    subst retval k' bytes fd. unfold after.
    destruct (os_write os _ _ _) as [r k1]; cbn [fst snd].
    destruct (r <=? 0); [reflexivity|].
    now rewrite not_eof_id.
Qed.

(** ** The putback slot *)

(** C3. On an open port, [pbackfail] returns end-of-stream and leaves
    the slot as it is when a putback byte is already pending, and also
    when its argument is end-of-stream; otherwise it stores the byte,
    marks the slot full and returns the character. *)
Theorem pbackfail_capacity_one
    (st : Implementation) (w : World os) (character : Z) :
  IsOpen st = true ->
  (mPutbackAvailable st = true ->
     pbackfail os character st w = (Ok traits_eof, st, w))
  /\ (character = traits_eof ->
     pbackfail os character st w = (Ok traits_eof, st, w))
  /\ (mPutbackAvailable st = false -> character <> traits_eof ->
     pbackfail os character st w
     = (Ok character, with_putback (to_char_type character) st, w)
     /\ (0 <= character < 256 ->
         to_int_type (to_char_type character) = character)).
Proof.
  intros Hopen. repeat split.
  - intros Hav. unfold pbackfail. enter_open Hopen. now rewrite Hav.
  - intros ->. unfold pbackfail. enter_open Hopen.
    now destruct (mPutbackAvailable st).
  - unfold pbackfail. enter_open Hopen. rewrite H.
    unfold eq_int_type. apply Z.eqb_neq in H0 as E. rewrite E.
    now rewrite not_eof_id.
  - intros Hr. unfold to_int_type, to_char_type.
    rewrite Z.mod_mod by lia. apply Z.mod_small. lia.
Qed.

(** [underflow] on an open port, case by case. *)
Lemma underflow_pending (st : Implementation) (w : World os) :
  IsOpen st = true ->
  mPutbackAvailable st = true ->
  underflow os st w = (Ok (to_int_type (mPutbackChar st)), st, w).
Proof.
  intros Hopen Hav. unfold underflow. enter_open Hopen. now rewrite Hav.
Qed.

Lemma underflow_empty (st : Implementation) (w : World os) :
  IsOpen st = true ->
  mPutbackAvailable st = false ->
  let fd := mFileDescriptor st in
  let w' := after w (snd (os_read os fd 1 (w_kernel w))) [SYS_read fd 1] in
  underflow os st w
  = match fst (os_read os fd 1 (w_kernel w)) with
    | Some (b :: _) => (Ok (to_int_type b), with_putback b st, w')
    | _ => (Ok traits_eof, st, w')
    end.
Proof.
  intros Hopen Hav fd w'. unfold underflow. enter_open Hopen.
  rewrite Hav. subst w' fd. unfold after.
  destruct (os_read os _ _ _) as [[[|b bs]|] k1]; reflexivity.
Qed.

Lemma to_int_type_not_eof (ch : Z) : to_int_type ch <> traits_eof.
Proof.
  unfold to_int_type, traits_eof.
  pose proof (Z.mod_pos_bound ch 256). lia.
Qed.

Lemma uflow_delegates (st : Implementation) (w : World os) :
  IsOpen st = true ->
  uflow os st w
  = (fst (fst (underflow os st w)),
     without_putback (snd (fst (underflow os st w))),
     snd (underflow os st w)).
Proof.
  intros Hopen. unfold uflow. enter_open Hopen.
  destruct (mPutbackAvailable st) eqn:Hav.
  - rewrite (underflow_pending _ _ Hopen Hav). reflexivity.
  - rewrite (underflow_empty _ _ Hopen Hav).
    destruct (os_read os _ _ _) as [[[|b bs]|] k1]; reflexivity.
Qed.

(** C2. On an open port, once [underflow] has returned a byte the slot
    is full; a second [underflow] returns the same byte and changes
    nothing (no read is issued); a following [uflow] returns that byte
    again and empties the slot.  [uflow] is [underflow] followed by
    clearing the flag, whatever [underflow] returned. *)
Theorem peek_twice_then_advance
    (st st1 : Implementation) (w w1 : World os) (c : Z) :
  IsOpen st = true ->
  underflow os st w = (Ok c, st1, w1) ->
  c <> traits_eof ->
  mPutbackAvailable st1 = true
  /\ underflow os st1 w1 = (Ok c, st1, w1)
  /\ uflow os st1 w1 = (Ok c, without_putback st1, w1)
  /\ mPutbackAvailable (snd (fst (uflow os st1 w1))) = false
  /\ (forall st0 w0, IsOpen st0 = true ->
        uflow os st0 w0
        = (fst (fst (underflow os st0 w0)),
           without_putback (snd (fst (underflow os st0 w0))),
           snd (underflow os st0 w0))).
Proof.
  intros Hopen Hfirst Hc.
  assert (Hst1 : IsOpen st1 = true
                 /\ mPutbackAvailable st1 = true
                 /\ c = to_int_type (mPutbackChar st1)).
  { destruct (mPutbackAvailable st) eqn:Hav.
    - rewrite (underflow_pending _ _ Hopen Hav) in Hfirst.
      inversion Hfirst; subst. auto.
    - rewrite (underflow_empty _ _ Hopen Hav) in Hfirst.
      destruct (fst (os_read os _ _ _)) as [[|b bs]|];
        inversion Hfirst; subst; try contradiction.
      repeat split. exact Hopen. }
  destruct Hst1 as (Hopen1 & Hav1 & ->).
  assert (Hsecond :
            underflow os st1 w1 = (Ok (to_int_type (mPutbackChar st1)), st1, w1))
    by (apply underflow_pending; assumption).
  repeat split.
  - exact Hav1.
  - exact Hsecond.
  - rewrite (uflow_delegates _ _ Hopen1), Hsecond. reflexivity.
  - rewrite (uflow_delegates _ _ Hopen1). reflexivity.
  - intros st0 w0 H0. now apply uflow_delegates.
Qed.

(** ** The availability probe *)

(** C4. On an open port, [showmanyc] returns 1 at once, with no system
    call, when a putback byte is pending.  Otherwise it reads the
    descriptor's flags, sets them with O_NONBLOCK added (returning -1 if
    that fails, after these two calls only), attempts a one-byte read,
    stores a byte read as the pending putback, sets the flags back to the
    value read at the start, and returns -1 if that last call fails, else
    1 when a byte was read and 0 when the read failed or gave nothing. *)
Theorem showmanyc_probe (st : Implementation) (w : World os) :
  IsOpen st = true ->
  let fd := mFileDescriptor st in
  (mPutbackAvailable st = true -> showmanyc os st w = (Ok 1, st, w))
  /\ (mPutbackAvailable st = false ->
      forall flags k1 r1 k2,
        os_fcntl_getfl os fd (w_kernel w) = (flags, k1) ->
        os_fcntl_setfl os fd (Z.lor flags O_NONBLOCK) k1 = (r1, k2) ->
        (r1 < 0 ->
           showmanyc os st w
           = (Ok (-1), st,
              after w k2 [SYS_fcntl_getfl fd;
                          SYS_fcntl_setfl fd (Z.lor flags O_NONBLOCK)]))
        /\ (0 <= r1 ->
            forall got k3 r2 k4,
              os_read os fd 1 k2 = (got, k3) ->
              os_fcntl_setfl os fd flags k3 = (r2, k4) ->
              let w' := after w k4
                          [SYS_fcntl_getfl fd;
                           SYS_fcntl_setfl fd (Z.lor flags O_NONBLOCK);
                           SYS_read fd 1;
                           SYS_fcntl_setfl fd flags] in
              showmanyc os st w
              = match got with
                | Some (b :: _) =>
                    (Ok (if r2 <? 0 then -1 else 1), with_putback b st, w')
                | _ =>
                    (Ok (if r2 <? 0 then -1 else 0), st, w')
                end)).
Proof.
  intros Hopen fd. split.
  - intros Hav. unfold showmanyc. enter_open Hopen. now rewrite Hav.
  - intros Hav flags k1 r1 k2 Hget Hset. subst fd. split.
    + intros Hr1. unfold showmanyc. enter_open Hopen.
      rewrite Hav, Hget. cbn [w_kernel w_trace]. rewrite Hset.
      apply Z.ltb_lt in Hr1. rewrite Hr1. unfold after.
      now rewrite <- app_assoc.
    + intros Hr1 got k3 r2 k4 Hread Hrestore w'.
      unfold showmanyc. enter_open Hopen.
      rewrite Hav, Hget. cbn [w_kernel w_trace]. rewrite Hset.
      assert (E : (r1 <? 0) = false) by (apply Z.ltb_ge; lia).
      rewrite E. cbn [w_kernel w_trace]. rewrite Hread.
      subst w'. unfold after.
      change (Z.to_nat 1) with 1%nat.
      destruct got as [[|b bs]|]; cbn [firstn length];
        [ change (Z.of_nat 0 =? 1) with false
        | change (Z.of_nat 1 =? 1) with true
        | change (-1 =? 1) with false ];
        cbn beta iota; cbn [w_kernel w_trace]; rewrite Hrestore;
        rewrite <- !app_assoc; cbn [app];
        destruct (r2 <? 0); reflexivity.
Qed.

(** ** Reading a block *)

(** [xsgetn] asked for one character while a putback byte is pending:
    the byte goes to [s[0]] and the slot is emptied, and the count
    returned is 0. *)
Lemma xsgetn_putback_single
    (st : Implementation) (w : World os) (s : list Z) :
  IsOpen st = true ->
  mPutbackAvailable st = true ->
  xsgetn os s 1 st w
  = (Ok (0, poke s 0 [mPutbackChar st]), without_putback st, w).
Proof.
  intros Hopen Hav. unfold xsgetn. enter_open Hopen.
  change (1 <=? 0) with false. cbv beta iota. rewrite Hav.
  reflexivity.
Qed.

(** C1 (as the code has it). On an open port with a putback byte
    pending, [xsgetn] for n > 1 places the byte at [s[0]], empties the
    slot and issues one read of n-1 bytes into [s + 1]; it returns 1 plus
    the number of bytes read when the read does not fail, and 0 when the
    read fails. *)
Theorem xsgetn_with_putback
    (st : Implementation) (w : World os) (s : list Z) (n : Z) :
  IsOpen st = true ->
  mPutbackAvailable st = true ->
  1 < n ->
  let fd := mFileDescriptor st in
  let s0 := poke s 0 [mPutbackChar st] in
  let w' := after w (snd (os_read os fd (n - 1) (w_kernel w)))
                  [SYS_read fd (n - 1)] in
  xsgetn os s n st w
  = match fst (os_read os fd (n - 1) (w_kernel w)) with
    | Some bs =>
        let got := firstn (Z.to_nat (n - 1)) bs in
        (Ok (1 + Z.of_nat (length got), poke s0 1 got),
         without_putback st, w')
    | None =>
        (Ok (0, s0), without_putback st, w')
    end.
Proof.
  intros Hopen Hav Hn fd s0 w'. unfold xsgetn. enter_open Hopen.
  assert (E1 : (n <=? 0) = false) by (apply Z.leb_gt; lia).
  assert (E2 : (n >? 1) = true) by (apply Z.gtb_lt; lia).
  rewrite E1. cbv beta iota. rewrite Hav, E2.
  cbn [mFileDescriptor w_kernel w_trace].
  subst w' s0 fd. unfold after.
  destruct (os_read os _ _ _) as [[bs|] k1]; cbn [fst snd].
  - set (got := firstn (Z.to_nat (n - 1)) bs).
    assert (E3 : (Z.of_nat (length got) =? -1) = false)
      by (apply Z.eqb_neq; lia).
    assert (E4 : (Z.of_nat (length got) + 1 <=? 0) = false)
      by (apply Z.leb_gt; lia).
    cbn [negb]. rewrite E3. cbn [negb]. rewrite E4.
    rewrite (Z.add_comm 1). reflexivity.
  - reflexivity.
Qed.

(** ** Flow control *)

Lemma test_bits_true (x m : Z) : test_bits x m = true <-> bit_set x m.
Proof.
  unfold test_bits, bit_set. now rewrite negb_true_iff, Z.eqb_neq.
Qed.

Lemma test_bits_false (x m : Z) : test_bits x m = false <-> ~ bit_set x m.
Proof.
  unfold test_bits, bit_set. rewrite negb_false_iff, Z.eqb_eq. lia.
Qed.

(** C6. On an open port whose settings can be read, [GetFlowControl]
    returns SOFTWARE when IXON and IXOFF are both set and the start and
    stop characters are exactly XON and XOFF; HARDWARE when neither IXON
    nor IXOFF is set and CRTSCTS is set; NONE when neither is set and
    CRTSCTS is clear; and INVALID in every other case. *)
Theorem GetFlowControl_classification
    (st : Implementation) (w : World os) (t : termios) (k1 : kstate os) :
  IsOpen st = true ->
  os_tcgetattr os (mFileDescriptor st) (w_kernel w) = (Some t, k1) ->
  let software :=
    bit_set (c_iflag t) IXON /\ bit_set (c_iflag t) IXOFF
    /\ c_cc t VSTART = CTRL_Q /\ c_cc t VSTOP = CTRL_S in
  let neither :=
    ~ bit_set (c_iflag t) IXON /\ ~ bit_set (c_iflag t) IXOFF in
  let hardware := neither /\ bit_set (c_cflag t) CRTSCTS in
  let none := neither /\ ~ bit_set (c_cflag t) CRTSCTS in
  exists fc,
    GetFlowControl os st w
    = (Ok fc, st, after w k1 [SYS_tcgetattr (mFileDescriptor st)])
    /\ (software -> fc = FLOW_CONTROL_SOFTWARE)
    /\ (hardware -> fc = FLOW_CONTROL_HARDWARE)
    /\ (none -> fc = FLOW_CONTROL_NONE)
    /\ (~ software -> ~ hardware -> ~ none -> fc = FLOW_CONTROL_INVALID).
Proof.
  intros Hopen Hget software neither hardware none.
  unfold GetFlowControl. enter_open Hopen. rewrite Hget.
  cbv beta iota. fold (after w k1 [SYS_tcgetattr (mFileDescriptor st)]).
  subst software neither hardware none.
  destruct (test_bits (c_iflag t) IXON) eqn:Eon;
    destruct (test_bits (c_iflag t) IXOFF) eqn:Eoff;
    destruct (test_bits (c_cflag t) CRTSCTS) eqn:Ehw;
    destruct (CTRL_Q =? c_cc t VSTART) eqn:Eq;
    destruct (CTRL_S =? c_cc t VSTOP) eqn:Es;
    cbn [andb orb negb];
    (eexists; split; [reflexivity|]);
    repeat match goal with
           | H : test_bits _ _ = true |- _ => apply test_bits_true in H
           | H : test_bits _ _ = false |- _ => apply test_bits_false in H
           | H : (_ =? _) = true |- _ =>
               apply Z.eqb_eq in H; symmetry in H
           | H : (_ =? _) = false |- _ =>
               apply Z.eqb_neq in H; apply not_eq_sym in H
           end;
    intuition congruence.
Qed.

(** ** Validation in the setters *)

Lemma settings_writes_snoc (tr : list syscall) (ev : syscall) :
  is_settings_write ev = false ->
  settings_writes (tr ++ [ev]) = settings_writes tr.
Proof.
  intros H. unfold settings_writes. rewrite filter_app. cbn [filter].
  rewrite H. apply app_nil_r.
Qed.

Lemma to_cc_t_small (v : Z) : 0 <= v <= 255 -> to_cc_t v = v.
Proof. intros H. unfold to_cc_t. apply Z.mod_small. lia. Qed.

Lemma out_of_range (v : Z) :
  v < 0 \/ 255 < v -> (v <? 0) || (v >? 255) = true.
Proof.
  intros [H|H]; apply orb_true_iff; [left; now apply Z.ltb_lt|right].
  apply Z.gtb_lt. lia.
Qed.

Lemma in_range (v : Z) :
  0 <= v <= 255 -> (v <? 0) || (v >? 255) = false.
Proof.
  intros H. apply orb_false_iff. split; [apply Z.ltb_ge; lia|].
  rewrite Z.gtb_ltb. apply Z.ltb_ge. lia.
Qed.

(** [SetBaudRate] has no InvalidArgument exit: a rate the C library
    rejects is reported as a runtime error. *)
Lemma SetBaudRate_never_InvalidArgument
    (b : BaudRate) (st : Implementation) (w : World os) :
  fst (fst (SetBaudRate os b st w)) <> Err InvalidArgument.
Proof.
  unfold SetBaudRate, require_open.
  destruct (IsOpen st); [|discriminate].
  cbv beta iota delta
    [bind ret throw this when_ syscall_ get_port_settings
     apply_port_settings tcgetattr tcsetattr].
  destruct (os_tcgetattr os _ _) as [[t|] k1]; [|discriminate].
  destruct (os_cfsetspeed os t b) as [t1|]; [|discriminate].
  destruct (os_cfsetospeed os t1 b) as [t2|]; [|discriminate].
  cbn [w_kernel].
  destruct (os_tcsetattr os _ _ _) as [r k2].
  destruct (r <? 0); discriminate.
Qed.

(** On the four enumerators [SetCharacterSize] is its body on the
    underlying value. *)
Lemma SetCharacterSize_on_enumerators (c : CharacterSize) :
  SetCharacterSize os c = SetCharacterSize_value os (CharacterSize_bits c).
Proof. destruct c; reflexivity. Qed.

(** [SetCharacterSize] has no InvalidArgument exit either, whatever the
    value of its argument. *)
Lemma SetCharacterSize_never_InvalidArgument
    (v : Z) (st : Implementation) (w : World os) :
  fst (fst (SetCharacterSize_value os v st w)) <> Err InvalidArgument.
Proof.
  unfold SetCharacterSize_value, require_open.
  destruct (IsOpen st); [|discriminate].
  cbv beta iota delta
    [bind ret throw this when_ syscall_ get_port_settings
     apply_port_settings tcgetattr tcsetattr].
  destruct (os_tcgetattr os _ _) as [[t|] k1]; [|discriminate].
  cbv zeta. cbn [w_kernel].
  destruct (os_tcsetattr os _ _ _) as [r k2].
  destruct (r <? 0); discriminate.
Qed.

(** C5 (as the code has it). On an open port:
    - [SetVMin v] and [SetVTime v] with v in [0,255], when the settings
      read and write succeed and the device keeps what was written, store
      v so that the matching getter returns v;
    - with v outside [0,255] they raise InvalidArgument before any
      system call;
    - [SetParity], [SetNumberOfStopBits] and [SetFlowControl] given a
      value outside their enumeration raise InvalidArgument once the
      calls that precede the check have succeeded (the settings read,
      and for flow control the buffer flush before it);
    - whatever those calls return, no settings write is issued;
    - when the settings read fails, each of the three raises a runtime
      error instead, and when the flush fails [SetFlowControl] raises
      OpenFailed instead;
    - [SetBaudRate] never raises InvalidArgument: a rate that
      [cfsetspeed] or [cfsetospeed] rejects is a runtime error, raised
      after the settings read and with no settings write;
    - [SetCharacterSize] does no validation and never raises
      InvalidArgument: whatever value its argument holds, CSIZE is
      cleared, the value is ORed into [c_cflag], ISTRIP is cleared when
      the value is the 8-bit encoding and set otherwise, and the result
      is written to the device. *)
Theorem setters_validate_input (st : Implementation) (w : World os) :
  IsOpen st = true ->
  let fd := mFileDescriptor st in
  (forall v t k1 r k2 k3,
      0 <= v <= 255 ->
      let t' := set_c_cc VMIN (to_cc_t v) t in
      os_tcgetattr os fd (w_kernel w) = (Some t, k1) ->
      os_tcsetattr os fd t' k1 = (r, k2) ->
      0 <= r ->
      os_tcgetattr os fd k2 = (Some t', k3) ->
      let w2 := after w k2 [SYS_tcgetattr fd; SYS_tcsetattr fd t'] in
      SetVMin os v st w = (Ok tt, st, w2)
      /\ GetVMin os st w2 = (Ok v, st, after w2 k3 [SYS_tcgetattr fd]))
  /\ (forall v t k1 r k2 k3,
      0 <= v <= 255 ->
      let t' := set_c_cc VTIME (to_cc_t v) t in
      os_tcgetattr os fd (w_kernel w) = (Some t, k1) ->
      os_tcsetattr os fd t' k1 = (r, k2) ->
      0 <= r ->
      os_tcgetattr os fd k2 = (Some t', k3) ->
      let w2 := after w k2 [SYS_tcgetattr fd; SYS_tcsetattr fd t'] in
      SetVTime os v st w = (Ok tt, st, w2)
      /\ GetVTime os st w2 = (Ok v, st, after w2 k3 [SYS_tcgetattr fd]))
  /\ (forall v,
      v < 0 \/ 255 < v ->
      SetVMin os v st w = (Err InvalidArgument, st, w)
      /\ SetVTime os v st w = (Err InvalidArgument, st, w))
  /\ (forall t k1,
      os_tcgetattr os fd (w_kernel w) = (Some t, k1) ->
      SetParity os PARITY_INVALID st w
      = (Err InvalidArgument, st, after w k1 [SYS_tcgetattr fd])
      /\ SetNumberOfStopBits os STOP_BITS_OTHER st w
         = (Err InvalidArgument, st, after w k1 [SYS_tcgetattr fd]))
  /\ (forall r k1 t k2,
      os_tcflush os fd TCIOFLUSH (w_kernel w) = (r, k1) ->
      0 <= r ->
      os_tcgetattr os fd k1 = (Some t, k2) ->
      SetFlowControl os FLOW_CONTROL_INVALID st w
      = (Err InvalidArgument, st,
         after w k2 [SYS_tcflush fd TCIOFLUSH; SYS_tcgetattr fd]))
  /\ settings_writes (w_trace (snd (SetParity os PARITY_INVALID st w)))
     = settings_writes (w_trace w)
  /\ settings_writes
       (w_trace (snd (SetNumberOfStopBits os STOP_BITS_OTHER st w)))
     = settings_writes (w_trace w)
  /\ settings_writes
       (w_trace (snd (SetFlowControl os FLOW_CONTROL_INVALID st w)))
     = settings_writes (w_trace w)
  /\ (forall k1,
      os_tcgetattr os fd (w_kernel w) = (None, k1) ->
      SetParity os PARITY_INVALID st w
      = (Err RuntimeError, st, after w k1 [SYS_tcgetattr fd])
      /\ SetNumberOfStopBits os STOP_BITS_OTHER st w
         = (Err RuntimeError, st, after w k1 [SYS_tcgetattr fd]))
  /\ (forall r k1,
      os_tcflush os fd TCIOFLUSH (w_kernel w) = (r, k1) ->
      r < 0 ->
      SetFlowControl os FLOW_CONTROL_INVALID st w
      = (Err OpenFailed, st, after w k1 [SYS_tcflush fd TCIOFLUSH]))
  /\ (forall r k1 k2,
      os_tcflush os fd TCIOFLUSH (w_kernel w) = (r, k1) ->
      0 <= r ->
      os_tcgetattr os fd k1 = (None, k2) ->
      SetFlowControl os FLOW_CONTROL_INVALID st w
      = (Err RuntimeError, st,
         after w k2 [SYS_tcflush fd TCIOFLUSH; SYS_tcgetattr fd]))
  /\ (forall b, fst (fst (SetBaudRate os b st w)) <> Err InvalidArgument)
  /\ (forall b t k1,
      os_tcgetattr os fd (w_kernel w) = (Some t, k1) ->
      os_cfsetspeed os t b = None
      \/ (exists t1, os_cfsetspeed os t b = Some t1
                     /\ os_cfsetospeed os t1 b = None) ->
      SetBaudRate os b st w
      = (Err RuntimeError, st, after w k1 [SYS_tcgetattr fd]))
  /\ (forall c,
      SetCharacterSize os c
      = SetCharacterSize_value os (CharacterSize_bits c))
  /\ (forall v,
      fst (fst (SetCharacterSize_value os v st w)) <> Err InvalidArgument)
  /\ (forall v t k1 r k2,
      os_tcgetattr os fd (w_kernel w) = (Some t, k1) ->
      let t' :=
        set_c_cflag (set_bits (clear_bits (c_cflag t) CSIZE) v)
          (set_c_iflag (if v =? CS8
                        then clear_bits (c_iflag t) ISTRIP
                        else set_bits (c_iflag t) ISTRIP) t) in
      os_tcsetattr os fd t' k1 = (r, k2) ->
      0 <= r ->
      SetCharacterSize_value os v st w
      = (Ok tt, st, after w k2 [SYS_tcgetattr fd; SYS_tcsetattr fd t'])).
Proof.
  intros Hopen fd. subst fd.
  repeat match goal with |- _ /\ _ => split end.
  - intros v t k1 r k2 k3 Hv t' Hget Hset Hr Hget2 w2. split.
    + unfold SetVMin. enter_open Hopen.
      rewrite (in_range v Hv), Hget. cbn [w_kernel w_trace].
      fold t'. rewrite Hset.
      assert (E : (r <? 0) = false) by (apply Z.ltb_ge; lia).
      rewrite E. subst w2. unfold after. now rewrite <- app_assoc.
    + unfold GetVMin. enter_open Hopen.
      subst w2. cbn [after w_kernel w_trace]. rewrite Hget2.
      subst t'. cbn [c_cc set_c_cc]. rewrite Nat.eqb_refl.
      now rewrite (to_cc_t_small v Hv).
  - intros v t k1 r k2 k3 Hv t' Hget Hset Hr Hget2 w2. split.
    + unfold SetVTime. enter_open Hopen.
      rewrite (in_range v Hv), Hget. cbn [w_kernel w_trace].
      fold t'. rewrite Hset.
      assert (E : (r <? 0) = false) by (apply Z.ltb_ge; lia).
      rewrite E. subst w2. unfold after. now rewrite <- app_assoc.
    + unfold GetVTime. enter_open Hopen.
      subst w2. cbn [after w_kernel w_trace]. rewrite Hget2.
      subst t'. cbn [c_cc set_c_cc]. rewrite Nat.eqb_refl.
      now rewrite (to_cc_t_small v Hv).
  - intros v Hv. split.
    + unfold SetVMin. enter_open Hopen. now rewrite (out_of_range v Hv).
    + unfold SetVTime. enter_open Hopen. now rewrite (out_of_range v Hv).
  - intros t k1 Hget. split.
    + unfold SetParity. enter_open Hopen. now rewrite Hget.
    + unfold SetNumberOfStopBits. enter_open Hopen. now rewrite Hget.
  - intros r k1 t k2 Hflush Hr Hget.
    unfold SetFlowControl. enter_open Hopen. rewrite Hflush.
    assert (E : (r <? 0) = false) by (apply Z.ltb_ge; lia).
    rewrite E. cbn [w_kernel w_trace]. rewrite Hget.
    unfold after. now rewrite <- app_assoc.
  - unfold SetParity. enter_open Hopen.
    destruct (os_tcgetattr os _ _) as [[t|] k1]; cbn [snd w_trace];
      now apply settings_writes_snoc.
  - unfold SetNumberOfStopBits. enter_open Hopen.
    destruct (os_tcgetattr os _ _) as [[t|] k1]; cbn [snd w_trace];
      now apply settings_writes_snoc.
  - unfold SetFlowControl. enter_open Hopen.
    destruct (os_tcflush os _ _ _) as [r k1].
    destruct (r <? 0); cbn [snd w_trace w_kernel].
    + now apply settings_writes_snoc.
    + destruct (os_tcgetattr os _ _) as [[t|] k2]; cbn [snd w_trace];
        rewrite !settings_writes_snoc; reflexivity.
  - intros k1 Hget. split.
    + unfold SetParity. enter_open Hopen. now rewrite Hget.
    + unfold SetNumberOfStopBits. enter_open Hopen. now rewrite Hget.
  - intros r k1 Hflush Hr.
    unfold SetFlowControl. enter_open Hopen. rewrite Hflush.
    assert (E : (r <? 0) = true) by (apply Z.ltb_lt; lia).
    now rewrite E.
  - intros r k1 k2 Hflush Hr Hget.
    unfold SetFlowControl. enter_open Hopen. rewrite Hflush.
    assert (E : (r <? 0) = false) by (apply Z.ltb_ge; lia).
    rewrite E. cbn [w_kernel w_trace]. rewrite Hget.
    unfold after. now rewrite <- app_assoc.
  - intros b. apply SetBaudRate_never_InvalidArgument.
  - intros b t k1 Hget Hrej.
    unfold SetBaudRate. enter_open Hopen. rewrite Hget.
    destruct Hrej as [H|(t1 & H1 & H2)].
    + now rewrite H.
    + now rewrite H1, H2.
  - apply SetCharacterSize_on_enumerators.
  - intros v. apply SetCharacterSize_never_InvalidArgument.
  - intros v t k1 r k2 Hget t' Hset Hr.
    unfold SetCharacterSize_value. enter_open Hopen. rewrite Hget.
    cbv zeta. cbn [w_kernel w_trace].
    change (CharacterSize_bits CHAR_SIZE_8) with CS8.
    assert (Et :
      set_c_cflag
        (set_bits
           (c_cflag
              (set_c_cflag
                 (clear_bits
                    (c_cflag
                       (if v =? CS8
                        then set_c_iflag (clear_bits (c_iflag t) ISTRIP) t
                        else set_c_iflag (set_bits (c_iflag t) ISTRIP) t))
                    CSIZE)
                 (if v =? CS8
                  then set_c_iflag (clear_bits (c_iflag t) ISTRIP) t
                  else set_c_iflag (set_bits (c_iflag t) ISTRIP) t))) v)
        (set_c_cflag
           (clear_bits
              (c_cflag
                 (if v =? CS8
                  then set_c_iflag (clear_bits (c_iflag t) ISTRIP) t
                  else set_c_iflag (set_bits (c_iflag t) ISTRIP) t))
              CSIZE)
           (if v =? CS8
            then set_c_iflag (clear_bits (c_iflag t) ISTRIP) t
            else set_c_iflag (set_bits (c_iflag t) ISTRIP) t))
      = t') by (subst t'; destruct (v =? CS8); reflexivity).
    rewrite Et, Hset.
    assert (E : (r <? 0) = false) by (apply Z.ltb_ge; lia).
    rewrite E. unfold after. now rewrite <- app_assoc.
Qed.

(** ** The putback slot across Close and Open *)

Lemma same_putback_refl (st : Implementation) : same_putback st st.
Proof. now split. Qed.

Lemma same_putback_trans (a b c : Implementation) :
  same_putback a b -> same_putback b c -> same_putback a c.
Proof. unfold same_putback. intros [? ?] [? ?]. split; congruence. Qed.

Lemma keeps_ret {A} (a : A) : keeps_putback (os := os) (ret a).
Proof. intros st w. apply same_putback_refl. Qed.

Lemma keeps_throw {A} (e : exception) :
  keeps_putback (os := os) (A := A) (throw e).
Proof. intros st w. apply same_putback_refl. Qed.

Lemma keeps_this {A} (f : Implementation -> A) : keeps_putback (this os f).
Proof. intros st w. apply same_putback_refl. Qed.

Lemma keeps_syscall {A} (ev : syscall) (call : kstate os -> A * kstate os) :
  keeps_putback (syscall_ os ev call).
Proof.
  intros st w. unfold syscall_. destruct (call _). apply same_putback_refl.
Qed.

Lemma keeps_set_mFileDescriptor (fd : Z) :
  keeps_putback (set_mFileDescriptor os fd).
Proof. intros st w. now split. Qed.

Lemma keeps_set_mOldPortSettings (t : termios) :
  keeps_putback (set_mOldPortSettings os t).
Proof. intros st w. now split. Qed.

Lemma keeps_bind {A B} (m : M os A) (f : A -> M os B) :
  keeps_putback m -> (forall a, keeps_putback (f a)) ->
  keeps_putback (bind os m f).
Proof.
  intros Hm Hf st w. unfold bind.
  specialize (Hm st w). destruct (m st w) as [[[a|e] st1] w1];
    cbn [fst snd] in *.
  - eapply same_putback_trans; [exact Hm|apply Hf].
  - exact Hm.
Qed.

Lemma keeps_require_open {A} (body : M os A) :
  keeps_putback body -> keeps_putback (require_open os body).
Proof.
  intros H st w. unfold require_open.
  destruct (IsOpen st); [apply H|apply same_putback_refl].
Qed.

Lemma keeps_when (cond : bool) (body : M os unit) :
  keeps_putback body -> keeps_putback (when_ os cond body).
Proof. intros H. destruct cond; [exact H|apply keeps_ret]. Qed.

Create HintDb keeps.
#[local] Hint Resolve keeps_ret keeps_throw keeps_this keeps_syscall
  keeps_set_mFileDescriptor keeps_set_mOldPortSettings : keeps.

(** Walk down an operation built from the combinators. *)
Ltac keeps :=
  cbv zeta;
  repeat first
    [ solve [auto with keeps]
    | apply keeps_require_open
    | apply keeps_when
    | apply keeps_bind; [|intros]
    | match goal with
      | |- keeps_putback (if ?b then _ else _) => destruct b
      | |- keeps_putback (match ?x with _ => _ end) => destruct x
      end ].

Lemma keeps_get_port_settings (e : exception) :
  keeps_putback (get_port_settings os e).
Proof. unfold get_port_settings, tcgetattr. keeps. Qed.

Lemma keeps_apply_port_settings (t : termios) (e : exception) :
  keeps_putback (apply_port_settings os t e).
Proof. unfold apply_port_settings, tcsetattr. keeps. Qed.

#[local] Hint Resolve keeps_get_port_settings keeps_apply_port_settings
  : keeps.

Lemma keeps_FlushIOBuffers : keeps_putback (FlushIOBuffers os).
Proof. unfold FlushIOBuffers, tcflush. keeps. Qed.

Lemma keeps_SetBaudRate (b : BaudRate) : keeps_putback (SetBaudRate os b).
Proof. unfold SetBaudRate. keeps. Qed.

Lemma keeps_SetCharacterSize (c : CharacterSize) :
  keeps_putback (SetCharacterSize os c).
Proof. unfold SetCharacterSize. keeps. Qed.

Lemma keeps_SetFlowControl (f : FlowControl) :
  keeps_putback (SetFlowControl os f).
Proof. unfold SetFlowControl, tcflush. keeps. Qed.

Lemma keeps_SetParity (p : Parity) : keeps_putback (SetParity os p).
Proof. unfold SetParity. keeps. Qed.

Lemma keeps_SetNumberOfStopBits (n : StopBits) :
  keeps_putback (SetNumberOfStopBits os n).
Proof. unfold SetNumberOfStopBits. keeps. Qed.

Lemma keeps_SetVMin (v : Z) : keeps_putback (SetVMin os v).
Proof. unfold SetVMin. keeps. Qed.

Lemma keeps_SetVTime (v : Z) : keeps_putback (SetVTime os v).
Proof. unfold SetVTime. keeps. Qed.

Lemma keeps_SetPortBlockingStatus (b : bool) :
  keeps_putback (SetPortBlockingStatus os b).
Proof. unfold SetPortBlockingStatus, fcntl_getfl, fcntl_setfl. keeps. Qed.

#[local] Hint Resolve keeps_FlushIOBuffers keeps_SetBaudRate
  keeps_SetCharacterSize keeps_SetFlowControl keeps_SetParity
  keeps_SetNumberOfStopBits keeps_SetVMin keeps_SetVTime
  keeps_SetPortBlockingStatus : keeps.

Lemma keeps_SetParametersToDefault :
  keeps_putback (SetParametersToDefault os).
Proof. unfold SetParametersToDefault. keeps. Qed.

#[local] Hint Resolve keeps_SetParametersToDefault : keeps.

Lemma keeps_InitializeSerialPort : keeps_putback (InitializeSerialPort os).
Proof. unfold InitializeSerialPort. keeps. Qed.

#[local] Hint Resolve keeps_InitializeSerialPort : keeps.

Lemma keeps_Open (filename : string) (openMode : Z) :
  keeps_putback (Open os filename openMode).
Proof. unfold Open, open, close, tcgetattr. keeps. Qed.

Lemma keeps_Close : keeps_putback (Close os).
Proof. unfold Close, close. keeps. Qed.

(** A [Close] that succeeds changes the descriptor and nothing else. *)
Lemma Close_ok_state (st st1 : Implementation) (w w1 : World os) :
  Close os st w = (Ok tt, st1, w1) ->
  IsOpen st = true /\ st1 = closed st.
Proof.
  unfold Close, require_open.
  destruct (IsOpen st) eqn:Hopen; [|discriminate].
  cbv beta iota delta
    [bind ret throw this assign when_ syscall_ set_mFileDescriptor
     apply_port_settings close tcsetattr].
  destruct (os_tcsetattr os _ _ _) as [r k1].
  destruct (r <? 0); [discriminate|]. cbn [w_kernel].
  destruct (os_close os _ _) as [r' k2].
  destruct (r' <? 0); [discriminate|].
  intros H. inversion H. split; reflexivity.
Qed.

(** C10. [Close] changes the descriptor (and, in the kernel, the
    settings) but not the putback slot, and neither does [Open]; so a
    byte pending when [Close] succeeds is still pending after the port
    has been opened again, and the first [underflow] there returns that
    byte without reading from the device. *)
Theorem putback_survives_reopen
    (filename : string) (openMode : Z)
    (st st1 st2 : Implementation) (w w1 w2 : World os) :
  mPutbackAvailable st = true ->
  Close os st w = (Ok tt, st1, w1) ->
  Open os filename openMode st1 w1 = (Ok tt, st2, w2) ->
  IsOpen st2 = true ->
  st1 = closed st
  /\ mPutbackAvailable st2 = true
  /\ mPutbackChar st2 = mPutbackChar st
  /\ underflow os st2 w2 = (Ok (to_int_type (mPutbackChar st)), st2, w2)
  /\ w_trace (snd (underflow os st2 w2)) = w_trace w2.
Proof.
  intros Hav Hclose Hreopen Hopen2.
  destruct (Close_ok_state _ _ _ _ Hclose) as [_ Hst1].
  pose proof (keeps_Close st w) as [Hc1 Hc2].
  rewrite Hclose in Hc1, Hc2. cbn [fst snd] in Hc1, Hc2.
  pose proof (keeps_Open filename openMode st1 w1) as [Ho1 Ho2].
  rewrite Hreopen in Ho1, Ho2. cbn [fst snd] in Ho1, Ho2.
  assert (Hav2 : mPutbackAvailable st2 = true) by congruence.
  assert (Hch2 : mPutbackChar st2 = mPutbackChar st) by congruence.
  pose proof (underflow_pending st2 w2 Hopen2 Hav2) as Hu.
  rewrite Hch2 in Hu.
  repeat split; try assumption.
  now rewrite Hu.
Qed.

(** ** Flag arithmetic *)

Lemma land_set_bits (x p q : Z) :
  Z.land (set_bits x p) q = Z.lor (Z.land x q) (Z.land p q).
Proof. unfold set_bits. apply Z.land_lor_distr_l. Qed.

Lemma land_clear_bits (x p q : Z) :
  Z.land (clear_bits x p) q = Z.land x (Z.land (Z.lxor mask32 p) q).
Proof. unfold clear_bits. symmetry. apply Z.land_assoc. Qed.

Lemma land_set_other (x p q : Z) :
  Z.land p q = 0 -> Z.land (set_bits x p) q = Z.land x q.
Proof. intros H. rewrite land_set_bits, H. apply Z.lor_0_r. Qed.

Lemma land_clear_other (x p q : Z) :
  Z.land (Z.lxor mask32 p) q = q -> Z.land (clear_bits x p) q = Z.land x q.
Proof. intros H. now rewrite land_clear_bits, H. Qed.

Lemma land_clear_same (x p q : Z) :
  Z.land (Z.lxor mask32 p) q = 0 -> Z.land (clear_bits x p) q = 0.
Proof. intros H. rewrite land_clear_bits, H. apply Z.land_0_r. Qed.

Lemma test_set_same (x p q : Z) :
  Z.land p q <> 0 -> test_bits (set_bits x p) q = true.
Proof.
  intros H. apply test_bits_true. unfold bit_set.
  rewrite land_set_bits. intros E. apply Z.lor_eq_0_iff in E. tauto.
Qed.

Lemma test_set_other (x p q : Z) :
  Z.land p q = 0 -> test_bits (set_bits x p) q = test_bits x q.
Proof. intros H. unfold test_bits. now rewrite land_set_other. Qed.

Lemma test_clear_same (x p q : Z) :
  Z.land (Z.lxor mask32 p) q = 0 -> test_bits (clear_bits x p) q = false.
Proof. intros H. unfold test_bits. now rewrite land_clear_same. Qed.

Lemma test_clear_other (x p q : Z) :
  Z.land (Z.lxor mask32 p) q = q ->
  test_bits (clear_bits x p) q = test_bits x q.
Proof. intros H. unfold test_bits. now rewrite land_clear_other. Qed.

(** Read a flag, a bit field or a control character out of an updated
    struct. *)
Ltac flags :=
  cbn [c_iflag c_oflag c_cflag c_lflag c_line c_cc c_ispeed c_ospeed
       set_c_iflag set_c_oflag set_c_cflag set_c_lflag set_c_line
       set_c_cc];
  repeat first
    [ rewrite test_set_same by (vm_compute; discriminate)
    | rewrite test_set_other by reflexivity
    | rewrite test_clear_same by reflexivity
    | rewrite test_clear_other by reflexivity
    | rewrite land_set_other by reflexivity
    | rewrite land_clear_other by reflexivity
    | rewrite land_clear_same by reflexivity
    | match goal with
      | |- context [Nat.eqb ?a ?b] =>
          let v := eval vm_compute in (Nat.eqb a b) in
          change (Nat.eqb a b) with v
      end ];
  cbv beta iota.

Lemma csize_written (x : Z) (c : CharacterSize) :
  Z.land (set_bits (clear_bits x CSIZE) (CharacterSize_bits c)) CSIZE
  = CharacterSize_bits c.
Proof.
  rewrite land_set_bits, land_clear_same by reflexivity.
  now destruct c.
Qed.

Lemma CharacterSize_of_bits_bits (c : CharacterSize) :
  CharacterSize_of_bits (CharacterSize_bits c) = c.
Proof. now destruct c. Qed.

(** ** The setters and getters on a line that keeps its settings *)

Section Steady.

Variable fd : Z.
Variable settings : kstate os -> termios.
Hypothesis Hsteady : steady_line os fd settings.

Lemma steady_get (e : exception) (st : Implementation) (w : World os) :
  mFileDescriptor st = fd ->
  exists w1,
    get_port_settings os e st w = (Ok (settings (w_kernel w)), st, w1)
    /\ settings (w_kernel w1) = settings (w_kernel w).
Proof.
  intros Hfd.
  destruct (steady_tcgetattr _ _ _ Hsteady (w_kernel w)) as [Hr Hs].
  unfold get_port_settings, bind, this, tcgetattr, syscall_, ret.
  rewrite Hfd.
  destruct (os_tcgetattr os fd (w_kernel w)) as [r k1]; cbn [fst snd] in *.
  subst r. eexists. split; [reflexivity|exact Hs].
Qed.

Lemma steady_apply (t : termios) (e : exception)
    (st : Implementation) (w : World os) :
  mFileDescriptor st = fd ->
  exists w1,
    apply_port_settings os t e st w = (Ok tt, st, w1)
    /\ settings (w_kernel w1) = t.
Proof.
  intros Hfd.
  destruct (steady_tcsetattr _ _ _ Hsteady t (w_kernel w)) as [Hr Hs].
  unfold apply_port_settings, bind, this, tcsetattr, syscall_, when_, ret.
  rewrite Hfd.
  destruct (os_tcsetattr os fd t (w_kernel w)) as [r k1];
    cbn [fst snd] in *.
  assert (E : (r <? 0) = false) by (apply Z.ltb_ge; lia).
  rewrite E. eexists. split; [reflexivity|exact Hs].
Qed.

Lemma steady_flush (queue : Z) (st : Implementation) (w : World os) :
  mFileDescriptor st = fd ->
  exists r w1,
    tcflush os (mFileDescriptor st) queue st w = (Ok r, st, w1)
    /\ (r <? 0) = false
    /\ settings (w_kernel w1) = settings (w_kernel w).
Proof.
  intros Hfd. rewrite Hfd.
  destruct (steady_tcflush _ _ _ Hsteady queue (w_kernel w)) as [Hr Hs].
  unfold tcflush, syscall_.
  destruct (os_tcflush os fd queue (w_kernel w)) as [r k1];
    cbn [fst snd] in *.
  eexists. eexists. split; [reflexivity|split; [|exact Hs]].
  apply Z.ltb_ge. exact Hr.
Qed.

(** Run the next call on the settings, keeping what is known of the
    line's settings in terms of those at the start. *)
Ltac on_fd :=
  cbn [mFileDescriptor]; first [assumption | reflexivity | congruence].

Ltac is_opened :=
  first [ assumption
        | apply IsOpen_true_iff; cbn [mFileDescriptor];
          first [assumption | lia | congruence] ].

Ltac enter_steady :=
  rewrite ?require_open_open by is_opened;
  cbv beta iota delta [bind ret throw this when_].

Ltac known_settings w E S :=
  lazymatch goal with
  | Hs : settings (w_kernel w) = _ |- _ => rewrite Hs in E, S
  | _ => idtac
  end.

Ltac step :=
  let w1 := fresh "w" in
  let E := fresh "E" in
  let S := fresh "S" in
  let Hfd := fresh "Hfd" in
  match goal with
  | |- context [get_port_settings os ?e ?st ?w] =>
      is_var w;
      assert (Hfd : mFileDescriptor st = fd) by on_fd;
      destruct (steady_get e st w Hfd) as (w1 & E & S);
      known_settings w E S; rewrite E; clear E Hfd
  | |- context [apply_port_settings os ?t ?e ?st ?w] =>
      is_var w;
      assert (Hfd : mFileDescriptor st = fd) by on_fd;
      destruct (steady_apply t e st w Hfd) as (w1 & E & S);
      rewrite E; clear E Hfd
  | |- context [tcflush os (mFileDescriptor ?st) ?q ?st ?w] =>
      is_var w;
      let r := fresh "r" in
      let Hr := fresh "Hr" in
      assert (Hfd : mFileDescriptor st = fd) by on_fd;
      destruct (steady_flush q st w Hfd) as (r & w1 & E & Hr & S);
      lazymatch goal with
      | Hs : settings (w_kernel w) = _ |- _ => rewrite Hs in S
      | _ => idtac
      end;
      rewrite E; clear E Hfd;
      cbv beta iota; rewrite Hr
  end;
  cbv beta iota.

(** X1. On a line that keeps its settings, [SetCharacterSize] succeeds
    and [GetCharacterSize] then returns the size that was set; the
    settings written have ISTRIP set exactly when the size is not 8. *)
Theorem CharacterSize_round_trip
    (c : CharacterSize) (st : Implementation) (w : World os) :
  IsOpen st = true ->
  mFileDescriptor st = fd ->
  let w1 := snd (SetCharacterSize os c st w) in
  fst (SetCharacterSize os c st w) = (Ok tt, st)
  /\ fst (GetCharacterSize os st w1) = (Ok c, st)
  /\ (bit_set (c_iflag (settings (w_kernel w1))) ISTRIP
      <-> c <> CHAR_SIZE_8).
Proof.
  intros Hopen Hfd w1. subst w1.
  unfold SetCharacterSize, GetCharacterSize.
  enter_steady. cbv zeta. step. step. cbn [fst snd].
  enter_steady. step. cbn [fst].
  split; [reflexivity|]. split.
  - cbn [c_cflag set_c_cflag set_c_iflag].
    rewrite csize_written, CharacterSize_of_bits_bits. reflexivity.
  - rewrite S0. rewrite <- test_bits_true.
    destruct c; flags; split; intros; congruence.
Qed.

(** X2. On a line that keeps its settings, [SetFlowControl] with
    HARDWARE, SOFTWARE or NONE succeeds and [GetFlowControl] then
    returns the mode that was set. *)
Theorem FlowControl_round_trip
    (f : FlowControl) (st : Implementation) (w : World os) :
  IsOpen st = true ->
  mFileDescriptor st = fd ->
  f <> FLOW_CONTROL_INVALID ->
  fst (SetFlowControl os f st w) = (Ok tt, st)
  /\ fst (GetFlowControl os st (snd (SetFlowControl os f st w)))
     = (Ok f, st).
Proof.
  intros Hopen Hfd Hf.
  unfold SetFlowControl, GetFlowControl.
  destruct f; [| | |contradiction];
    enter_steady; step; step; step; cbn [fst snd];
    enter_steady; step; cbn [fst];
    (split; [reflexivity|]); flags; reflexivity.
Qed.

(** X3. On a line that keeps its settings, [SetParity] with EVEN, ODD
    or NONE succeeds and [GetParity] then returns the parity that was
    set. *)
Theorem Parity_round_trip
    (p : Parity) (st : Implementation) (w : World os) :
  IsOpen st = true ->
  mFileDescriptor st = fd ->
  p <> PARITY_INVALID ->
  fst (SetParity os p st w) = (Ok tt, st)
  /\ fst (GetParity os st (snd (SetParity os p st w))) = (Ok p, st).
Proof.
  intros Hopen Hfd Hp.
  unfold SetParity, GetParity.
  destruct p; [| | |contradiction];
    enter_steady; step; step; cbn [fst snd];
    enter_steady; step; cbn [fst];
    (split; [reflexivity|]); flags; reflexivity.
Qed.

(** X4. On a line that keeps its settings, [SetNumberOfStopBits] with
    1 or 2 succeeds and [GetNumberOfStopBits] then returns the number
    that was set. *)
Theorem StopBits_round_trip
    (n : StopBits) (st : Implementation) (w : World os) :
  IsOpen st = true ->
  mFileDescriptor st = fd ->
  n <> STOP_BITS_OTHER ->
  fst (SetNumberOfStopBits os n st w) = (Ok tt, st)
  /\ fst (GetNumberOfStopBits os st
            (snd (SetNumberOfStopBits os n st w))) = (Ok n, st).
Proof.
  intros Hopen Hfd Hn.
  unfold SetNumberOfStopBits, GetNumberOfStopBits.
  destruct n; [| |contradiction];
    enter_steady; step; step; cbn [fst snd];
    enter_steady; step; cbn [fst];
    (split; [reflexivity|]); flags; reflexivity.
Qed.

(** X5. On a line that keeps its settings, when the C library accepts
    the rate for both directions and reports it back as the input and
    the output speed, [SetBaudRate] succeeds and [GetBaudRate] then
    returns the rate; a rate that [cfsetspeed] rejects makes
    [SetBaudRate] raise a runtime error and leaves the line's settings
    as they were. *)
Theorem BaudRate_round_trip
    (b : BaudRate) (st : Implementation) (w : World os) :
  IsOpen st = true ->
  mFileDescriptor st = fd ->
  let t := settings (w_kernel w) in
  (forall t1 t2,
      os_cfsetspeed os t b = Some t1 ->
      os_cfsetospeed os t1 b = Some t2 ->
      os_cfgetispeed os t2 = b ->
      os_cfgetospeed os t2 = b ->
      fst (SetBaudRate os b st w) = (Ok tt, st)
      /\ fst (GetBaudRate os st (snd (SetBaudRate os b st w))) = (Ok b, st))
  /\ (os_cfsetspeed os t b = None ->
      fst (SetBaudRate os b st w) = (Err RuntimeError, st)
      /\ settings (w_kernel (snd (SetBaudRate os b st w))) = t).
Proof.
  intros Hopen Hfd t. subst t. split.
  - intros t1 t2 H1 H2 Hi Ho.
    unfold SetBaudRate, GetBaudRate.
    enter_steady. step. rewrite H1, H2. step. cbn [fst snd].
    enter_steady. step. cbv zeta. rewrite Hi, Ho, Z.eqb_refl.
    split; reflexivity.
  - intros H1. unfold SetBaudRate.
    enter_steady. step. rewrite H1. cbn [fst snd].
    split; [reflexivity|assumption].
Qed.

(** Unfold the setters and getters, and run them. *)
Ltac run_settings :=
  unfold SetCharacterSize, GetCharacterSize, SetFlowControl,
    GetFlowControl, SetParity, GetParity, SetNumberOfStopBits,
    GetNumberOfStopBits, SetVMin, GetVMin, SetVTime, GetVTime;
  rewrite ?require_open_open by is_opened;
  cbv beta iota zeta delta [bind ret throw this when_];
  repeat (step; cbn [fst snd]).

Ltac same_answer :=
  flags;
  repeat match goal with
         | |- context [if ?b then _ else _] => destruct b
         end;
  reflexivity.

(** X6. On a line that keeps its settings, [SetCharacterSize] does not
    change what the getters of flow control, parity, stop bits, VMIN and
    VTIME return. *)
Theorem SetCharacterSize_leaves_the_rest
    (c : CharacterSize) (st : Implementation) (w : World os) :
  IsOpen st = true ->
  mFileDescriptor st = fd ->
  let w1 := snd (SetCharacterSize os c st w) in
  fst (GetFlowControl os st w1) = fst (GetFlowControl os st w)
  /\ fst (GetParity os st w1) = fst (GetParity os st w)
  /\ fst (GetNumberOfStopBits os st w1) = fst (GetNumberOfStopBits os st w)
  /\ fst (GetVMin os st w1) = fst (GetVMin os st w)
  /\ fst (GetVTime os st w1) = fst (GetVTime os st w).
Proof.
  intros Hopen Hfd w1. subst w1.
  destruct c; repeat split; run_settings; same_answer.
Qed.

(** X7. On a line that keeps its settings, [SetFlowControl] does not
    change what the getters of character size, parity, stop bits, VMIN
    and VTIME return. *)
Theorem SetFlowControl_leaves_the_rest
    (f : FlowControl) (st : Implementation) (w : World os) :
  IsOpen st = true ->
  mFileDescriptor st = fd ->
  let w1 := snd (SetFlowControl os f st w) in
  fst (GetCharacterSize os st w1) = fst (GetCharacterSize os st w)
  /\ fst (GetParity os st w1) = fst (GetParity os st w)
  /\ fst (GetNumberOfStopBits os st w1) = fst (GetNumberOfStopBits os st w)
  /\ fst (GetVMin os st w1) = fst (GetVMin os st w)
  /\ fst (GetVTime os st w1) = fst (GetVTime os st w).
Proof.
  intros Hopen Hfd w1. subst w1.
  destruct f; repeat split; run_settings; same_answer.
Qed.

(** X8. On a line that keeps its settings, [SetParity] does not change
    what the getters of character size, flow control, stop bits, VMIN
    and VTIME return. *)
Theorem SetParity_leaves_the_rest
    (p : Parity) (st : Implementation) (w : World os) :
  IsOpen st = true ->
  mFileDescriptor st = fd ->
  let w1 := snd (SetParity os p st w) in
  fst (GetCharacterSize os st w1) = fst (GetCharacterSize os st w)
  /\ fst (GetFlowControl os st w1) = fst (GetFlowControl os st w)
  /\ fst (GetNumberOfStopBits os st w1) = fst (GetNumberOfStopBits os st w)
  /\ fst (GetVMin os st w1) = fst (GetVMin os st w)
  /\ fst (GetVTime os st w1) = fst (GetVTime os st w).
Proof.
  intros Hopen Hfd w1. subst w1.
  destruct p; repeat split; run_settings; same_answer.
Qed.

(** X9. On a line that keeps its settings, [SetNumberOfStopBits] does
    not change what the getters of character size, flow control, parity,
    VMIN and VTIME return. *)
Theorem SetNumberOfStopBits_leaves_the_rest
    (n : StopBits) (st : Implementation) (w : World os) :
  IsOpen st = true ->
  mFileDescriptor st = fd ->
  let w1 := snd (SetNumberOfStopBits os n st w) in
  fst (GetCharacterSize os st w1) = fst (GetCharacterSize os st w)
  /\ fst (GetFlowControl os st w1) = fst (GetFlowControl os st w)
  /\ fst (GetParity os st w1) = fst (GetParity os st w)
  /\ fst (GetVMin os st w1) = fst (GetVMin os st w)
  /\ fst (GetVTime os st w1) = fst (GetVTime os st w).
Proof.
  intros Hopen Hfd w1. subst w1.
  destruct n; repeat split; run_settings; same_answer.
Qed.

(** X10. On a line that keeps its settings, [SetVMin] and [SetVTime],
    whatever value they are given, do not change what the getters of
    character size, flow control, parity and stop bits return, nor each
    other's value. *)
Theorem SetVMin_SetVTime_leave_the_rest
    (v : Z) (st : Implementation) (w : World os) :
  IsOpen st = true ->
  mFileDescriptor st = fd ->
  let w1 := snd (SetVMin os v st w) in
  let w2 := snd (SetVTime os v st w) in
  (fst (GetCharacterSize os st w1) = fst (GetCharacterSize os st w)
   /\ fst (GetFlowControl os st w1) = fst (GetFlowControl os st w)
   /\ fst (GetParity os st w1) = fst (GetParity os st w)
   /\ fst (GetNumberOfStopBits os st w1)
      = fst (GetNumberOfStopBits os st w)
   /\ fst (GetVTime os st w1) = fst (GetVTime os st w))
  /\ (fst (GetCharacterSize os st w2) = fst (GetCharacterSize os st w)
   /\ fst (GetFlowControl os st w2) = fst (GetFlowControl os st w)
   /\ fst (GetParity os st w2) = fst (GetParity os st w)
   /\ fst (GetNumberOfStopBits os st w2)
      = fst (GetNumberOfStopBits os st w)
   /\ fst (GetVMin os st w2) = fst (GetVMin os st w)).
Proof.
  intros Hopen Hfd w1 w2. subst w1 w2.
  destruct ((v <? 0) || (v >? 255)) eqn:Hv;
    repeat split;
    unfold SetVMin, SetVTime;
    rewrite !(require_open_open _ _ _ Hopen), Hv;
    run_settings; same_answer.
Qed.

Ltac steps :=
  repeat first
    [ step
    | progress (rewrite ?require_open_open by is_opened; cbv beta iota) ].

(** Unfold the whole configuration layer. *)
Ltac unfold_settings :=
  unfold SetParametersToDefault, SetBaudRate, SetCharacterSize,
    GetCharacterSize, SetFlowControl, GetFlowControl, SetParity,
    GetParity, SetNumberOfStopBits, GetNumberOfStopBits, SetVMin,
    GetVMin, SetVTime, GetVTime, FlushIOBuffers,
    BAUD_DEFAULT, CHAR_SIZE_DEFAULT, FLOW_CONTROL_DEFAULT, PARITY_DEFAULT,
    STOP_BITS_DEFAULT, VMIN_DEFAULT, VTIME_DEFAULT.

(** What is known of the settings once the defaults are in place. *)
Lemma SetParametersToDefault_run (st : Implementation) (w : World os) :
  IsOpen st = true ->
  mFileDescriptor st = fd ->
  (forall t, exists t1 t2,
      os_cfsetspeed os t B115200 = Some t1
      /\ os_cfsetospeed os t1 B115200 = Some t2) ->
  exists w1,
    SetParametersToDefault os st w = (Ok tt, st, w1)
    /\ test_bits (c_iflag (settings (w_kernel w1))) IXON = false
    /\ test_bits (c_iflag (settings (w_kernel w1))) IXOFF = false
    /\ test_bits (c_cflag (settings (w_kernel w1))) CRTSCTS = false
    /\ test_bits (c_cflag (settings (w_kernel w1))) PARENB = false
    /\ test_bits (c_cflag (settings (w_kernel w1))) CSTOPB = false
    /\ Z.land (c_cflag (settings (w_kernel w1))) CSIZE = CS8
    /\ c_cc (settings (w_kernel w1)) VMIN = 0
    /\ c_cc (settings (w_kernel w1)) VTIME = 0.
Proof.
  intros Hopen Hfd Hlibc.
  unfold_settings. enter_steady. cbv zeta. steps.
  match goal with
  | |- context [os_cfsetspeed os ?t B115200] =>
      destruct (Hlibc t) as (t1 & t2 & H1 & H2)
  end.
  rewrite H1, H2. steps.
  change ((0 <? 0) || (0 >? 255)) with false. cbv beta iota.
  steps.
  change ((0 <? 0) || (0 >? 255)) with false. cbv beta iota.
  steps.
  eexists. split; [reflexivity|].
  match goal with
  | Hs : settings (w_kernel ?w) = _ |- context [w_kernel ?w] =>
      rewrite Hs
  end.
  repeat split; flags; rewrite ?csize_written; reflexivity.
Qed.

(** The getters on settings known to hold the defaults. *)
Lemma getters_on_defaults (st : Implementation) (w1 : World os) :
  IsOpen st = true ->
  mFileDescriptor st = fd ->
  test_bits (c_iflag (settings (w_kernel w1))) IXON = false ->
  test_bits (c_iflag (settings (w_kernel w1))) IXOFF = false ->
  test_bits (c_cflag (settings (w_kernel w1))) CRTSCTS = false ->
  test_bits (c_cflag (settings (w_kernel w1))) PARENB = false ->
  test_bits (c_cflag (settings (w_kernel w1))) CSTOPB = false ->
  Z.land (c_cflag (settings (w_kernel w1))) CSIZE = CS8 ->
  c_cc (settings (w_kernel w1)) VMIN = 0 ->
  c_cc (settings (w_kernel w1)) VTIME = 0 ->
  fst (GetCharacterSize os st w1) = (Ok CHAR_SIZE_8, st)
  /\ fst (GetFlowControl os st w1) = (Ok FLOW_CONTROL_NONE, st)
  /\ fst (GetParity os st w1) = (Ok PARITY_NONE, st)
  /\ fst (GetNumberOfStopBits os st w1) = (Ok STOP_BITS_1, st)
  /\ fst (GetVMin os st w1) = (Ok 0, st)
  /\ fst (GetVTime os st w1) = (Ok 0, st).
Proof.
  intros Hopen Hfd Hon Hoff Hhw Hpar Hstop Hsize Hmin Htime.
  repeat split; run_settings; cbn [fst];
    rewrite ?Hon, ?Hoff, ?Hhw, ?Hpar, ?Hstop, ?Hsize, ?Hmin, ?Htime;
    reflexivity.
Qed.

(** X11. On a line that keeps its settings, with a C library that
    accepts the default rate, [SetParametersToDefault] succeeds, and
    afterwards the getters return 8-bit characters, no flow control, no
    parity, one stop bit and VMIN = VTIME = 0. *)
Theorem SetParametersToDefault_gives_defaults
    (st : Implementation) (w : World os) :
  IsOpen st = true ->
  mFileDescriptor st = fd ->
  (forall t, exists t1 t2,
      os_cfsetspeed os t B115200 = Some t1
      /\ os_cfsetospeed os t1 B115200 = Some t2) ->
  let w1 := snd (SetParametersToDefault os st w) in
  fst (SetParametersToDefault os st w) = (Ok tt, st)
  /\ fst (GetCharacterSize os st w1) = (Ok CHAR_SIZE_8, st)
  /\ fst (GetFlowControl os st w1) = (Ok FLOW_CONTROL_NONE, st)
  /\ fst (GetParity os st w1) = (Ok PARITY_NONE, st)
  /\ fst (GetNumberOfStopBits os st w1) = (Ok STOP_BITS_1, st)
  /\ fst (GetVMin os st w1) = (Ok 0, st)
  /\ fst (GetVTime os st w1) = (Ok 0, st).
Proof.
  intros Hopen Hfd Hlibc w1. subst w1.
  destruct (SetParametersToDefault_run st w Hopen Hfd Hlibc)
    as (w1 & E & Hon & Hoff & Hhw & Hpar & Hstop & Hsize & Hmin & Htime).
  rewrite E. cbn [fst snd].
  split; [reflexivity|].
  now apply getters_on_defaults.
Qed.

Lemma lor_land_same (a b : Z) : Z.land (Z.lor a b) b = b.
Proof.
  apply Z.bits_inj'. intros n _.
  rewrite Z.land_spec, Z.lor_spec.
  destruct (Z.testbit a n), (Z.testbit b n); reflexivity.
Qed.

Lemma steady_blocking (b : bool) (st : Implementation) (w : World os) :
  steady_flags os fd settings ->
  mFileDescriptor st = fd ->
  exists w1 tr flags,
    SetPortBlockingStatus os b st w = (Ok tt, st, w1)
    /\ settings (w_kernel w1) = settings (w_kernel w)
    /\ w_trace w1 = tr ++ [SYS_fcntl_setfl fd flags]
    /\ Z.land flags O_NONBLOCK = (if b then 0 else O_NONBLOCK).
Proof.
  intros Hflags Hfd.
  unfold SetPortBlockingStatus, bind, this, fcntl_getfl, fcntl_setfl,
    syscall_, when_, ret.
  rewrite Hfd.
  pose proof (steady_getfl _ _ _ Hflags (w_kernel w)) as Hg.
  destruct (os_fcntl_getfl os fd (w_kernel w)) as [fl k1];
    cbn [fst snd] in Hg.
  destruct b; cbn [w_kernel w_trace].
  - destruct (steady_setfl _ _ _ Hflags
                (Z.land fl (Z.lnot O_NONBLOCK)) k1) as [Hr Hs].
    destruct (os_fcntl_setfl os fd _ k1) as [r k2]; cbn [fst snd] in *.
    assert (E : (r <? 0) = false) by (apply Z.ltb_ge; lia).
    rewrite E. eexists. eexists. eexists.
    split; [reflexivity|]. cbn [w_kernel w_trace].
    split; [congruence|]. split; [reflexivity|].
    rewrite <- Z.land_assoc.
    change (Z.land (Z.lnot O_NONBLOCK) O_NONBLOCK) with 0.
    apply Z.land_0_r.
  - destruct (steady_setfl _ _ _ Hflags (Z.lor fl O_NONBLOCK) k1)
      as [Hr Hs].
    destruct (os_fcntl_setfl os fd _ k1) as [r k2]; cbn [fst snd] in *.
    assert (E : (r <? 0) = false) by (apply Z.ltb_ge; lia).
    rewrite E. eexists. eexists. eexists.
    split; [reflexivity|]. cbn [w_kernel w_trace].
    split; [congruence|]. split; [reflexivity|].
    apply lor_land_same.
Qed.

(** [Open] on a line that keeps its settings: the object afterwards,
    what is known of the settings, and the last call. *)
Lemma Open_run
    (path : string) (openMode access : Z)
    (st : Implementation) (w : World os) (n : nat) (k1 : kstate os) :
  steady_flags os fd settings ->
  mFileDescriptor st = -1 ->
  open_access openMode access ->
  os_open os path (Z.lor (Z.lor access O_NOCTTY) O_NONBLOCK) (w_kernel w)
  = (Some n, k1) ->
  fd = Z.of_nat n ->
  (forall t, exists t1 t2,
      os_cfsetspeed os t B115200 = Some t1
      /\ os_cfsetospeed os t1 B115200 = Some t2) ->
  exists w1 tr flags,
    Open os path openMode st w
    = (Ok tt,
       mk_Implementation (mPutbackAvailable st) (mPutbackChar st) fd
                         (settings k1),
       w1)
    /\ (test_bits (c_iflag (settings (w_kernel w1))) IXON = false
        /\ test_bits (c_iflag (settings (w_kernel w1))) IXOFF = false
        /\ test_bits (c_cflag (settings (w_kernel w1))) CRTSCTS = false
        /\ test_bits (c_cflag (settings (w_kernel w1))) PARENB = false
        /\ test_bits (c_cflag (settings (w_kernel w1))) CSTOPB = false
        /\ Z.land (c_cflag (settings (w_kernel w1))) CSIZE = CS8
        /\ c_cc (settings (w_kernel w1)) VMIN = 0
        /\ c_cc (settings (w_kernel w1)) VTIME = 0)
    /\ w_trace w1 = tr ++ [SYS_fcntl_setfl fd flags]
    /\ Z.land flags O_NONBLOCK = 0.
Proof.
  intros Hflags Hclosed Hmode Hcall Hn Hlibc.
  assert (Hpos : (fd <? 0) = false) by (apply Z.ltb_ge; lia).
  unfold Open, bind at 1, this.
  rewrite (proj2 (IsOpen_false_iff st) Hclosed). cbv zeta.
  assert (Hflags_of :
            (if openMode =? Z.lor ios_in ios_out
             then Some (Z.lor (Z.lor O_RDWR O_NOCTTY) O_NONBLOCK)
             else if openMode =? ios_in
             then Some (Z.lor (Z.lor O_RDONLY O_NOCTTY) O_NONBLOCK)
             else if openMode =? ios_out
             then Some (Z.lor (Z.lor O_WRONLY O_NOCTTY) O_NONBLOCK)
             else None)
            = Some (Z.lor (Z.lor access O_NOCTTY) O_NONBLOCK)).
  { destruct Hmode as [[-> ->]|[[-> ->]|[-> ->]]]; reflexivity. }
  rewrite Hflags_of.
  cbv beta iota delta [bind ret throw this when_ open syscall_ assign
                       set_mFileDescriptor set_mOldPortSettings tcgetattr].
  rewrite Hcall. cbn [mFileDescriptor w_kernel w_trace].
  rewrite <- Hn, Hpos. cbv beta iota. cbn [mFileDescriptor w_kernel].
  destruct (steady_tcgetattr _ _ _ Hsteady k1) as [Hr Hs].
  destruct (os_tcgetattr os fd k1) as [r k2]; cbn [fst snd] in Hr, Hs.
  subst r. cbn [mPutbackAvailable mPutbackChar mFileDescriptor
                mOldPortSettings].
  match goal with
  | |- context [apply_port_settings os _ _ _ ?w0] =>
      remember w0 as wa eqn:Hwa
  end.
  steps. unfold FlushIOBuffers.
  enter_steady. steps.
  unfold InitializeSerialPort. enter_steady.
  match goal with
  | |- context [SetParametersToDefault os ?st1 ?w0] =>
      destruct (SetParametersToDefault_run st1 w0)
        as (wd & E & Hfacts); [is_opened | reflexivity | exact Hlibc |]
  end.
  rewrite E. cbv beta iota. unfold FlushIOBuffers.
  enter_steady. steps.
  match goal with
  | |- context [SetPortBlockingStatus os true ?st1 ?w0] =>
      destruct (steady_blocking true st1 w0 Hflags)
        as (wb & tr & flags & Eb & Sb & Tb & Fb); [reflexivity|]
  end.
  rewrite Eb.
  exists wb, tr, flags. split; [reflexivity|].
  split; [|split; assumption].
  rewrite Sb.
  match goal with
  | Hs' : settings (w_kernel ?w0) = settings (w_kernel wd) |- _ =>
      rewrite Hs'
  end.
  exact Hfacts.
Qed.

(** X12. On a closed object, with an accepted open mode, an [open]
    that yields descriptor [fd], a line that keeps its settings and a C
    library that accepts the default rate, [Open] succeeds: the object
    holds [fd] and, as saved settings, the settings the line had when it
    was opened; the getters then return the defaults; and the last call
    issued sets the status flags with O_NONBLOCK cleared. *)
Theorem Open_on_steady_line
    (path : string) (openMode access : Z)
    (st : Implementation) (w : World os) (n : nat) (k1 : kstate os) :
  steady_flags os fd settings ->
  mFileDescriptor st = -1 ->
  open_access openMode access ->
  os_open os path (Z.lor (Z.lor access O_NOCTTY) O_NONBLOCK) (w_kernel w)
  = (Some n, k1) ->
  fd = Z.of_nat n ->
  (forall t, exists t1 t2,
      os_cfsetspeed os t B115200 = Some t1
      /\ os_cfsetospeed os t1 B115200 = Some t2) ->
  let st1 := mk_Implementation (mPutbackAvailable st) (mPutbackChar st) fd
                               (settings k1) in
  let w1 := snd (Open os path openMode st w) in
  fst (Open os path openMode st w) = (Ok tt, st1)
  /\ IsOpen st1 = true
  /\ (fst (GetCharacterSize os st1 w1) = (Ok CHAR_SIZE_8, st1)
      /\ fst (GetFlowControl os st1 w1) = (Ok FLOW_CONTROL_NONE, st1)
      /\ fst (GetParity os st1 w1) = (Ok PARITY_NONE, st1)
      /\ fst (GetNumberOfStopBits os st1 w1) = (Ok STOP_BITS_1, st1)
      /\ fst (GetVMin os st1 w1) = (Ok 0, st1)
      /\ fst (GetVTime os st1 w1) = (Ok 0, st1))
  /\ exists tr flags,
       w_trace w1 = tr ++ [SYS_fcntl_setfl fd flags]
       /\ Z.land flags O_NONBLOCK = 0.
Proof.
  intros Hflags Hclosed Hmode Hcall Hn Hlibc st1 w1. subst w1.
  destruct (Open_run path openMode access st w n k1
              Hflags Hclosed Hmode Hcall Hn Hlibc)
    as (w1 & tr & flags & E & Hfacts & Htr & Hnb).
  rewrite E. cbn [fst snd]. fold st1.
  assert (Hopen1 : IsOpen st1 = true)
    by (apply IsOpen_true_iff; cbn [st1 mFileDescriptor]; lia).
  split; [reflexivity|]. split; [exact Hopen1|]. split.
  - destruct Hfacts as (? & ? & ? & ? & ? & ? & ? & ?).
    now apply getters_on_defaults.
  - exists tr, flags. now split.
Qed.

(** X13. The constructor with parameters, run on any storage: with an
    [open] that yields descriptor [fd], a line that keeps its settings,
    a C library that accepts the default rate and the requested one, and
    arguments inside their enumerations, it succeeds and leaves the
    object open; the getters then return the character size, flow
    control, parity and stop bits that were passed; and the putback
    members are those the storage held. *)
Theorem constructor_applies_parameters
    (path : string) (b : BaudRate) (c : CharacterSize) (f : FlowControl)
    (p : Parity) (sb : StopBits)
    (st0 : Implementation) (w : World os) (n : nat) (k1 : kstate os) :
  steady_flags os fd settings ->
  os_open os path (Z.lor (Z.lor O_RDWR O_NOCTTY) O_NONBLOCK) (w_kernel w)
  = (Some n, k1) ->
  fd = Z.of_nat n ->
  (forall rate t, rate = B115200 \/ rate = b ->
      exists t1 t2,
        os_cfsetspeed os t rate = Some t1
        /\ os_cfsetospeed os t1 rate = Some t2) ->
  f <> FLOW_CONTROL_INVALID ->
  p <> PARITY_INVALID ->
  sb <> STOP_BITS_OTHER ->
  let st1 := mk_Implementation (mPutbackAvailable st0) (mPutbackChar st0)
                               fd (settings k1) in
  let w1 := snd (Implementation_ctor os path b c f p sb st0 w) in
  fst (Implementation_ctor os path b c f p sb st0 w) = (Ok tt, st1)
  /\ IsOpen st1 = true
  /\ fst (GetCharacterSize os st1 w1) = (Ok c, st1)
  /\ fst (GetFlowControl os st1 w1) = (Ok f, st1)
  /\ fst (GetParity os st1 w1) = (Ok p, st1)
  /\ fst (GetNumberOfStopBits os st1 w1) = (Ok sb, st1).
Proof.
  intros Hflags Hcall Hn Hlibc Hf Hp Hsb st1 w1. subst w1.
  assert (Hopen1 : IsOpen st1 = true)
    by (apply IsOpen_true_iff; cbn [st1 mFileDescriptor]; lia).
  assert (Hfd1 : mFileDescriptor st1 = fd) by reflexivity.
  assert (Hrun : exists wf,
             Implementation_ctor os path b c f p sb st0 w = (Ok tt, st1, wf)
             /\ fst (GetCharacterSize os st1 wf) = (Ok c, st1)
             /\ fst (GetFlowControl os st1 wf) = (Ok f, st1)
             /\ fst (GetParity os st1 wf) = (Ok p, st1)
             /\ fst (GetNumberOfStopBits os st1 wf) = (Ok sb, st1)).
  { unfold Implementation_ctor.
    unfold bind at 1, set_mFileDescriptor at 1, assign at 1.
    unfold bind at 1, set_mOldPortSettings at 1, assign at 1.
    cbn [mPutbackAvailable mPutbackChar mFileDescriptor mOldPortSettings].
    unfold bind at 1.
    match goal with
    | |- context [Open os path _ ?st' w] =>
        destruct (Open_run path (Z.lor ios_in ios_out) O_RDWR st' w n k1)
          as (wo & tr & flags & E & _ & _ & _);
          [ exact Hflags | reflexivity
          | left; split; reflexivity | exact Hcall | exact Hn
          | intros t; apply Hlibc; now left | ]
    end.
    rewrite E.
    cbn [mPutbackAvailable mPutbackChar mFileDescriptor mOldPortSettings].
    fold st1. clear E.
    unfold SetBaudRate. unfold bind at 1. enter_steady. steps.
    match goal with
    | |- context [os_cfsetspeed os ?t b] =>
        destruct (Hlibc b t (or_intror eq_refl)) as (t1 & t2 & H1 & H2)
    end.
    rewrite H1, H2. steps.
    destruct c;
      (destruct f; [| | |contradiction]);
      (destruct p; [| | |contradiction]);
      (destruct sb; [| |contradiction]);
      run_settings; steps;
      (eexists; split; [reflexivity|]);
      run_settings; cbn [fst];
      repeat split; flags; rewrite ?csize_written; reflexivity. }
  destruct Hrun as (wf & E & Hc & Hfl & Hpar & Hstop).
  rewrite E. cbn [fst snd]. repeat split; assumption.
Qed.

(** X25. [Close] after [Open] puts back what [Open] found: on a line
    that keeps its settings, with [open] yielding descriptor [fd] and
    [close] succeeding, the object [Open] leaves is closed by exactly
    two calls, a [tcsetattr] with the settings the line had when it was
    opened and a [close], and the descriptor is -1 afterwards. *)
Theorem Open_then_Close_restores
    (path : string) (openMode access : Z)
    (st : Implementation) (w : World os) (n : nat) (k1 : kstate os) :
  steady_flags os fd settings ->
  mFileDescriptor st = -1 ->
  open_access openMode access ->
  os_open os path (Z.lor (Z.lor access O_NOCTTY) O_NONBLOCK) (w_kernel w)
  = (Some n, k1) ->
  fd = Z.of_nat n ->
  (forall t, exists t1 t2,
      os_cfsetspeed os t B115200 = Some t1
      /\ os_cfsetospeed os t1 B115200 = Some t2) ->
  (forall k, 0 <= fst (os_close os fd k)) ->
  let st1 := snd (fst (Open os path openMode st w)) in
  let w1 := snd (Open os path openMode st w) in
  fst (fst (Open os path openMode st w)) = Ok tt
  /\ fst (Close os st1 w1)
     = (Ok tt,
        mk_Implementation (mPutbackAvailable st) (mPutbackChar st) (-1)
                          (settings k1))
  /\ w_trace (snd (Close os st1 w1))
     = w_trace w1 ++ [SYS_tcsetattr fd (settings k1); SYS_close fd].
Proof.
  intros Hflags Hclosed Hmode Hcall Hn Hlibc Hclose st1 w1.
  subst st1 w1.
  destruct (Open_run path openMode access st w n k1
              Hflags Hclosed Hmode Hcall Hn Hlibc)
    as (w1 & tr & flags & E & _ & _ & _).
  rewrite E. cbn [fst snd]. split; [reflexivity|].
  unfold Close. rewrite require_open_open by is_opened.
  cbv beta iota delta [bind ret throw this when_ close syscall_ assign
                       set_mFileDescriptor apply_port_settings tcsetattr].
  cbn [mFileDescriptor mOldPortSettings mPutbackAvailable mPutbackChar].
  destruct (steady_tcsetattr _ _ _ Hsteady (settings k1) (w_kernel w1))
    as [Hr _].
  destruct (os_tcsetattr os fd (settings k1) (w_kernel w1)) as [r k2].
  cbn [fst] in Hr.
  assert (E1 : (r <? 0) = false) by (apply Z.ltb_ge; lia).
  rewrite E1. cbn [w_kernel w_trace mFileDescriptor].
  specialize (Hclose k2).
  destruct (os_close os fd k2) as [r' k3]. cbn [fst] in Hclose.
  assert (E2 : (r' <? 0) = false) by (apply Z.ltb_ge; lia).
  rewrite E2. cbn [fst snd w_trace].
  split; [reflexivity|]. now rewrite <- app_assoc.
Qed.

End Steady.

(** ** What each operation leaves alone *)

Section Frame.

Variable R : Implementation -> Implementation -> Prop.
Hypothesis R_refl : forall st, R st st.
Hypothesis R_trans : forall a b c, R a b -> R b c -> R a c.

Lemma preserves_ret {A} (a : A) : preserves (os := os) R (ret a).
Proof. intros st w. apply R_refl. Qed.

Lemma preserves_throw {A} (e : exception) :
  preserves (os := os) (A := A) R (throw e).
Proof. intros st w. apply R_refl. Qed.

Lemma preserves_this {A} (f : Implementation -> A) :
  preserves R (this os f).
Proof. intros st w. apply R_refl. Qed.

Lemma preserves_syscall {A} (ev : syscall)
    (call : kstate os -> A * kstate os) :
  preserves R (syscall_ os ev call).
Proof. intros st w. unfold syscall_. destruct (call _). apply R_refl. Qed.

Lemma preserves_assign (f : Implementation -> Implementation) :
  (forall st, R st (f st)) -> preserves R (assign os f).
Proof. intros H st w. apply H. Qed.

Lemma preserves_bind {A B} (m : M os A) (f : A -> M os B) :
  preserves R m -> (forall a, preserves R (f a)) ->
  preserves R (bind os m f).
Proof.
  intros Hm Hf st w. unfold bind.
  specialize (Hm st w). destruct (m st w) as [[[a|e] st1] w1];
    cbn [fst snd] in *.
  - eapply R_trans; [exact Hm|apply Hf].
  - exact Hm.
Qed.

Lemma preserves_require_open {A} (body : M os A) :
  preserves R body -> preserves R (require_open os body).
Proof.
  intros H st w. unfold require_open.
  destruct (IsOpen st); [apply H|apply R_refl].
Qed.

Lemma preserves_when (cond : bool) (body : M os unit) :
  preserves R body -> preserves R (when_ os cond body).
Proof. intros H. destruct cond; [exact H|apply preserves_ret]. Qed.

End Frame.

Lemma same_handle_refl (st : Implementation) : same_handle st st.
Proof. now split. Qed.

Lemma same_handle_trans (a b c : Implementation) :
  same_handle a b -> same_handle b c -> same_handle a c.
Proof. unfold same_handle. intros [? ?] [? ?]. split; congruence. Qed.

(** Walk down an operation built from the combinators; [leaf] closes
    the assignments. *)
Ltac frame refl trans leaf :=
  cbv zeta;
  repeat first
    [ apply (preserves_ret _ refl)
    | apply (preserves_throw _ refl)
    | apply (preserves_this _ refl)
    | apply (preserves_syscall _ refl)
    | apply (preserves_require_open _ refl)
    | apply (preserves_when _ refl)
    | apply (preserves_bind _ trans); [|intros]
    | apply preserves_assign; leaf
    | assumption
    | match goal with
      | |- preserves _ (if ?b then _ else _) => destruct b
      | |- preserves _ (match ?x with _ => _ end) => destruct x
      end ].

Ltac unfold_calls :=
  unfold get_port_settings, apply_port_settings, open, close, tcgetattr,
    tcsetattr, tcflush, fcntl_getfl, fcntl_setfl, ioctl_fionread, read,
    write, set_mPutbackAvailable, set_mPutbackChar, set_mFileDescriptor,
    set_mOldPortSettings.

Ltac handle :=
  unfold_calls;
  frame same_handle_refl same_handle_trans
        ltac:(intros; split; reflexivity).

Ltac putback :=
  unfold_calls;
  frame same_putback_refl same_putback_trans
        ltac:(intros; split; reflexivity).

Lemma handle_SetParametersToDefault :
  preserves same_handle (SetParametersToDefault os).
Proof.
  unfold SetParametersToDefault, SetBaudRate, SetCharacterSize,
    SetFlowControl, SetParity, SetNumberOfStopBits, SetVMin, SetVTime.
  handle.
Qed.

(** X14. The descriptor and the saved settings change in [Open] and
    [Close] only: every other operation, however it ends, leaves both as
    they were, so it neither opens nor closes the object. *)
Theorem handle_changes_only_in_Open_and_Close :
  preserves same_handle (FlushInputBuffer os)
  /\ preserves same_handle (FlushOutputBuffer os)
  /\ preserves same_handle (FlushIOBuffers os)
  /\ preserves same_handle (IsDataAvailable os)
  /\ preserves same_handle (SetParametersToDefault os)
  /\ preserves same_handle (InitializeSerialPort os)
  /\ (forall b, preserves same_handle (SetBaudRate os b))
  /\ preserves same_handle (GetBaudRate os)
  /\ (forall c, preserves same_handle (SetCharacterSize os c))
  /\ preserves same_handle (GetCharacterSize os)
  /\ (forall f, preserves same_handle (SetFlowControl os f))
  /\ preserves same_handle (GetFlowControl os)
  /\ (forall p, preserves same_handle (SetParity os p))
  /\ preserves same_handle (GetParity os)
  /\ (forall n, preserves same_handle (SetNumberOfStopBits os n))
  /\ preserves same_handle (GetNumberOfStopBits os)
  /\ (forall v, preserves same_handle (SetVMin os v))
  /\ preserves same_handle (GetVMin os)
  /\ (forall v, preserves same_handle (SetVTime os v))
  /\ preserves same_handle (GetVTime os)
  /\ preserves same_handle (GetFileDescriptor os)
  /\ (forall b, preserves same_handle (SetPortBlockingStatus os b))
  /\ preserves same_handle (GetPortBlockingStatus os)
  /\ (forall s n, preserves same_handle (xsputn os s n))
  /\ (forall s n, preserves same_handle (xsgetn os s n))
  /\ (forall c, preserves same_handle (overflow os c))
  /\ preserves same_handle (underflow os)
  /\ preserves same_handle (uflow os)
  /\ (forall c, preserves same_handle (pbackfail os c))
  /\ preserves same_handle (showmanyc os).
Proof.
  pose proof handle_SetParametersToDefault as Hdefault.
  repeat split; intros;
    unfold FlushInputBuffer, FlushOutputBuffer, FlushIOBuffers,
      IsDataAvailable, InitializeSerialPort, SetBaudRate, GetBaudRate,
      SetCharacterSize, GetCharacterSize, SetFlowControl, GetFlowControl,
      SetParity, GetParity, SetNumberOfStopBits, GetNumberOfStopBits,
      SetVMin, GetVMin, SetVTime, GetVTime, GetFileDescriptor,
      SetPortBlockingStatus, GetPortBlockingStatus, xsputn, xsgetn,
      overflow, uflow, underflow, pbackfail, showmanyc;
    handle.
Qed.

(** X15. The putback slot is touched by the five reading operations
    only: the flushes, the getters and setters, [Open], [Close], the
    constructor with parameters, the destructor and the two writing
    operations leave [mPutbackAvailable] and [mPutbackChar] as they
    were, however they end. *)
Theorem putback_untouched_outside_reads :
  preserves same_putback (FlushInputBuffer os)
  /\ preserves same_putback (FlushOutputBuffer os)
  /\ preserves same_putback (FlushIOBuffers os)
  /\ preserves same_putback (IsDataAvailable os)
  /\ preserves same_putback (SetParametersToDefault os)
  /\ preserves same_putback (InitializeSerialPort os)
  /\ (forall b, preserves same_putback (SetBaudRate os b))
  /\ preserves same_putback (GetBaudRate os)
  /\ (forall c, preserves same_putback (SetCharacterSize os c))
  /\ preserves same_putback (GetCharacterSize os)
  /\ (forall f, preserves same_putback (SetFlowControl os f))
  /\ preserves same_putback (GetFlowControl os)
  /\ (forall p, preserves same_putback (SetParity os p))
  /\ preserves same_putback (GetParity os)
  /\ (forall n, preserves same_putback (SetNumberOfStopBits os n))
  /\ preserves same_putback (GetNumberOfStopBits os)
  /\ (forall v, preserves same_putback (SetVMin os v))
  /\ preserves same_putback (GetVMin os)
  /\ (forall v, preserves same_putback (SetVTime os v))
  /\ preserves same_putback (GetVTime os)
  /\ preserves same_putback (GetFileDescriptor os)
  /\ (forall path mode, preserves same_putback (Open os path mode))
  /\ preserves same_putback (Close os)
  /\ (forall path b c f p n,
        preserves same_putback (Implementation_ctor os path b c f p n))
  /\ preserves same_putback (Implementation_dtor os)
  /\ (forall s n, preserves same_putback (xsputn os s n))
  /\ (forall c, preserves same_putback (overflow os c)).
Proof.
  repeat split; intros;
    unfold Implementation_ctor, Implementation_dtor, Open, Close,
      InitializeSerialPort, SetParametersToDefault,
      FlushInputBuffer, FlushOutputBuffer, FlushIOBuffers,
      IsDataAvailable, SetBaudRate, GetBaudRate,
      SetCharacterSize, GetCharacterSize, SetFlowControl, GetFlowControl,
      SetParity, GetParity, SetNumberOfStopBits, GetNumberOfStopBits,
      SetVMin, GetVMin, SetVTime, GetVTime, GetFileDescriptor,
      SetPortBlockingStatus, xsputn, overflow;
    putback.
Qed.

(** ** The reading operations together *)

Lemma showmanyc_pending (st : Implementation) (w : World os) :
  IsOpen st = true ->
  mPutbackAvailable st = true ->
  showmanyc os st w = (Ok 1, st, w).
Proof.
  intros Hopen Hav. unfold showmanyc. enter_open Hopen. now rewrite Hav.
Qed.

Lemma uflow_pending (st : Implementation) (w : World os) :
  IsOpen st = true ->
  mPutbackAvailable st = true ->
  uflow os st w
  = (Ok (to_int_type (mPutbackChar st)), without_putback st, w).
Proof.
  intros Hopen Hav.
  rewrite (uflow_delegates _ _ Hopen), (underflow_pending _ _ Hopen Hav).
  reflexivity.
Qed.

Lemma char_round_trip (c : Z) :
  0 <= c < 256 -> to_int_type (to_char_type c) = c /\ to_char_type c = c.
Proof.
  intros H. unfold to_int_type, to_char_type.
  rewrite Z.mod_mod by lia. split; apply Z.mod_small; lia.
Qed.

(** X16. On an open port with an empty slot, pushing back a character
    c in [0,255] succeeds; [underflow] then returns c and keeps it,
    [uflow] returns c and empties the slot, both without a system call;
    and after that [uflow] a new pushback succeeds again. *)
Theorem pushback_then_read
    (st : Implementation) (w : World os) (c : Z) :
  IsOpen st = true ->
  mPutbackAvailable st = false ->
  0 <= c < 256 ->
  let st1 := with_putback c st in
  pbackfail os c st w = (Ok c, st1, w)
  /\ underflow os st1 w = (Ok c, st1, w)
  /\ uflow os st1 w = (Ok c, without_putback st1, w)
  /\ pbackfail os c (without_putback st1) w = (Ok c, st1, w).
Proof.
  intros Hopen Hav Hc st1.
  destruct (char_round_trip c Hc) as [Hint Hchar].
  assert (Hneq : c <> traits_eof) by (unfold traits_eof; lia).
  assert (Hpush : forall st0,
             IsOpen st0 = true -> mPutbackAvailable st0 = false ->
             pbackfail os c st0 w = (Ok c, with_putback c st0, w)).
  { intros st0 H0 Hav0. unfold pbackfail. enter_open H0. rewrite Hav0.
    unfold eq_int_type. apply Z.eqb_neq in Hneq as E. rewrite E.
    rewrite not_eof_id, Hchar by assumption. reflexivity. }
  assert (Hopen1 : IsOpen st1 = true) by exact Hopen.
  split; [now apply Hpush|]. split; [|split].
  - rewrite (underflow_pending st1 w Hopen1 eq_refl).
    cbn [st1 with_putback mPutbackChar].
    unfold to_int_type. rewrite Z.mod_small by lia. reflexivity.
  - rewrite (uflow_pending st1 w Hopen1 eq_refl).
    cbn [st1 with_putback mPutbackChar].
    unfold to_int_type. rewrite Z.mod_small by lia. reflexivity.
  - rewrite Hpush; [reflexivity|exact Hopen|reflexivity].
Qed.

Lemma showmanyc_cases (st : Implementation) (w : World os) :
  IsOpen st = true ->
  exists r,
    fst (fst (showmanyc os st w)) = Ok r
    /\ (r = -1 \/ r = 0 \/ r = 1)
    /\ mFileDescriptor (snd (fst (showmanyc os st w))) = mFileDescriptor st
    /\ (r = 1 ->
        mPutbackAvailable (snd (fst (showmanyc os st w))) = true).
Proof.
  intros Hopen.
  destruct (mPutbackAvailable st) eqn:Hav.
  - rewrite (showmanyc_pending _ _ Hopen Hav). cbn [fst snd].
    exists 1. repeat split; auto.
  - unfold showmanyc. enter_open Hopen. rewrite Hav.
    destruct (os_fcntl_getfl os _ _) as [flags k1].
    cbn [w_kernel w_trace].
    destruct (os_fcntl_setfl os _ _ k1) as [r1 k2].
    destruct (r1 <? 0); cbn [fst snd].
    { exists (-1). split; [reflexivity|]. split; [auto|].
      split; [reflexivity|]. intros Hone; discriminate Hone. }
    cbn [w_kernel w_trace]. change (Z.to_nat 1) with 1%nat.
    destruct (os_read os _ _ k2) as [[[|b bs]|] k3];
      cbn [firstn length];
      [ change (Z.of_nat 0 =? 1) with false
      | change (Z.of_nat 1 =? 1) with true
      | change (-1 =? 1) with false ];
      cbn beta iota; cbn [w_kernel w_trace];
      destruct (os_fcntl_setfl os _ _ k3) as [r2 k4];
      destruct (r2 <? 0); cbn [fst snd mFileDescriptor];
      eexists; (split; [reflexivity|]);
      (split; [auto|]); (split; [reflexivity|]);
      intros Hone; try discriminate Hone; reflexivity.
Qed.

(** X17. On an open port, [showmanyc] always returns normally, with
    -1, 0 or 1, and never changes the descriptor.  When it returns 1 a
    byte is pending: a second [showmanyc] returns 1 again without a
    system call, and the next [uflow] delivers that byte without a
    read. *)
Theorem probe_keeps_the_byte (st : Implementation) (w : World os) :
  IsOpen st = true ->
  let st1 := snd (fst (showmanyc os st w)) in
  let w1 := snd (showmanyc os st w) in
  exists r,
    fst (fst (showmanyc os st w)) = Ok r
    /\ (r = -1 \/ r = 0 \/ r = 1)
    /\ mFileDescriptor st1 = mFileDescriptor st
    /\ (r = 1 ->
        mPutbackAvailable st1 = true
        /\ showmanyc os st1 w1 = (Ok 1, st1, w1)
        /\ uflow os st1 w1
           = (Ok (to_int_type (mPutbackChar st1)), without_putback st1, w1)).
Proof.
  intros Hopen st1 w1.
  destruct (showmanyc_cases st w Hopen) as (r & Hr & Hrange & Hfd & Hfull).
  exists r. split; [exact Hr|]. split; [exact Hrange|].
  split; [exact Hfd|]. intros Hone.
  assert (Hopen1 : IsOpen st1 = true).
  { apply IsOpen_true_iff. subst st1. rewrite Hfd.
    now apply IsOpen_true_iff. }
  specialize (Hfull Hone). fold st1 in Hfull.
  split; [exact Hfull|]. split.
  - now apply showmanyc_pending.
  - now apply uflow_pending.
Qed.

Lemma poke_length (s : list Z) (off : nat) (bs : list Z) :
  (off + length bs <= length s)%nat ->
  length (poke s off bs) = length s.
Proof.
  intros H. unfold poke.
  rewrite !length_app, length_firstn, length_skipn. lia.
Qed.

Lemma poke_front (s bs : list Z) :
  firstn (length bs) (poke s 0 bs) = bs.
Proof.
  unfold poke. cbn [firstn app].
  rewrite firstn_app, firstn_all, Nat.sub_diag. cbn [firstn].
  apply app_nil_r.
Qed.

(** X18. On an open port, [xsgetn] always returns normally.  For
    n <= 0 it returns 0 and changes nothing; for n > 0 the count it
    returns lies between 0 and n, the putback slot is empty afterwards,
    and an array of at least n characters keeps its length. *)
Theorem xsgetn_count_is_bounded
    (st : Implementation) (w : World os) (s : list Z) (n : Z) :
  IsOpen st = true ->
  (n <= 0 -> xsgetn os s n st w = (Ok (0, s), st, w))
  /\ (0 < n ->
      exists count s',
        fst (fst (xsgetn os s n st w)) = Ok (count, s')
        /\ 0 <= count <= n
        /\ mPutbackAvailable (snd (fst (xsgetn os s n st w))) = false
        /\ (n <= Z.of_nat (length s) -> length s' = length s)).
Proof.
  intros Hopen. split.
  - intros Hn. unfold xsgetn. enter_open Hopen.
    apply Z.leb_le in Hn. now rewrite Hn.
  - intros Hn. unfold xsgetn. enter_open Hopen.
    assert (E1 : (n <=? 0) = false) by (apply Z.leb_gt; lia).
    rewrite E1. cbv beta iota.
    destruct (mPutbackAvailable st) eqn:Hav.
    + destruct (n >? 1) eqn:E2.
      * apply Z.gtb_lt in E2.
        cbn [mFileDescriptor w_kernel w_trace].
        destruct (os_read os _ _ _) as [[bs|] k1].
        -- set (got := firstn (Z.to_nat (n - 1)) bs).
           assert (Hlen : (length got <= Z.to_nat (n - 1))%nat)
             by apply firstn_le_length.
           assert (E3 : (Z.of_nat (length got) =? -1) = false)
             by (apply Z.eqb_neq; lia).
           assert (E4 : (Z.of_nat (length got) + 1 <=? 0) = false)
             by (apply Z.leb_gt; lia).
           cbn [negb]. rewrite E3. cbn [negb]. rewrite E4. cbn [fst snd].
           eexists. eexists. split; [reflexivity|].
           split; [lia|]. split; [reflexivity|].
           intros Hs.
           assert (H0 : length (poke s 0 [mPutbackChar st]) = length s)
             by (apply poke_length; cbn [length]; lia).
           rewrite poke_length; [exact H0|].
           rewrite H0. fold got. lia.
        -- cbn [fst snd negb].
           eexists. eexists. split; [reflexivity|].
           split; [lia|]. split; [reflexivity|].
           intros Hs.
           assert (H0 : length (poke s 0 [mPutbackChar st]) = length s)
             by (apply poke_length; cbn [length]; lia).
           rewrite poke_length; [exact H0|].
           rewrite H0. cbn [length]. lia.
      * cbn [fst snd].
        eexists. eexists. split; [reflexivity|].
        split; [lia|]. split; [reflexivity|].
        intros Hs. rewrite poke_length; cbn [length]; lia.
    + destruct (os_read os _ _ _) as [[bs|] k1].
      * cbv beta iota zeta.
        pose proof (firstn_le_length (Z.to_nat n) bs) as Hlen.
        destruct (Z.of_nat (length (firstn (Z.to_nat n) bs)) <=? 0) eqn:E3;
          cbn [fst snd];
          eexists; eexists; (split; [reflexivity|]);
          (split; [lia|]); (split; [exact Hav|]);
          intros Hs; rewrite poke_length; cbn [length]; lia.
      * cbn [fst snd].
        eexists. eexists. split; [reflexivity|].
        split; [lia|]. split; [exact Hav|].
        intros Hs. rewrite poke_length; cbn [length]; lia.
Qed.

(** X19. On an open port with an empty slot, [xsgetn] for n > 0 issues
    exactly one read of n bytes, returns the number of bytes read (0
    when the read fails) and stores them at the front of the array; the
    object is unchanged. *)
Theorem xsgetn_without_putback
    (st : Implementation) (w : World os) (s : list Z) (n : Z) :
  IsOpen st = true ->
  mPutbackAvailable st = false ->
  0 < n ->
  let fd := mFileDescriptor st in
  let w' := after w (snd (os_read os fd n (w_kernel w))) [SYS_read fd n] in
  match fst (os_read os fd n (w_kernel w)) with
  | Some bs =>
      let got := firstn (Z.to_nat n) bs in
      xsgetn os s n st w
      = (Ok (Z.of_nat (length got), poke s 0 got), st, w')
      /\ firstn (length got) (poke s 0 got) = got
  | None => xsgetn os s n st w = (Ok (0, s), st, w')
  end.
Proof.
  intros Hopen Hav Hn fd w'. unfold xsgetn. enter_open Hopen.
  assert (E1 : (n <=? 0) = false) by (apply Z.leb_gt; lia).
  rewrite E1. cbv beta iota. rewrite Hav.
  subst w' fd. unfold after.
  destruct (os_read os _ _ _) as [[bs|] k1]; cbn [fst snd].
  - cbv zeta. split; [|apply poke_front].
    destruct (Z.of_nat (length (firstn (Z.to_nat n) bs)) <=? 0) eqn:E;
      [|reflexivity].
    apply Z.leb_le in E.
    assert (E0 : length (firstn (Z.to_nat n) bs) = 0%nat) by lia.
    rewrite E0. reflexivity.
  - reflexivity.
Qed.

(** X20. On an open port none of the seven stream operations throws:
    each returns normally, whatever the system calls report. *)
Theorem stream_operations_do_not_throw
    (st : Implementation) (w : World os) (s : list Z) (n c : Z) :
  IsOpen st = true ->
  (exists v, fst (fst (xsputn os s n st w)) = Ok v)
  /\ (exists v, fst (fst (xsgetn os s n st w)) = Ok v)
  /\ (exists v, fst (fst (overflow os c st w)) = Ok v)
  /\ (exists v, fst (fst (underflow os st w)) = Ok v)
  /\ (exists v, fst (fst (uflow os st w)) = Ok v)
  /\ (exists v, fst (fst (pbackfail os c st w)) = Ok v)
  /\ (exists v, fst (fst (showmanyc os st w)) = Ok v).
Proof.
  intros Hopen.
  assert (Hunder : exists v, fst (fst (underflow os st w)) = Ok v).
  { destruct (mPutbackAvailable st) eqn:Hav.
    - rewrite (underflow_pending _ _ Hopen Hav). now eexists.
    - rewrite (underflow_empty _ _ Hopen Hav).
      destruct (fst (os_read os _ _ _)) as [[|b bs]|]; now eexists. }
  repeat split.
  - unfold xsputn. enter_open Hopen.
    destruct (n <=? 0); [now eexists|].
    destruct (os_write os _ _ _) as [r k1].
    destruct (r <=? 0); now eexists.
  - unfold xsgetn. enter_open Hopen.
    destruct (n <=? 0); [now eexists|]. cbv beta iota.
    destruct (mPutbackAvailable st).
    + destruct (n >? 1).
      * cbn [mFileDescriptor w_kernel w_trace].
        destruct (os_read os _ _ _) as [[bs|] k1];
          cbv beta iota zeta;
          repeat match goal with
                 | |- context [if ?b then _ else _] => destruct b
                 end;
          now eexists.
      * now eexists.
    + destruct (os_read os _ _ _) as [[bs|] k1];
        cbv beta iota zeta;
        repeat match goal with
               | |- context [if ?b then _ else _] => destruct b
               end;
        now eexists.
  - unfold overflow. enter_open Hopen.
    destruct (eq_int_type c traits_eof); [now eexists|].
    destruct (os_write os _ _ _) as [r k1].
    destruct (r <=? 0); now eexists.
  - exact Hunder.
  - rewrite (uflow_delegates _ _ Hopen). exact Hunder.
  - unfold pbackfail. enter_open Hopen.
    destruct (mPutbackAvailable st); [now eexists|].
    destruct (eq_int_type c traits_eof); now eexists.
  - destruct (showmanyc_cases st w Hopen) as (r & Hr & _).
    now exists r.
Qed.

(** ** Opening and closing *)

Lemma Open_flags (openMode access : Z) :
  open_access openMode access ->
  (if openMode =? Z.lor ios_in ios_out
   then Some (Z.lor (Z.lor O_RDWR O_NOCTTY) O_NONBLOCK)
   else if openMode =? ios_in
   then Some (Z.lor (Z.lor O_RDONLY O_NOCTTY) O_NONBLOCK)
   else if openMode =? ios_out
   then Some (Z.lor (Z.lor O_WRONLY O_NOCTTY) O_NONBLOCK)
   else None)
  = Some (Z.lor (Z.lor access O_NOCTTY) O_NONBLOCK).
Proof. intros [[-> ->]|[[-> ->]|[-> ->]]]; reflexivity. Qed.

Lemma closed_is_same (st : Implementation) :
  mFileDescriptor st = -1 ->
  mk_Implementation (mPutbackAvailable st) (mPutbackChar st) (-1)
                    (mOldPortSettings st) = st.
Proof. destruct st. cbn. now intros ->. Qed.

(** X21. On a closed object with an accepted open mode, when [open]
    fails [Open] raises OpenFailed after exactly two calls, the [open]
    with the access mode, O_NOCTTY and O_NONBLOCK and a [close] of -1,
    and the object is as before, still closed. *)
Theorem Open_reports_open_failure
    (path : string) (openMode access : Z)
    (st : Implementation) (w : World os) (k1 : kstate os) :
  mFileDescriptor st = -1 ->
  open_access openMode access ->
  let flags := Z.lor (Z.lor access O_NOCTTY) O_NONBLOCK in
  os_open os path flags (w_kernel w) = (None, k1) ->
  Open os path openMode st w
  = (Err OpenFailed, st,
     after w (snd (os_close os (-1) k1))
           [SYS_open path flags; SYS_close (-1)])
  /\ IsOpen st = false.
Proof.
  intros Hclosed Hmode flags Hcall. split; [|now apply IsOpen_false_iff].
  unfold Open, bind at 1, this.
  rewrite (proj2 (IsOpen_false_iff st) Hclosed). cbv zeta.
  rewrite (Open_flags _ _ Hmode). fold flags.
  cbv beta iota delta [bind ret throw this when_ open close syscall_ assign
                       set_mFileDescriptor].
  rewrite Hcall. cbn [mFileDescriptor w_kernel w_trace].
  change (-1 <? 0) with true. cbv beta iota. cbn [w_kernel w_trace].
  destruct (os_close os (-1) k1) as [r k2]. cbn [snd].
  rewrite (closed_is_same st Hclosed). unfold after.
  now rewrite <- app_assoc.
Qed.

(** X22. Once [open] has succeeded, [Open] leaves the object holding
    the new descriptor however it ends, also when a later step makes it
    raise: the object is then open and a further [Open] raises
    AlreadyOpen.  In particular, when reading the settings to save them
    fails, [Open] raises OpenFailed after the two calls [open] and
    [tcgetattr], without closing the descriptor. *)
Theorem Open_keeps_the_descriptor
    (path : string) (openMode access : Z)
    (st : Implementation) (w : World os) (n : nat) (k1 : kstate os) :
  mFileDescriptor st = -1 ->
  open_access openMode access ->
  let flags := Z.lor (Z.lor access O_NOCTTY) O_NONBLOCK in
  os_open os path flags (w_kernel w) = (Some n, k1) ->
  let st1 := snd (fst (Open os path openMode st w)) in
  mFileDescriptor st1 = Z.of_nat n
  /\ IsOpen st1 = true
  /\ (forall path' openMode' w',
        Open os path' openMode' st1 w' = (Err AlreadyOpen, st1, w'))
  /\ (forall k2,
        os_tcgetattr os (Z.of_nat n) k1 = (None, k2) ->
        Open os path openMode st w
        = (Err OpenFailed,
           mk_Implementation (mPutbackAvailable st) (mPutbackChar st)
                             (Z.of_nat n) (mOldPortSettings st),
           after w k2 [SYS_open path flags; SYS_tcgetattr (Z.of_nat n)])).
Proof.
  intros Hclosed Hmode flags Hcall st1.
  assert (Hfd : mFileDescriptor st1 = Z.of_nat n).
  { subst st1. unfold Open, bind at 1, this.
    rewrite (proj2 (IsOpen_false_iff st) Hclosed). cbv zeta.
    rewrite (Open_flags _ _ Hmode). fold flags.
    unfold bind at 1, open at 1, syscall_ at 1.
    rewrite Hcall. cbv beta iota.
    unfold bind at 1, set_mFileDescriptor at 1, assign at 1.
    cbv beta iota.
    match goal with
    | |- mFileDescriptor (snd (fst (?m ?s ?w0))) = _ =>
        assert (Hm : preserves
                       (fun a b => mFileDescriptor b = mFileDescriptor a) m)
    end.
    { pose proof handle_SetParametersToDefault as Hd.
      assert (Hd' : preserves
                      (fun a b => mFileDescriptor b = mFileDescriptor a)
                      (SetParametersToDefault os))
        by (intros a b; apply Hd).
      unfold InitializeSerialPort, FlushIOBuffers, SetPortBlockingStatus.
      unfold_calls.
      frame (fun a : Implementation => eq_refl (mFileDescriptor a))
            (fun (a b c : Implementation)
                 (H1 : mFileDescriptor b = mFileDescriptor a)
                 (H2 : mFileDescriptor c = mFileDescriptor b) =>
               eq_trans H2 H1)
            ltac:(intros; reflexivity). }
    apply Hm. }
  assert (Hopen1 : IsOpen st1 = true)
    by (apply IsOpen_true_iff; rewrite Hfd; lia).
  split; [exact Hfd|]. split; [exact Hopen1|]. split.
  - intros path' openMode' w'. unfold Open, bind, this.
    now rewrite Hopen1.
  - intros k2 Hget.
    unfold Open, bind at 1, this.
    rewrite (proj2 (IsOpen_false_iff st) Hclosed). cbv zeta.
    rewrite (Open_flags _ _ Hmode). fold flags.
    cbv beta iota delta [bind ret throw this when_ open syscall_ assign
                         set_mFileDescriptor tcgetattr].
    rewrite Hcall. cbn [mFileDescriptor w_kernel w_trace].
    assert (Hpos : (Z.of_nat n <? 0) = false) by (apply Z.ltb_ge; lia).
    rewrite Hpos. cbv beta iota. cbn [mFileDescriptor w_kernel w_trace].
    rewrite Hget. unfold after. now rewrite <- app_assoc.
Qed.

(** X23. [Close] on an open object first writes the saved settings
    back.  If that write fails it raises a runtime error, the descriptor
    is not closed and the object stays open; if the write succeeds but
    [close] fails it raises a runtime error and the object stays open;
    otherwise it returns normally after exactly these two calls, with
    the descriptor set to -1 and nothing else changed. *)
Theorem Close_outcomes (st : Implementation) (w : World os) :
  IsOpen st = true ->
  let fd := mFileDescriptor st in
  let old := mOldPortSettings st in
  let r1 := fst (os_tcsetattr os fd old (w_kernel w)) in
  let k1 := snd (os_tcsetattr os fd old (w_kernel w)) in
  let r2 := fst (os_close os fd k1) in
  let k2 := snd (os_close os fd k1) in
  (r1 < 0 ->
     Close os st w
     = (Err RuntimeError, st, after w k1 [SYS_tcsetattr fd old]))
  /\ (0 <= r1 -> r2 < 0 ->
     Close os st w
     = (Err RuntimeError, st,
        after w k2 [SYS_tcsetattr fd old; SYS_close fd]))
  /\ (0 <= r1 -> 0 <= r2 ->
     Close os st w
     = (Ok tt, closed st, after w k2 [SYS_tcsetattr fd old; SYS_close fd])
     /\ IsOpen (closed st) = false).
Proof.
  intros Hopen fd old r1 k1 r2 k2.
  subst r2 k2 r1 k1 fd old.
  unfold Close. enter_open Hopen. unfold after.
  destruct (os_tcsetattr os _ _ _) as [r1 k1]. cbn [fst snd].
  repeat split.
  - intros H1. apply Z.ltb_lt in H1. now rewrite H1.
  - intros H1 H2.
    assert (E1 : (r1 <? 0) = false) by (apply Z.ltb_ge; lia).
    rewrite E1. cbn [w_kernel w_trace].
    destruct (os_close os _ k1) as [r2 k2]. cbn [fst snd] in *.
    apply Z.ltb_lt in H2. rewrite H2. now rewrite <- app_assoc.
  - assert (E1 : (r1 <? 0) = false) by (apply Z.ltb_ge; lia).
    rewrite E1. cbn [w_kernel w_trace].
    destruct (os_close os _ k1) as [r2 k2]. cbn [fst snd] in *.
    assert (E2 : (r2 <? 0) = false) by (apply Z.ltb_ge; lia).
    rewrite E2. now rewrite <- app_assoc.
Qed.

(** ** The blocking status helpers *)

(** X24. [GetPortBlockingStatus] answers whether O_NONBLOCK is set:
    after [SetPortBlockingStatus b] has succeeded on a descriptor that
    keeps its flags, it returns the negation of [b]. *)
Theorem blocking_status_reads_inverted
    (b : bool) (st : Implementation) (w : World os)
    (flags r : Z) (k1 k2 k3 : kstate os) :
  let fd := mFileDescriptor st in
  let flags' :=
    if b then Z.land flags (Z.lnot O_NONBLOCK)
    else Z.lor flags O_NONBLOCK in
  os_fcntl_getfl os fd (w_kernel w) = (flags, k1) ->
  os_fcntl_setfl os fd flags' k1 = (r, k2) ->
  0 <= r ->
  os_fcntl_getfl os fd k2 = (flags', k3) ->
  let w2 := after w k2 [SYS_fcntl_getfl fd; SYS_fcntl_setfl fd flags'] in
  SetPortBlockingStatus os b st w = (Ok tt, st, w2)
  /\ GetPortBlockingStatus os st w2
     = (Ok (negb b), st, after w2 k3 [SYS_fcntl_getfl fd]).
Proof.
  intros fd flags' Hget Hset Hr Hget2 w2. subst fd.
  assert (E : (r <? 0) = false) by (apply Z.ltb_ge; lia).
  assert (Hread : (flags' =? Z.lor flags' O_NONBLOCK) = negb b).
  { subst flags'. destruct b; cbn [negb].
    - apply Z.eqb_neq. intros Heq.
      assert (H0 : Z.land (Z.land flags (Z.lnot O_NONBLOCK)) O_NONBLOCK = 0).
      { rewrite <- Z.land_assoc.
        change (Z.land (Z.lnot O_NONBLOCK) O_NONBLOCK) with 0.
        apply Z.land_0_r. }
      rewrite Heq, lor_land_same in H0. discriminate H0.
    - apply Z.eqb_eq. rewrite <- Z.lor_assoc, Z.lor_diag. reflexivity. }
  split.
  - unfold SetPortBlockingStatus, bind, this, fcntl_getfl, fcntl_setfl,
      syscall_, when_, ret.
    rewrite Hget. cbn [w_kernel w_trace].
    subst flags' w2.
    destruct b; cbv beta iota; cbn [w_kernel w_trace];
      rewrite Hset, E; unfold after; now rewrite <- app_assoc.
  - unfold GetPortBlockingStatus, bind, this, fcntl_getfl, syscall_, ret.
    subst w2. cbn [after w_kernel w_trace].
    rewrite Hget2. cbv zeta. rewrite Hread. reflexivity.
Qed.

End Properties.

(** * The properties on the simulated device *)

Lemma closed_and_open_guards_witness :
  Open Sim.line "/dev/ttyS0" (Z.lor ios_in ios_out)
       (Sim.opened false 0) (Sim.world Sim.healthy [])
  = (Err AlreadyOpen, Sim.opened false 0, Sim.world Sim.healthy [])
  /\ Close Sim.line Implementation_new (Sim.world Sim.healthy [])
     = (Err NotOpen, Implementation_new, Sim.world Sim.healthy []).
Proof.
  assert (Hopen : mFileDescriptor (Sim.opened false 0) <> -1)
    by (vm_compute; lia).
  assert (Hclosed : mFileDescriptor Implementation_new = -1)
    by reflexivity.
  destruct (closed_and_open_guards Sim.line (Sim.opened false 0)
              Implementation_new (Sim.world Sim.healthy [])
              Hopen Hclosed) as (H1 & H2 & _).
  split; [apply H1|exact H2].
Defined.

Lemma Open_unsupported_mode_is_noop_witness :
  Open Sim.line "/dev/ttyS0" 12 Implementation_new
       (Sim.world Sim.healthy [])
  = (Ok tt, Implementation_new, Sim.world Sim.healthy []).
Proof.
  destruct (Open_unsupported_mode_is_noop Sim.line "/dev/ttyS0" 12
              Implementation_new (Sim.world Sim.healthy []))
    as (H & _);
    [reflexivity | vm_compute; lia | vm_compute; lia | vm_compute; lia
    | exact H].
Defined.

Lemma write_path_contract_witness :
  xsputn Sim.line [65; 66] 0 (Sim.opened false 0)
         (Sim.world Sim.healthy [])
  = (Ok 0, Sim.opened false 0, Sim.world Sim.healthy [])
  /\ fst (fst (xsputn Sim.line [65; 66] 2 (Sim.opened false 0)
                      (Sim.world Sim.healthy []))) = Ok 2
  /\ fst (fst (overflow Sim.line 65 (Sim.opened false 0)
                        (Sim.world Sim.healthy []))) = Ok 65.
Proof.
  assert (Hopen : IsOpen (Sim.opened false 0) = true) by reflexivity.
  split; [|split].
  - destruct (write_path_contract Sim.line (Sim.opened false 0)
                (Sim.world Sim.healthy []) [65; 66] 0 65 Hopen)
      as (H & _).
    apply H. lia.
  - destruct (write_path_contract Sim.line (Sim.opened false 0)
                (Sim.world Sim.healthy []) [65; 66] 2 65 Hopen)
      as (_ & H & _).
    rewrite H by lia. reflexivity.
  - destruct (write_path_contract Sim.line (Sim.opened false 0)
                (Sim.world Sim.healthy []) [65; 66] 2 65 Hopen)
      as (_ & _ & _ & H).
    rewrite H by (vm_compute; lia). reflexivity.
Defined.

Lemma pbackfail_capacity_one_witness :
  pbackfail Sim.line 66 (Sim.opened true 65) (Sim.world Sim.healthy [])
  = (Ok traits_eof, Sim.opened true 65, Sim.world Sim.healthy [])
  /\ pbackfail Sim.line 66 (Sim.opened false 0) (Sim.world Sim.healthy [])
     = (Ok 66, Sim.opened true 66, Sim.world Sim.healthy []).
Proof.
  split.
  - destruct (pbackfail_capacity_one Sim.line (Sim.opened true 65)
                (Sim.world Sim.healthy []) 66 eq_refl) as (H & _).
    apply H. reflexivity.
  - destruct (pbackfail_capacity_one Sim.line (Sim.opened false 0)
                (Sim.world Sim.healthy []) 66 eq_refl) as (_ & _ & H).
    destruct H as [H _]; [reflexivity | vm_compute; lia | exact H].
Defined.

Lemma peek_twice_then_advance_witness :
  let st1 := Sim.opened true 66 in
  let w1 := after (Sim.world Sim.healthy [66; 67])
              (Sim.mk_kernel termios_zero 0 [67] [] : kstate Sim.line)
              [SYS_read 3 1] in
  underflow Sim.line (Sim.opened false 0) (Sim.world Sim.healthy [66; 67])
  = (Ok 66, st1, w1)
  /\ underflow Sim.line st1 w1 = (Ok 66, st1, w1)
  /\ uflow Sim.line st1 w1 = (Ok 66, Sim.opened false 66, w1).
Proof.
  intros st1 w1.
  assert (Hfirst :
            underflow Sim.line (Sim.opened false 0)
                      (Sim.world Sim.healthy [66; 67])
            = (Ok 66, st1, w1))
    by reflexivity.
  assert (Hc : 66 <> traits_eof) by (vm_compute; lia).
  destruct (peek_twice_then_advance Sim.line (Sim.opened false 0) st1
              (Sim.world Sim.healthy [66; 67]) w1 66 eq_refl Hfirst Hc)
    as (_ & H2 & H3 & _).
  split; [exact Hfirst|split; [exact H2|exact H3]].
Defined.

Lemma showmanyc_probe_witness :
  showmanyc Sim.line (Sim.opened true 65) (Sim.world Sim.healthy [])
  = (Ok 1, Sim.opened true 65, Sim.world Sim.healthy [])
  /\ fst (showmanyc Sim.line (Sim.opened false 0)
                    (Sim.world Sim.healthy [66]))
     = (Ok 1, Sim.opened true 66)
  /\ fst (showmanyc Sim.line (Sim.opened false 0)
                    (Sim.world Sim.healthy []))
     = (Ok 0, Sim.opened false 0).
Proof.
  split; [|split].
  - destruct (showmanyc_probe Sim.line (Sim.opened true 65)
                (Sim.world Sim.healthy []) eq_refl) as (H & _).
    apply H. reflexivity.
  - destruct (showmanyc_probe Sim.line (Sim.opened false 0)
                (Sim.world Sim.healthy [66]) eq_refl) as (_ & H).
    destruct (H eq_refl 0
                (Sim.mk_kernel termios_zero 0 [66] [])
                0
                (Sim.mk_kernel termios_zero O_NONBLOCK [66] [])
                eq_refl eq_refl) as (_ & H').
    exact (f_equal fst
             (H' (Z.le_refl 0) (Some [66])
                 (Sim.mk_kernel termios_zero O_NONBLOCK [] [])
                 0
                 (Sim.mk_kernel termios_zero 0 [] [])
                 eq_refl eq_refl)).
  - destruct (showmanyc_probe Sim.line (Sim.opened false 0)
                (Sim.world Sim.healthy []) eq_refl) as (_ & H).
    destruct (H eq_refl 0
                (Sim.mk_kernel termios_zero 0 [] [])
                0
                (Sim.mk_kernel termios_zero O_NONBLOCK [] [])
                eq_refl eq_refl) as (_ & H').
    exact (f_equal fst
             (H' (Z.le_refl 0) (Some [])
                 (Sim.mk_kernel termios_zero O_NONBLOCK [] [])
                 0
                 (Sim.mk_kernel termios_zero 0 [] [])
                 eq_refl eq_refl)).
Defined.

Lemma xsgetn_with_putback_witness :
  fst (xsgetn Sim.line [0; 0; 0] 3 (Sim.opened true 65)
              (Sim.world Sim.healthy [66; 67; 68]))
  = (Ok (3, [65; 66; 67]), Sim.opened false 65).
Proof.
  rewrite (xsgetn_with_putback Sim.line (Sim.opened true 65)
             (Sim.world Sim.healthy [66; 67; 68]) [0; 0; 0] 3
             eq_refl eq_refl) by lia.
  reflexivity.
Defined.

(** C1, as stated, fails: with a putback byte pending and n = 2, a
    failing read makes [xsgetn] return 0, although the byte has been
    moved to [s[0]] and the slot emptied. *)
Lemma xsgetn_putback_read_failure_reports_zero :
  IsOpen (Sim.opened true 65) = true
  /\ mPutbackAvailable (Sim.opened true 65) = true
  /\ fst (xsgetn (Sim.os Sim.read_fails) [0; 0] 2 (Sim.opened true 65)
                 (Sim.world Sim.read_fails [66]))
     = (Ok (0, [65; 0]), Sim.opened false 65).
Proof. repeat split. Qed.

(** The same with n = 1 and no read at all. *)
Lemma xsgetn_putback_single_on_line :
  xsgetn Sim.line [0; 0] 1 (Sim.opened true 65) (Sim.world Sim.healthy [66])
  = (Ok (0, [65; 0]), Sim.opened false 65, Sim.world Sim.healthy [66]).
Proof. reflexivity. Qed.

Lemma setters_validate_input_witness :
  (exists w2,
      SetVMin Sim.line 7 (Sim.opened false 0) (Sim.world Sim.healthy [])
      = (Ok tt, Sim.opened false 0, w2)
      /\ fst (GetVMin Sim.line (Sim.opened false 0) w2)
         = (Ok 7, Sim.opened false 0))
  /\ SetVMin Sim.line (-1) (Sim.opened false 0) (Sim.world Sim.healthy [])
     = (Err InvalidArgument, Sim.opened false 0, Sim.world Sim.healthy [])
  /\ SetVTime Sim.line 256 (Sim.opened false 0) (Sim.world Sim.healthy [])
     = (Err InvalidArgument, Sim.opened false 0, Sim.world Sim.healthy [])
  /\ fst (SetParity Sim.line PARITY_INVALID (Sim.opened false 0)
                    (Sim.world Sim.healthy []))
     = (Err InvalidArgument, Sim.opened false 0)
  /\ fst (SetFlowControl Sim.line FLOW_CONTROL_INVALID (Sim.opened false 0)
                         (Sim.world Sim.healthy []))
     = (Err InvalidArgument, Sim.opened false 0)
  /\ fst (SetBaudRate Sim.line BAUD_INVALID (Sim.opened false 0)
                      (Sim.world Sim.healthy []))
     = (Err RuntimeError, Sim.opened false 0)
  /\ fst (SetCharacterSize_value Sim.line 0x140 (Sim.opened false 0)
                                 (Sim.world Sim.healthy []))
     = (Ok tt, Sim.opened false 0)
  /\ fst (SetFlowControl (Sim.os Sim.flush_fails) FLOW_CONTROL_INVALID
                         (Sim.opened false 0)
                         (Sim.world Sim.flush_fails []))
     = (Err OpenFailed, Sim.opened false 0)
  /\ fst (SetNumberOfStopBits (Sim.os Sim.settings_unreadable)
                              STOP_BITS_OTHER (Sim.opened false 0)
                              (Sim.world Sim.settings_unreadable []))
     = (Err RuntimeError, Sim.opened false 0)
  /\ fst (SetFlowControl (Sim.os Sim.settings_unreadable)
                         FLOW_CONTROL_INVALID (Sim.opened false 0)
                         (Sim.world Sim.settings_unreadable []))
     = (Err RuntimeError, Sim.opened false 0).
Proof.
  destruct (setters_validate_input Sim.line (Sim.opened false 0)
              (Sim.world Sim.healthy []) eq_refl)
    as (Hmin & _ & Hrange & Henum & Hflow & _ & _ & _ & _ & _ & _ & _
        & Hbaud & _ & _ & Hsize).
  destruct (setters_validate_input (Sim.os Sim.flush_fails)
              (Sim.opened false 0) (Sim.world Sim.flush_fails []) eq_refl)
    as (_ & _ & _ & _ & _ & _ & _ & _ & _ & Hflush & _).
  destruct (setters_validate_input (Sim.os Sim.settings_unreadable)
              (Sim.opened false 0) (Sim.world Sim.settings_unreadable [])
              eq_refl)
    as (_ & _ & _ & _ & _ & _ & _ & _ & Hread & _ & Hflowread & _).
  repeat match goal with |- _ /\ _ => split end.
  - edestruct (Hmin 7 termios_zero) as [Hs Hg];
      [lia | reflexivity | reflexivity | apply Z.le_refl | reflexivity |].
    eexists. split; [exact Hs|]. rewrite Hg. reflexivity.
  - apply Hrange. left. lia.
  - apply Hrange. right. lia.
  - edestruct Henum as [Hp _]; [reflexivity|]. rewrite Hp. reflexivity.
  - erewrite Hflow; [reflexivity | reflexivity | apply Z.le_refl
                     | reflexivity].
  - erewrite (Hbaud BAUD_INVALID termios_zero);
      [reflexivity | reflexivity | left; reflexivity].
  - erewrite (Hsize 0x140 termios_zero);
      [reflexivity | reflexivity | reflexivity | apply Z.le_refl].
  - erewrite Hflush; [reflexivity | reflexivity | reflexivity].
  - edestruct Hread as [_ Hb]; [reflexivity|]. rewrite Hb. reflexivity.
  - erewrite Hflowread; [reflexivity | reflexivity | apply Z.le_refl
                         | reflexivity].
Defined.

(** C5, as stated, fails: an invalid input to a setter is not always
    an InvalidArgument, and the settings do not always stay as they
    were.  A rate that is no rate makes [SetBaudRate] raise a runtime
    error; [SetFlowControl] given the INVALID sentinel raises OpenFailed
    when its buffer flush fails; and [SetCharacterSize] given 0x140,
    which is none of the four encodings, succeeds and writes PARENB and
    CSTOPB, so that parity and stop bits read differently afterwards. *)
Lemma invalid_input_reported_otherwise :
  IsOpen (Sim.opened false 0) = true
  /\ fst (SetBaudRate Sim.line BAUD_INVALID (Sim.opened false 0)
                      (Sim.world Sim.healthy []))
     = (Err RuntimeError, Sim.opened false 0)
  /\ fst (SetFlowControl (Sim.os Sim.flush_fails) FLOW_CONTROL_INVALID
                         (Sim.opened false 0)
                         (Sim.world Sim.flush_fails []))
     = (Err OpenFailed, Sim.opened false 0)
  /\ forallb (fun c => negb (CharacterSize_bits c =? 0x140))
       [CHAR_SIZE_5; CHAR_SIZE_6; CHAR_SIZE_7; CHAR_SIZE_8] = true
  /\ fst (SetCharacterSize_value Sim.line 0x140 (Sim.opened false 0)
                                 (Sim.world Sim.healthy []))
     = (Ok tt, Sim.opened false 0)
  /\ fst (GetParity Sim.line (Sim.opened false 0)
                    (Sim.world Sim.healthy []))
     = (Ok PARITY_NONE, Sim.opened false 0)
  /\ fst (GetParity Sim.line (Sim.opened false 0)
            (snd (SetCharacterSize_value Sim.line 0x140
                    (Sim.opened false 0) (Sim.world Sim.healthy []))))
     = (Ok PARITY_EVEN, Sim.opened false 0)
  /\ fst (GetNumberOfStopBits Sim.line (Sim.opened false 0)
                              (Sim.world Sim.healthy []))
     = (Ok STOP_BITS_1, Sim.opened false 0)
  /\ fst (GetNumberOfStopBits Sim.line (Sim.opened false 0)
            (snd (SetCharacterSize_value Sim.line 0x140
                    (Sim.opened false 0) (Sim.world Sim.healthy []))))
     = (Ok STOP_BITS_2, Sim.opened false 0).
Proof. repeat split. Qed.

Lemma GetFlowControl_classification_witness :
  fst (GetFlowControl Sim.line (Sim.opened false 0)
                      (Sim.world Sim.healthy []))
  = (Ok FLOW_CONTROL_NONE, Sim.opened false 0).
Proof.
  destruct (GetFlowControl_classification Sim.line (Sim.opened false 0)
              (Sim.world Sim.healthy []) termios_zero
              (Sim.mk_kernel termios_zero 0 [] [] : kstate Sim.line)
              eq_refl eq_refl) as (fc & Hrun & _ & _ & Hnone & _).
  rewrite Hrun. cbn [fst]. f_equal. f_equal. apply Hnone.
  unfold bit_set. cbn. repeat split; intros H; now apply H.
Defined.

Lemma putback_survives_reopen_witness :
  IsOpen (snd (fst Sim.after_reopen)) = true
  /\ fst (fst (underflow Sim.line (snd (fst Sim.after_reopen))
                         (snd Sim.after_reopen))) = Ok 65
  /\ w_trace (snd (underflow Sim.line (snd (fst Sim.after_reopen))
                             (snd Sim.after_reopen)))
     = w_trace (snd Sim.after_reopen).
Proof.
  assert (Hclose :
            Close Sim.line (Sim.opened true 65) (Sim.world Sim.healthy [66])
            = (Ok tt, snd (fst Sim.after_close), snd Sim.after_close))
    by (vm_compute; reflexivity).
  assert (Hreopen :
            Open Sim.line "/dev/ttyS0" (Z.lor ios_in ios_out)
                 (snd (fst Sim.after_close)) (snd Sim.after_close)
            = (Ok tt, snd (fst Sim.after_reopen), snd Sim.after_reopen))
    by (vm_compute; reflexivity).
  assert (Hopen : IsOpen (snd (fst Sim.after_reopen)) = true)
    by (vm_compute; reflexivity).
  destruct (putback_survives_reopen Sim.line "/dev/ttyS0"
              (Z.lor ios_in ios_out) (Sim.opened true 65)
              (snd (fst Sim.after_close)) (snd (fst Sim.after_reopen))
              (Sim.world Sim.healthy [66])
              (snd Sim.after_close) (snd Sim.after_reopen)
              eq_refl Hclose Hreopen Hopen) as (_ & _ & _ & H & Htr).
  split; [exact Hopen|]. split; [|exact Htr].
  exact (f_equal (fun r => fst (fst r)) H).
Defined.

(** ** The further properties on the simulated device *)

Lemma Sim_line_steady : steady_line Sim.line 3 Sim.k_termios.
Proof. constructor; intros; split; reflexivity || discriminate. Qed.

Lemma Sim_line_steady_flags : steady_flags Sim.line 3 Sim.k_termios.
Proof.
  constructor; intros; [reflexivity|]. split; [discriminate|reflexivity].
Qed.

Lemma Sim_line_accepts (rate : Z) (t : termios) :
  Sim.valid_speed rate = true ->
  exists t1 t2,
    os_cfsetspeed Sim.line t rate = Some t1
    /\ os_cfsetospeed Sim.line t1 rate = Some t2.
Proof.
  intros H. cbn [os_cfsetspeed os_cfsetospeed Sim.line Sim.os].
  rewrite H. eexists. eexists. split; reflexivity.
Qed.

Lemma CharacterSize_round_trip_witness :
  fst (GetCharacterSize Sim.line (Sim.opened false 0)
         (snd (SetCharacterSize Sim.line CHAR_SIZE_7 (Sim.opened false 0)
                 (Sim.world Sim.healthy []))))
  = (Ok CHAR_SIZE_7, Sim.opened false 0).
Proof.
  pose proof (CharacterSize_round_trip Sim.line 3 Sim.k_termios
                Sim_line_steady CHAR_SIZE_7 (Sim.opened false 0)
                (Sim.world Sim.healthy []) eq_refl eq_refl) as H.
  cbv zeta in H. exact (proj1 (proj2 H)).
Defined.

Lemma FlowControl_round_trip_witness :
  fst (GetFlowControl Sim.line (Sim.opened false 0)
         (snd (SetFlowControl Sim.line FLOW_CONTROL_SOFTWARE
                 (Sim.opened false 0) (Sim.world Sim.healthy []))))
  = (Ok FLOW_CONTROL_SOFTWARE, Sim.opened false 0).
Proof.
  assert (Hf : FLOW_CONTROL_SOFTWARE <> FLOW_CONTROL_INVALID)
    by discriminate.
  exact (proj2 (FlowControl_round_trip Sim.line 3 Sim.k_termios
                  Sim_line_steady FLOW_CONTROL_SOFTWARE (Sim.opened false 0)
                  (Sim.world Sim.healthy []) eq_refl eq_refl Hf)).
Defined.

Lemma Parity_round_trip_witness :
  fst (GetParity Sim.line (Sim.opened false 0)
         (snd (SetParity Sim.line PARITY_ODD (Sim.opened false 0)
                 (Sim.world Sim.healthy []))))
  = (Ok PARITY_ODD, Sim.opened false 0).
Proof.
  assert (Hp : PARITY_ODD <> PARITY_INVALID) by discriminate.
  exact (proj2 (Parity_round_trip Sim.line 3 Sim.k_termios
                  Sim_line_steady PARITY_ODD (Sim.opened false 0)
                  (Sim.world Sim.healthy []) eq_refl eq_refl Hp)).
Defined.

Lemma StopBits_round_trip_witness :
  fst (GetNumberOfStopBits Sim.line (Sim.opened false 0)
         (snd (SetNumberOfStopBits Sim.line STOP_BITS_2 (Sim.opened false 0)
                 (Sim.world Sim.healthy []))))
  = (Ok STOP_BITS_2, Sim.opened false 0).
Proof.
  assert (Hn : STOP_BITS_2 <> STOP_BITS_OTHER) by discriminate.
  exact (proj2 (StopBits_round_trip Sim.line 3 Sim.k_termios
                  Sim_line_steady STOP_BITS_2 (Sim.opened false 0)
                  (Sim.world Sim.healthy []) eq_refl eq_refl Hn)).
Defined.

Lemma BaudRate_round_trip_witness :
  fst (GetBaudRate Sim.line (Sim.opened false 0)
         (snd (SetBaudRate Sim.line 13 (Sim.opened false 0)
                 (Sim.world Sim.healthy []))))
  = (Ok 13, Sim.opened false 0)
  /\ fst (SetBaudRate Sim.line BAUD_INVALID (Sim.opened false 0)
            (Sim.world Sim.healthy []))
     = (Err RuntimeError, Sim.opened false 0).
Proof.
  split.
  - pose proof (BaudRate_round_trip Sim.line 3 Sim.k_termios
                  Sim_line_steady 13 (Sim.opened false 0)
                  (Sim.world Sim.healthy []) eq_refl eq_refl) as H.
    cbv zeta in H. destruct H as [H _].
    exact (proj2 (H _ _ eq_refl eq_refl eq_refl eq_refl)).
  - pose proof (BaudRate_round_trip Sim.line 3 Sim.k_termios
                  Sim_line_steady BAUD_INVALID (Sim.opened false 0)
                  (Sim.world Sim.healthy []) eq_refl eq_refl) as H.
    cbv zeta in H. destruct H as [_ H].
    exact (proj1 (H eq_refl)).
Defined.

Lemma SetCharacterSize_leaves_the_rest_witness :
  fst (GetParity Sim.line (Sim.opened false 0)
         (snd (SetCharacterSize Sim.line CHAR_SIZE_7 (Sim.opened false 0)
                 (Sim.world Sim.healthy []))))
  = fst (GetParity Sim.line (Sim.opened false 0)
           (Sim.world Sim.healthy [])).
Proof.
  pose proof (SetCharacterSize_leaves_the_rest Sim.line 3 Sim.k_termios
                Sim_line_steady CHAR_SIZE_7 (Sim.opened false 0)
                (Sim.world Sim.healthy []) eq_refl eq_refl) as H.
  cbv zeta in H. exact (proj1 (proj2 H)).
Defined.

Lemma SetFlowControl_leaves_the_rest_witness :
  fst (GetVMin Sim.line (Sim.opened false 0)
         (snd (SetFlowControl Sim.line FLOW_CONTROL_SOFTWARE
                 (Sim.opened false 0) (Sim.world Sim.healthy []))))
  = fst (GetVMin Sim.line (Sim.opened false 0) (Sim.world Sim.healthy [])).
Proof.
  pose proof (SetFlowControl_leaves_the_rest Sim.line 3 Sim.k_termios
                Sim_line_steady FLOW_CONTROL_SOFTWARE (Sim.opened false 0)
                (Sim.world Sim.healthy []) eq_refl eq_refl) as H.
  cbv zeta in H. exact (proj1 (proj2 (proj2 (proj2 H)))).
Defined.

Lemma SetParity_leaves_the_rest_witness :
  fst (GetNumberOfStopBits Sim.line (Sim.opened false 0)
         (snd (SetParity Sim.line PARITY_EVEN (Sim.opened false 0)
                 (Sim.world Sim.healthy []))))
  = fst (GetNumberOfStopBits Sim.line (Sim.opened false 0)
           (Sim.world Sim.healthy [])).
Proof.
  pose proof (SetParity_leaves_the_rest Sim.line 3 Sim.k_termios
                Sim_line_steady PARITY_EVEN (Sim.opened false 0)
                (Sim.world Sim.healthy []) eq_refl eq_refl) as H.
  cbv zeta in H. exact (proj1 (proj2 (proj2 H))).
Defined.

Lemma SetNumberOfStopBits_leaves_the_rest_witness :
  fst (GetParity Sim.line (Sim.opened false 0)
         (snd (SetNumberOfStopBits Sim.line STOP_BITS_2 (Sim.opened false 0)
                 (Sim.world Sim.healthy []))))
  = fst (GetParity Sim.line (Sim.opened false 0)
           (Sim.world Sim.healthy [])).
Proof.
  pose proof (SetNumberOfStopBits_leaves_the_rest Sim.line 3 Sim.k_termios
                Sim_line_steady STOP_BITS_2 (Sim.opened false 0)
                (Sim.world Sim.healthy []) eq_refl eq_refl) as H.
  cbv zeta in H. exact (proj1 (proj2 (proj2 H))).
Defined.

Lemma SetVMin_SetVTime_leave_the_rest_witness :
  fst (GetVTime Sim.line (Sim.opened false 0)
         (snd (SetVMin Sim.line 7 (Sim.opened false 0)
                 (Sim.world Sim.healthy []))))
  = fst (GetVTime Sim.line (Sim.opened false 0) (Sim.world Sim.healthy [])).
Proof.
  pose proof (SetVMin_SetVTime_leave_the_rest Sim.line 3 Sim.k_termios
                Sim_line_steady 7 (Sim.opened false 0)
                (Sim.world Sim.healthy []) eq_refl eq_refl) as H.
  cbv zeta in H. destruct H as [(_ & _ & _ & _ & H) _]. exact H.
Defined.

Lemma SetParametersToDefault_gives_defaults_witness :
  fst (SetParametersToDefault Sim.line (Sim.opened false 0)
         (Sim.world Sim.healthy []))
  = (Ok tt, Sim.opened false 0)
  /\ fst (GetCharacterSize Sim.line (Sim.opened false 0)
            (snd (SetParametersToDefault Sim.line (Sim.opened false 0)
                    (Sim.world Sim.healthy []))))
     = (Ok CHAR_SIZE_8, Sim.opened false 0).
Proof.
  pose proof (SetParametersToDefault_gives_defaults Sim.line 3
                Sim.k_termios Sim_line_steady (Sim.opened false 0)
                (Sim.world Sim.healthy []) eq_refl eq_refl
                (fun t => Sim_line_accepts B115200 t eq_refl)) as H.
  cbv zeta in H. exact (conj (proj1 H) (proj1 (proj2 H))).
Defined.

Lemma Open_on_steady_line_witness :
  fst (fst (Open Sim.line "/dev/ttyS0" (Z.lor ios_in ios_out)
              Implementation_new (Sim.world Sim.healthy [])))
  = Ok tt.
Proof.
  pose proof (Open_on_steady_line Sim.line 3 Sim.k_termios Sim_line_steady
                "/dev/ttyS0" (Z.lor ios_in ios_out) O_RDWR
                Implementation_new (Sim.world Sim.healthy []) 3%nat
                (Sim.mk_kernel termios_zero
                   (Z.lor (Z.lor O_RDWR O_NOCTTY) O_NONBLOCK) [] [])
                Sim_line_steady_flags eq_refl
                (or_introl (conj eq_refl eq_refl)) eq_refl eq_refl
                (fun t => Sim_line_accepts B115200 t eq_refl)) as H.
  cbv zeta in H. exact (f_equal fst (proj1 H)).
Defined.

Lemma constructor_applies_parameters_witness :
  fst (GetParity Sim.line
         (mk_Implementation false 0 3 termios_zero)
         (snd (Implementation_ctor Sim.line "/dev/ttyS0" 13 CHAR_SIZE_7
                 FLOW_CONTROL_HARDWARE PARITY_EVEN STOP_BITS_2
                 Implementation_new (Sim.world Sim.healthy []))))
  = (Ok PARITY_EVEN, mk_Implementation false 0 3 termios_zero).
Proof.
  assert (Hlibc : forall rate t, rate = B115200 \/ rate = 13 ->
            exists t1 t2,
              os_cfsetspeed Sim.line t rate = Some t1
              /\ os_cfsetospeed Sim.line t1 rate = Some t2).
  { intros rate t [->| ->]; now apply Sim_line_accepts. }
  assert (Hf : FLOW_CONTROL_HARDWARE <> FLOW_CONTROL_INVALID)
    by discriminate.
  assert (Hp : PARITY_EVEN <> PARITY_INVALID) by discriminate.
  assert (Hsb : STOP_BITS_2 <> STOP_BITS_OTHER) by discriminate.
  pose proof (constructor_applies_parameters Sim.line 3 Sim.k_termios
                Sim_line_steady "/dev/ttyS0" 13 CHAR_SIZE_7
                FLOW_CONTROL_HARDWARE PARITY_EVEN STOP_BITS_2
                Implementation_new (Sim.world Sim.healthy []) 3%nat
                (Sim.mk_kernel termios_zero
                   (Z.lor (Z.lor O_RDWR O_NOCTTY) O_NONBLOCK) [] [])
                Sim_line_steady_flags eq_refl eq_refl Hlibc Hf Hp Hsb) as H.
  cbv zeta in H.
  exact (proj1 (proj2 (proj2 (proj2 (proj2 H))))).
Defined.

Lemma Open_then_Close_restores_witness :
  fst (fst (Close Sim.line
              (snd (fst (Open Sim.line "/dev/ttyS0" ios_in
                           Implementation_new (Sim.world Sim.healthy []))))
              (snd (Open Sim.line "/dev/ttyS0" ios_in
                      Implementation_new (Sim.world Sim.healthy [])))))
  = Ok tt.
Proof.
  pose proof (Open_then_Close_restores Sim.line 3 Sim.k_termios
                Sim_line_steady "/dev/ttyS0" ios_in O_RDONLY
                Implementation_new (Sim.world Sim.healthy []) 3%nat
                (Sim.mk_kernel termios_zero
                   (Z.lor (Z.lor O_RDONLY O_NOCTTY) O_NONBLOCK) [] [])
                Sim_line_steady_flags eq_refl
                (or_intror (or_introl (conj eq_refl eq_refl)))
                eq_refl eq_refl
                (fun t => Sim_line_accepts B115200 t eq_refl)
                (fun k => Z.le_refl 0)) as H.
  cbv zeta in H. exact (f_equal fst (proj1 (proj2 H))).
Defined.

Lemma pushback_then_read_witness :
  pbackfail Sim.line 65 (Sim.opened false 0) (Sim.world Sim.healthy [66])
  = (Ok 65, Sim.opened true 65, Sim.world Sim.healthy [66])
  /\ uflow Sim.line (Sim.opened true 65) (Sim.world Sim.healthy [66])
     = (Ok 65, Sim.opened false 65, Sim.world Sim.healthy [66]).
Proof.
  assert (Hc : 0 <= 65 < 256) by lia.
  pose proof (pushback_then_read Sim.line (Sim.opened false 0)
                (Sim.world Sim.healthy [66]) 65 eq_refl eq_refl Hc) as H.
  cbv zeta in H. exact (conj (proj1 H) (proj1 (proj2 (proj2 H)))).
Defined.

Lemma probe_keeps_the_byte_witness :
  exists r,
    fst (fst (showmanyc Sim.line (Sim.opened false 0)
                (Sim.world Sim.healthy [66]))) = Ok r
    /\ (r = -1 \/ r = 0 \/ r = 1).
Proof.
  pose proof (probe_keeps_the_byte Sim.line (Sim.opened false 0)
                (Sim.world Sim.healthy [66]) eq_refl) as H.
  cbv zeta in H. destruct H as (r & Hr & Hrange & _).
  exists r. exact (conj Hr Hrange).
Defined.

Lemma xsgetn_count_is_bounded_witness :
  xsgetn Sim.line [0; 0] 0 (Sim.opened true 65) (Sim.world Sim.healthy [66])
  = (Ok (0, [0; 0]), Sim.opened true 65, Sim.world Sim.healthy [66])
  /\ exists count s',
       fst (fst (xsgetn Sim.line [0; 0] 2 (Sim.opened true 65)
                   (Sim.world Sim.healthy [66]))) = Ok (count, s')
       /\ 0 <= count <= 2.
Proof.
  destruct (xsgetn_count_is_bounded Sim.line (Sim.opened true 65)
              (Sim.world Sim.healthy [66]) [0; 0] 0 eq_refl) as [H0 _].
  destruct (xsgetn_count_is_bounded Sim.line (Sim.opened true 65)
              (Sim.world Sim.healthy [66]) [0; 0] 2 eq_refl) as [_ H2].
  split; [apply H0; lia|].
  destruct H2 as (count & s' & Hres & Hrange & _); [lia|].
  exists count, s'. exact (conj Hres Hrange).
Defined.

Lemma xsgetn_without_putback_witness :
  xsgetn Sim.line [0; 0; 0] 2 (Sim.opened false 0)
         (Sim.world Sim.healthy [66; 67; 68])
  = (Ok (2, [66; 67; 0]), Sim.opened false 0,
     after (Sim.world Sim.healthy [66; 67; 68])
           (Sim.mk_kernel termios_zero 0 [68] [] : kstate Sim.line)
           [SYS_read 3 2]).
Proof.
  assert (Hn : 0 < 2) by lia.
  pose proof (xsgetn_without_putback Sim.line (Sim.opened false 0)
                (Sim.world Sim.healthy [66; 67; 68]) [0; 0; 0] 2
                eq_refl eq_refl Hn) as H.
  exact (proj1 H).
Defined.

Lemma stream_operations_do_not_throw_witness :
  exists v,
    fst (fst (underflow (Sim.os Sim.read_fails) (Sim.opened false 0)
                (Sim.world Sim.read_fails []))) = Ok v.
Proof.
  pose proof (stream_operations_do_not_throw (Sim.os Sim.read_fails)
                (Sim.opened false 0) (Sim.world Sim.read_fails [])
                [] 0 0 eq_refl) as H.
  exact (proj1 (proj2 (proj2 (proj2 H)))).
Defined.

Lemma Open_reports_open_failure_witness :
  Open Sim.no_device "/dev/ttyS9" ios_out Implementation_new
       (mk_World (Sim.mk_kernel termios_zero 0 [] [] : kstate Sim.no_device)
                 [])
  = (Err OpenFailed, Implementation_new,
     mk_World (Sim.mk_kernel termios_zero 0 [] [] : kstate Sim.no_device)
              [SYS_open "/dev/ttyS9"
                 (Z.lor (Z.lor O_WRONLY O_NOCTTY) O_NONBLOCK);
               SYS_close (-1)]).
Proof.
  pose proof (Open_reports_open_failure Sim.no_device "/dev/ttyS9"
                ios_out O_WRONLY Implementation_new
                (mk_World
                   (Sim.mk_kernel termios_zero 0 [] [] : kstate Sim.no_device)
                   [])
                (Sim.mk_kernel termios_zero 0 [] [])
                eq_refl
                (or_intror (or_intror (conj eq_refl eq_refl)))) as H.
  cbv zeta in H. exact (proj1 (H eq_refl)).
Defined.

Lemma Open_keeps_the_descriptor_witness :
  Open (Sim.os Sim.settings_unreadable) "/dev/ttyS0" ios_in
       Implementation_new (Sim.world Sim.settings_unreadable [])
  = (Err OpenFailed, mk_Implementation false 0 3 termios_zero,
     after (Sim.world Sim.settings_unreadable [])
           (Sim.mk_kernel termios_zero
              (Z.lor (Z.lor O_RDONLY O_NOCTTY) O_NONBLOCK) [] []
            : kstate (Sim.os Sim.settings_unreadable))
           [SYS_open "/dev/ttyS0"
              (Z.lor (Z.lor O_RDONLY O_NOCTTY) O_NONBLOCK);
            SYS_tcgetattr 3]).
Proof.
  pose proof (Open_keeps_the_descriptor (Sim.os Sim.settings_unreadable)
                "/dev/ttyS0" ios_in O_RDONLY Implementation_new
                (Sim.world Sim.settings_unreadable []) 3%nat
                (Sim.mk_kernel termios_zero
                   (Z.lor (Z.lor O_RDONLY O_NOCTTY) O_NONBLOCK) [] [])
                eq_refl
                (or_intror (or_introl (conj eq_refl eq_refl)))) as H.
  cbv zeta in H.
  exact (proj2 (proj2 (proj2 (H eq_refl))) _ eq_refl).
Defined.

Lemma Close_outcomes_witness :
  Close Sim.line (Sim.opened true 65) (Sim.world Sim.healthy [66])
  = (Ok tt, mk_Implementation true 65 (-1) termios_zero,
     after (Sim.world Sim.healthy [66])
           (Sim.mk_kernel termios_zero 0 [66] [] : kstate Sim.line)
           [SYS_tcsetattr 3 termios_zero; SYS_close 3]).
Proof.
  pose proof (Close_outcomes Sim.line (Sim.opened true 65)
                (Sim.world Sim.healthy [66]) eq_refl) as H.
  cbv zeta in H.
  exact (proj1 (proj2 (proj2 H) (Z.le_refl 0) (Z.le_refl 0))).
Defined.

Lemma blocking_status_reads_inverted_witness :
  fst (GetPortBlockingStatus Sim.line (Sim.opened false 0)
         (after (Sim.world Sim.healthy [])
                (Sim.mk_kernel termios_zero O_NONBLOCK [] []
                 : kstate Sim.line)
                [SYS_fcntl_getfl 3; SYS_fcntl_setfl 3 O_NONBLOCK]))
  = (Ok true, Sim.opened false 0).
Proof.
  pose proof (blocking_status_reads_inverted Sim.line false
                (Sim.opened false 0) (Sim.world Sim.healthy [])
                0 0
                (Sim.mk_kernel termios_zero 0 [] [])
                (Sim.mk_kernel termios_zero O_NONBLOCK [] [])
                (Sim.mk_kernel termios_zero O_NONBLOCK [] [])) as H.
  cbv zeta in H.
  exact (f_equal fst (proj2 (H eq_refl eq_refl (Z.le_refl 0) eq_refl))).
Defined.
